(** * SyncKoura: the reconciliation core of the Koura Wealth / Ghostfolio sync

    A shallow embedding of [src/SyncKoura.py]: the two normalizers
    ([format_existing_act], [format_new_act]), the duplicate test
    ([is_act_present]), the diff engine ([get_diff]), the valuation lookup
    ([get_unit_price_for_date]) and the snapshot reconstructor
    ([reconstruct_fund_purchases]).

    Python values are JSON values; a raised exception is an explicit [Raise]
    result; calls to [logger] are collected by a small writer monad. *)

From Stdlib Require Import ZArith String Ascii List Lia.
From Stdlib Require Import Floats.SpecFloat.
From stdpp Require Import base strings gmap list pretty.

Local Open Scope Z_scope.
Set Warnings "-register-all".

(** ** Python values *)

(** Python's [float] is IEEE 754 binary64: the specification floats of the
    Standard Library at precision 53 and maximal exponent 1024. *)
Abbreviation float := spec_float.

Definition prec : Z := 53.
Definition emax : Z := 1024.

(** What [json] decodes to, which is also all the program builds. A NaN in
    a value is the NaN object of the decoder. *)
Inductive value : Type :=
  | VNone
  | VBool (b : bool)
  | VInt (z : Z)
  | VFloat (f : float)
  | VStr (s : string)
  | VList (l : list value)
  | VDict (d : list (string * value)).

(** A [dict] with string keys, in insertion order. *)
Abbreviation dict := (list (string * value)).

Inductive exn : Type :=
  | KeyError (k : string)
  | TypeError
  | ValueError
  | AttributeError
  | OverflowError
  | ZeroDivisionError.

Inductive result (A : Type) : Type :=
  | Ok (a : A)
  | Raise (e : exn).
Arguments Ok {A} a.
Arguments Raise {A} e.

(** One call of [logger.warning] or [logger.info]: the format string and its
    arguments (the arguments are evaluated before the call, so an argument that
    raises prevents the record). *)
Inductive log_record : Type :=
  | LogWarning (fmt : string) (args : list value)
  | LogInfo (fmt : string) (args : list value).

(** ** Errors and logging: a writer monad over [result] *)

Definition M (A : Type) : Type := (list log_record * result A)%type.

Definition ret {A} (a : A) : M A := ([], Ok a).
Definition lift {A} (r : result A) : M A := ([], r).
Definition emit (r : log_record) : M unit := ([r], Ok tt).

Definition bind {A B} (m : M A) (k : A -> M B) : M B :=
  match m with
  | (l, Ok a) => let '(l', r) := k a in (l ++ l', r)
  | (l, Raise e) => (l, Raise e)
  end.

Definition run {A} (m : M A) : result A := snd m.
Definition logged {A} (m : M A) : list log_record := fst m.

Declare Scope py_scope.
Delimit Scope py_scope with py.
Notation "'let*' x ':=' m 'in' k" := (bind m (fun x => k))
  (at level 10, x name, m at level 100, k at level 200) : py_scope.
Local Open Scope py_scope.

Definition rbind {A B} (r : result A) (k : A -> result B) : result B :=
  match r with
  | Ok a => k a
  | Raise e => Raise e
  end.

(** ** Builtins of the Python runtime

    The parts of the runtime whose exact behaviour is decimal/binary
    conversion or locale-free formatting are taken as given: every theorem
    below holds for any implementation of them. *)
Record ymd : Type := { year : Z; month : Z; day : Z }.

Class PyBuiltins : Type := {
  (** [float(s)] for a [str]; [None] is [ValueError] *)
  float_of_str : string -> option float;
  (** [round(x, 2)] for a [float] *)
  float_round2 : float -> float;
  (** [format(x, ".4f")] for a [float] *)
  float_format_4f : float -> string;
  (** [repr(v)], used by [str(v)] for floats, lists and dicts *)
  py_repr : value -> string;
  (** [datetime.strptime(s, "%Y-%m-%d")]; [None] is [ValueError] *)
  strptime_ymd : string -> option ymd;
}.

(** [d.get(k)] on a dict *)
Fixpoint dict_get (k : string) (d : dict) : option value :=
  match d with
  | [] => None
  | (k', v) :: d' => if String.eqb k k' then Some v else dict_get k d'
  end.

(** [d[k]] *)
Definition py_getitem (d : dict) (k : string) : result value :=
  match dict_get k d with
  | Some v => Ok v
  | None => Raise (KeyError k)
  end.

(** [v.get(k)] on an arbitrary value: only a dict has the method. *)
Definition py_get (v : value) (k : string) : result value :=
  match v with
  | VDict d => Ok (default VNone (dict_get k d))
  | _ => Raise AttributeError
  end.

(** [len(v)] *)
Definition py_len (v : value) : result nat :=
  match v with
  | VStr s => Ok (String.length s)
  | VList l => Ok (List.length l)
  | VDict d => Ok (List.length d)
  | _ => Raise TypeError
  end.

(** [bool(v)] *)
Definition py_truthy (v : value) : bool :=
  match v with
  | VNone => false
  | VBool b => b
  | VInt z => negb (z =? 0)
  | VFloat f => negb (SFeqb f (S754_zero false))
  | VStr s => negb (String.eqb s "")
  | VList l => match l with [] => false | _ => true end
  | VDict d => match d with [] => false | _ => true end
  end.

Definition Z_of_bool (b : bool) : Z := if b then 1 else 0.

(** [float(n)] for an [int]: round to nearest even, [OverflowError] beyond the
    largest double. *)
Definition float_of_int (z : Z) : result float :=
  match binary_normalize prec emax z 0 false with
  | S754_infinity _ => Raise OverflowError
  | f => Ok f
  end.

(** [float(v)] *)
Definition py_float `{PyBuiltins} (v : value) : result float :=
  match v with
  | VFloat f => Ok f
  | VInt z => float_of_int z
  | VBool b => float_of_int (Z_of_bool b)
  | VStr s => match float_of_str s with
              | Some f => Ok f
              | None => Raise ValueError
              end
  | _ => Raise TypeError
  end.

(** [v[0:18]]: a prefix of a string or of a list. Anything else cannot be
    sliced (a dict reports it as a [KeyError] from CPython 3.12 on, when
    slices became hashable; it is a [TypeError] here as for the rest). *)
Definition py_slice18 (v : value) : result value :=
  match v with
  | VStr s => Ok (VStr (substring 0 18 s))
  | VList l => Ok (VList (take 18 l))
  | _ => Raise TypeError
  end.

(** A float compared with an integer: Python compares the exact values. *)
Definition float_eq_int (f : float) (z : Z) : bool :=
  match f with
  | S754_zero _ => z =? 0
  | S754_finite s m e =>
      let sg := fun (x : Z) => if s then - x else x in
      if 0 <=? e then z =? sg (Z.pos m * 2 ^ e)
      else (Z.pos m mod 2 ^ (- e) =? 0) && (z =? sg (Z.pos m / 2 ^ (- e)))
  | _ => false
  end.

(** Two floats as a container compares them. [==] holds a NaN different from
    itself, but [json] hands out one NaN object, [json.decoder.NaN], for every
    NaN it reads: two NaNs of the data are one and the same object. *)
Definition float_same_or_eq (x y : float) : bool :=
  match x, y with
  | S754_nan, S754_nan => true
  | _, _ => SFeqb x y
  end.

(** The comparison a dict or a list makes of two of its items, and so what
    [==] on the two normalized dicts makes of the values under each key:
    [a is b or a == b]. Content decides ([a is b] implies [a == b]) except
    for NaN, where identity does; a [bool] is the integer 0 or 1. *)
Fixpoint py_eq (a b : value) {struct a} : bool :=
  match a, b with
  | VNone, VNone => true
  | VBool x, VBool y => Bool.eqb x y
  | VBool x, VInt y => Z_of_bool x =? y
  | VInt x, VBool y => x =? Z_of_bool y
  | VInt x, VInt y => x =? y
  | VBool x, VFloat y => float_eq_int y (Z_of_bool x)
  | VInt x, VFloat y => float_eq_int y x
  | VFloat x, VBool y => float_eq_int x (Z_of_bool y)
  | VFloat x, VInt y => float_eq_int x y
  | VFloat x, VFloat y => float_same_or_eq x y
  | VStr x, VStr y => String.eqb x y
  | VList xs, VList ys =>
      (fix all2 (xs : list value) (ys : list value) {struct xs} : bool :=
         match xs, ys with
         | [], [] => true
         | x :: xs', y :: ys' => py_eq x y && all2 xs' ys'
         | _, _ => false
         end) xs ys
  | VDict d1, VDict d2 =>
      (List.length d1 =? List.length d2)%nat &&
      (fix all (d : list (string * value)) {struct d} : bool :=
         match d with
         | [] => true
         | (k, v) :: d' =>
             match dict_get k d2 with
             | Some w => py_eq v w && all d'
             | None => false
             end
         end) d1
  | _, _ => false
  end.

(** ** The identity extractor

    [re.search(r"transactionId=([^|]+)", comment)]: the leftmost position at
    which the literal is followed by at least one character other than the
    pipe; group 1 is the longest run of such characters from there. *)
Definition marker : string := "transactionId=".

Definition is_pipe (c : ascii) : bool := Ascii.eqb c "|"%char.

(** the text after [p] when [s] starts with [p] *)
Fixpoint strip_prefix (p s : string) : option string :=
  match p, s with
  | EmptyString, _ => Some s
  | String a p', String b s' => if Ascii.eqb a b then strip_prefix p' s' else None
  | String _ _, EmptyString => None
  end.

(** the longest pipe-free prefix: what [[^|]+] consumes greedily *)
Fixpoint pipe_free_run (s : string) : string :=
  match s with
  | EmptyString => EmptyString
  | String c s' => if is_pipe c then EmptyString else String c (pipe_free_run s')
  end.

(** a match of the whole pattern anchored at the start of [s] *)
Definition match_here (s : string) : option string :=
  match strip_prefix marker s with
  | Some rest =>
      match pipe_free_run rest with
      | EmptyString => None
      | id => Some id
      end
  | None => None
  end.

(** [re.search]: try every start position from the left; [Some id] is
    [match.group(1)], [None] is no match. *)
Fixpoint search_transaction_id (s : string) : option string :=
  match match_here s with
  | Some id => Some id
  | None =>
      match s with
      | EmptyString => None
      | String _ s' => search_transaction_id s'
      end
  end.

(** The comment handling shared, line for line, by [is_act_present] (lines
    49-54) and [get_diff] (lines 71-76): [act.get("comment")], the [None]
    test, and the search. [re.search] raises [TypeError] on a comment that
    is neither [None] nor a string. *)
Definition act_transaction_id (act : dict) : result (option string) :=
  match dict_get "comment" act with
  | None => Ok None
  | Some VNone => Ok None
  | Some (VStr comment) => Ok (search_transaction_id comment)
  | Some _ => Raise TypeError
  end.

(** ** The transaction normalizer *)

(** The seven-key dict both normalizers build. [fee] and [quantity] are
    always Python floats, the results of [abs(float(...))]. *)
Record transaction : Type := {
  tx_accountId : value;
  tx_date : value;
  tx_fee : float;
  tx_quantity : float;
  tx_symbol : value;
  tx_type : value;
  tx_unitPrice : value;
}.

(** [formatted_act == formatted_new_act]: two dicts with the same seven keys
    are equal when the values under every key are, each pair compared as
    [py_eq] does. Under [fee] and [quantity] are the results of [abs], which
    makes a new float object at every call: there [==] alone decides, and a
    NaN equals nothing. *)
Definition transaction_eq (a b : transaction) : bool :=
  py_eq (tx_accountId a) (tx_accountId b)
  && py_eq (tx_date a) (tx_date b)
  && SFeqb (tx_fee a) (tx_fee b)
  && SFeqb (tx_quantity a) (tx_quantity b)
  && py_eq (tx_symbol a) (tx_symbol b)
  && py_eq (tx_type a) (tx_type b)
  && py_eq (tx_unitPrice a) (tx_unitPrice b).

(** the same, field by field *)
Definition seven_fields_equal (a b : transaction) : Prop :=
  py_eq (tx_accountId a) (tx_accountId b) = true
  /\ py_eq (tx_date a) (tx_date b) = true
  /\ SFeqb (tx_fee a) (tx_fee b) = true
  /\ SFeqb (tx_quantity a) (tx_quantity b) = true
  /\ py_eq (tx_symbol a) (tx_symbol b) = true
  /\ py_eq (tx_type a) (tx_type b) = true
  /\ py_eq (tx_unitPrice a) (tx_unitPrice b) = true.

Section Normalizer.
Context `{PyBuiltins}.

(** the dict literal of both normalizers, evaluated key by key *)
Definition build_transaction (act : dict) (symbol : value) : result transaction :=
  rbind (py_getitem act "accountId") (fun accountId =>
  rbind (py_getitem act "date") (fun date =>
  rbind (py_slice18 date) (fun date18 =>
  rbind (py_getitem act "fee") (fun fee =>
  rbind (py_float fee) (fun fee' =>
  rbind (py_getitem act "quantity") (fun quantity =>
  rbind (py_float quantity) (fun quantity' =>
  rbind (py_getitem act "type") (fun type =>
  rbind (py_getitem act "unitPrice") (fun unitPrice =>
  Ok {| tx_accountId := accountId;
        tx_date := date18;
        tx_fee := SFabs fee';
        tx_quantity := SFabs quantity';
        tx_symbol := symbol;
        tx_type := type;
        tx_unitPrice := unitPrice |}))))))))).

(** [symbol is None or len(symbol) == 0] *)
Definition symbol_missing (symbol : value) : result bool :=
  match symbol with
  | VNone => Ok true
  | _ => rbind (py_len symbol) (fun n => Ok (n =? 0)%nat)
  end.

(** Lines 17-22 of [format_existing_act]: the nested symbol, and the
    logged fall-back to the flat one. *)
Definition existing_symbol (act : dict) (symbol_type : string) : M value :=
  let* symbol := lift (py_get (default (VDict [(symbol_type, VStr "")])
                                  (dict_get "SymbolProfile" act)) symbol_type) in
  let* missing := lift (symbol_missing symbol) in
  if (missing : bool) then
    let* id := lift (py_getitem act "id") in
    let* _ := emit (LogWarning "Could not find nested symbol type %s for activity %s: %s"
                 [VStr symbol_type; id; default VNone (dict_get "SymbolProfile" act)]) in
    ret (default (VStr "") (dict_get "symbol" act))
  else ret symbol.

Definition format_existing_act (act : dict) (symbol_type : string) : M transaction :=
  let* symbol := existing_symbol act symbol_type in
  lift (build_transaction act symbol).

Definition format_new_act (act : dict) (symbol_type : string) : M transaction :=
  lift (build_transaction act (default (VStr "") (dict_get symbol_type act))).

(** ** The diff engine *)

(** the legacy comparison loop of [is_act_present] *)
Fixpoint legacy_present (new_act : dict) (existing_acts : list dict) : M bool :=
  match existing_acts with
  | [] => ret false
  | existing_act :: rest =>
      let* formatted_act := format_existing_act existing_act "symbol" in
      let* formatted_new_act := format_new_act new_act "symbol" in
      if transaction_eq formatted_act formatted_new_act then ret true
      else legacy_present new_act rest
  end.

Definition id_synced (tid : option string) (synced_acts_ids : gset string) : bool :=
  match tid with
  | Some transaction_id => bool_decide (transaction_id ∈ synced_acts_ids)
  | None => false
  end.

Definition is_act_present (new_act : dict) (existing_acts : list dict)
    (synced_acts_ids : gset string) : M bool :=
  let* tid := lift (act_transaction_id new_act) in
  if id_synced tid synced_acts_ids then ret true
  else legacy_present new_act existing_acts.

(** the first loop of [get_diff] *)
Fixpoint collect_ids (old_acts : list dict) (synced_acts_ids : gset string)
    : result (gset string) :=
  match old_acts with
  | [] => Ok synced_acts_ids
  | old_act :: rest =>
      rbind (act_transaction_id old_act) (fun tid =>
      collect_ids rest
        match tid with
        | Some transaction_id => {[transaction_id]} ∪ synced_acts_ids
        | None => synced_acts_ids
        end)
  end.

(** the second loop of [get_diff] *)
Fixpoint diff_loop (new_acts old_acts : list dict) (synced_acts_ids : gset string)
    (diff : list dict) : M (list dict) :=
  match new_acts with
  | [] => ret diff
  | new_act :: rest =>
      let* present := is_act_present new_act old_acts synced_acts_ids in
      diff_loop rest old_acts synced_acts_ids
        (if (present : bool) then diff else diff ++ [new_act])
  end.

Definition get_diff (old_acts new_acts : list dict) : M (list dict) :=
  let* synced_acts_ids := lift (collect_ids old_acts ∅) in
  diff_loop new_acts old_acts synced_acts_ids [].

End Normalizer.

(** ** The valuation lookup *)

(** [datetime] values built by [strptime] from a date alone compare as their
    (year, month, day) triples. *)
Definition ymd_leb (a b : ymd) : bool :=
  (year a <? year b)
  || ((year a =? year b)
      && ((month a <? month b) || ((month a =? month b) && (day a <=? day b)))).

Definition ymd_ltb (a b : ymd) : bool := ymd_leb a b && negb (ymd_leb b a).

(** [p in s] for two strings *)
Fixpoint str_contains (p s : string) : bool :=
  match strip_prefix p s with
  | Some _ => true
  | None =>
      match s with
      | EmptyString => false
      | String _ s' => str_contains p s'
      end
  end.

Section Valuation.
Context `{PyBuiltins}.

Definition strptime (s : string) : result ymd :=
  match strptime_ymd s with
  | Some d => Ok d
  | None => Raise ValueError
  end.

(** The loop over [valuation.items()]: [closest] is the pair
    ([closest_date], [closest_price]), [None] before the first hit. *)
Fixpoint closest_previous (items : dict) (transaction_dt : ymd)
    (closest : option (ymd * value)) : result (option (ymd * value)) :=
  match items with
  | [] => Ok closest
  | (date_str, price) :: rest =>
      rbind (strptime date_str) (fun date_dt =>
      closest_previous rest transaction_dt
        (if ymd_leb date_dt transaction_dt then
           match closest with
           | None => Some (date_dt, price)
           | Some (closest_date, _) =>
               if ymd_ltb closest_date date_dt then Some (date_dt, price) else closest
           end
         else closest))
  end.

Definition closest_price (closest : option (ymd * value)) : value :=
  match closest with
  | Some (_, price) => price
  | None => VNone
  end.

Definition get_unit_price_for_date (fund_data : dict) (transaction_date : string)
    : result value :=
  match default (VDict []) (dict_get "valuation" fund_data) with
  | VDict valuation =>
      match dict_get transaction_date valuation with
      | Some price => Ok price
      | None =>
          rbind (strptime transaction_date) (fun transaction_dt =>
          rbind (closest_previous valuation transaction_dt None) (fun closest =>
          Ok (closest_price closest)))
      end
  | VList l =>
      (* [in] scans the list; a hit is then indexed by a string *)
      if existsb (py_eq (VStr transaction_date)) l then Raise TypeError
      else rbind (strptime transaction_date) (fun _ => Raise AttributeError)
  | VStr s =>
      (* [in] is the substring test *)
      if str_contains transaction_date s then Raise TypeError
      else rbind (strptime transaction_date) (fun _ => Raise AttributeError)
  | _ => Raise TypeError
  end.

End Valuation.

(** ** The fund snapshot reconstructor *)

(** What the method reads of [self]. *)
Record SyncKoura : Type := {
  fund_mapping : gmap string value;
  ghost_currency : value;
}.

(** the table [__init__] seeds [self.fund_mapping] with *)
Definition default_fund_mapping : gmap string value :=
  list_to_map
    [ ("810001", VStr "GF_KOURACASH");
      ("810002", VStr "GF_KOURAFI");
      ("810003", VStr "GF_KOURANZEQ");
      ("810004", VStr "GF_KOURAUSEQ");
      ("810005", VStr "GF_KOURAROWEQ");
      ("810006", VStr "GF_KOURAEMEQ");
      ("810007", VStr "GF_KOURABTC");
      ("810008", VStr "GF_KOURACLEAN");
      ("810009", VStr "GF_KOURAPROP");
      ("810010", VStr "GF_KOURASTRAT") ].

Definition float_zero : float := S754_zero false.
Definition float_one : float := S754_finite false 4503599627370496 (-52).

(** [v <= 0] *)
Definition py_le0 (v : value) : result bool :=
  match v with
  | VInt z => Ok (z <=? 0)
  | VBool b => Ok (Z_of_bool b <=? 0)
  | VFloat f => Ok (SFleb f float_zero)
  | _ => Raise TypeError
  end.

(** [a / b] for two integers, [b] not zero: the correctly rounded quotient,
    [OverflowError] when it is beyond the largest double. *)
Definition int_truediv (a b : Z) : result float :=
  match a, b with
  | Z0, _ => Ok (S754_zero (b <? 0))
  | _, Z0 => Raise ZeroDivisionError
  | _, _ =>
      match SFdiv prec emax (S754_finite (a <? 0) (Z.to_pos (Z.abs a)) 0)
                            (S754_finite (b <? 0) (Z.to_pos (Z.abs b)) 0) with
      | S754_infinity _ => Raise OverflowError
      | q => Ok q
      end
  end.


(** the numeric tower: a [bool] is an [int] *)
Inductive number : Type :=
  | NInt (z : Z)
  | NFloat (f : float).

Definition as_number (v : value) : option number :=
  match v with
  | VInt z => Some (NInt z)
  | VBool b => Some (NInt (Z_of_bool b))
  | VFloat f => Some (NFloat f)
  | _ => None
  end.

Definition number_is_zero (n : number) : bool :=
  match n with
  | NInt z => z =? 0
  | NFloat f => SFeqb f float_zero
  end.

(** [a / b]. With a float on either side both operands are first converted
    to floats (an integer beyond the doubles raises [OverflowError]) and the
    divisor is then compared with zero; an integer converts to 0.0 only when
    it is 0, so that test is made on the divisor as given. *)
Definition py_truediv (a b : value) : result float :=
  match as_number a, as_number b with
  | Some (NInt x), Some (NInt y) =>
      if number_is_zero (NInt y) then Raise ZeroDivisionError else int_truediv x y
  | Some (NInt x), Some (NFloat y) =>
      rbind (float_of_int x) (fun x' =>
      if number_is_zero (NFloat y) then Raise ZeroDivisionError
      else Ok (SFdiv prec emax x' y))
  | Some (NFloat x), Some (NInt y) =>
      rbind (float_of_int y) (fun y' =>
      if number_is_zero (NInt y) then Raise ZeroDivisionError
      else Ok (SFdiv prec emax x y'))
  | Some (NFloat x), Some (NFloat y) =>
      if number_is_zero (NFloat y) then Raise ZeroDivisionError
      else Ok (SFdiv prec emax x y)
  | _, _ => Raise TypeError
  end.

Section Reconstructor.
Context `{PyBuiltins}.

(** [str(v)]; the interpreter's optional cap on the digits of an integer
    is left out. *)
Definition py_str (v : value) : string :=
  match v with
  | VStr s => s
  | VInt z => pretty z
  | VBool b => if b then "True" else "False"
  | VNone => "None"
  | _ => py_repr v
  end.

(** [format(v, ".4f")] *)
Definition py_format_4f (v : value) : result string :=
  match v with
  | VFloat f => Ok (float_format_4f f)
  | VInt z => rbind (float_of_int z) (fun f => Ok (float_format_4f f))
  | VBool b => rbind (float_of_int (Z_of_bool b)) (fun f => Ok (float_format_4f f))
  | VStr _ => Raise ValueError
  | _ => Raise TypeError
  end.

(** [round(v, 2)]: an integer is returned as it is. (The float is a new
    object; the program reads it back only through [abs(float(...))],
    which makes another.) *)
Definition py_round2 (v : value) : result value :=
  match v with
  | VFloat f => Ok (VFloat (float_round2 f))
  | VInt z => Ok (VInt z)
  | VBool b => Ok (VInt (Z_of_bool b))
  | _ => Raise TypeError
  end.

(** [str(fund.get('fundId') or fund.get('code', ''))] *)
Definition fund_code_of (fund : dict) : string :=
  let fundId := default VNone (dict_get "fundId" fund) in
  py_str (if py_truthy fundId then fundId else default (VStr "") (dict_get "code" fund)).

(** [value <= 0 or units <= 0], the right operand only when needed *)
Definition holding_skipped (value units : value) : result bool :=
  rbind (py_le0 value) (fun b =>
  if (b : bool) then Ok true else py_le0 units).

(** the f-string of the audit comment, evaluated left to right *)
Definition holding_comment (units value : value) : result string :=
  rbind (py_format_4f units) (fun u =>
  rbind (py_truediv value units) (fun price =>
  Ok ("Current holdings: " +:+ u +:+ " units @ $"
      +:+ float_format_4f price +:+ " per unit"))).

(** One turn of the loop: [None] is [continue], [Some activity] is
    [activities.append(activity)]. *)
Definition reconstruct_fund (self : SyncKoura) (today : string) (fund : dict)
    : M (option dict) :=
  let fund_code := fund_code_of fund in
  let fund_name := default (VStr "Unknown") (dict_get "name" fund) in
  let units := default (VInt 0) (dict_get "units" fund) in
  let value := default (VInt 0) (dict_get "value" fund) in
  let* skipped := lift (holding_skipped value units) in
  if (skipped : bool) then
    let* _ := emit (LogInfo "Skipping fund %s with zero value/units" [fund_name]) in
    ret None
  else
    let symbol := default VNone (fund_mapping self !! fund_code) in
    if negb (py_truthy symbol) then
      let* _ := emit (LogWarning "No symbol mapping for fund code %s" [VStr fund_code]) in
      ret None
    else
      let* comment := lift (holding_comment units value) in
      let* quantity := lift (py_round2 value) in
      let activity : dict :=
        [ ("accountId", VNone);
          ("comment", VStr comment);
          ("currency", ghost_currency self);
          ("dataSource", VStr "MANUAL");
          ("date", VStr today);
          ("fee", VInt 0);
          ("quantity", quantity);
          ("symbol", symbol);
          ("type", VStr "BUY");
          ("unitPrice", VFloat float_one) ] in
      let* _ := emit (LogInfo "Created holding for %s: $%.2f NZD" [fund_name; value]) in
      ret (Some activity).

Fixpoint reconstruct_loop (self : SyncKoura) (today : string)
    (portfolio_funds : list dict) (activities : list dict) : M (list dict) :=
  match portfolio_funds with
  | [] => ret activities
  | fund :: rest =>
      let* emitted := reconstruct_fund self today fund in
      reconstruct_loop self today rest
        match emitted with
        | Some activity => activities ++ [activity]
        | None => activities
        end
  end.

(** [today] is [datetime.now().isoformat()], read once before the loop;
    [transactions] and [account_details] are not used by the method. *)
Definition reconstruct_fund_purchases (self : SyncKoura) (today : string)
    (transactions : list dict) (account_details : dict)
    (portfolio_funds : list dict) : M (list dict) :=
  reconstruct_loop self today portfolio_funds [].

End Reconstructor.

(** ** Vocabulary of the statements *)

(** The text that follows the first occurrence of [marker] in [s]. *)
Fixpoint after_first_marker (s : string) : option string :=
  match strip_prefix marker s with
  | Some rest => Some rest
  | None =>
      match s with
      | EmptyString => None
      | String _ s' => after_first_marker s'
      end
  end.

(** Identifier extraction read off the first occurrence of the marker,
    whatever follows it: the run up to the next pipe or the end, absent when
    that run is empty. To be compared with [search_transaction_id]. *)
Definition first_occurrence_id (s : string) : option string :=
  match after_first_marker s with
  | Some rest =>
      match pipe_free_run rest with
      | EmptyString => None
      | id => Some id
      end
  | None => None
  end.

(** [id] is the run of [rest] up to its first pipe or its end. *)
Definition run_to_pipe (rest id : string) : Prop :=
  exists post, rest = id +:+ post
    /\ pipe_free_run id = id
    /\ (post = EmptyString \/ exists post', post = String "|" post').

(** The comment contains the marker [transactionId=x], delimited by a pipe
    or the end of the comment. *)
Definition contains_marker (comment x : string) : Prop :=
  exists pre rest, comment = pre +:+ marker +:+ rest
    /\ run_to_pipe rest x /\ x <> EmptyString.

(** [p] is the first [n] characters of [s] (all of [s] when it is shorter). *)
Definition is_first_chars (n : nat) (s p : string) : Prop :=
  (exists rest, s = p +:+ rest) /\ String.length p = Nat.min n (String.length s).

(** [-v] on an integer or a float *)
Definition py_neg (v : value) : option value :=
  match v with
  | VInt z => Some (VInt (- z))
  | VFloat f => Some (VFloat (SFopp f))
  | _ => None
  end.

(** [v > 0] on numbers *)
Definition strictly_positive (v : value) : bool :=
  match as_number v with
  | Some (NInt z) => 0 <? z
  | Some (NFloat f) => SFltb float_zero f
  | None => false
  end.

Definition is_nan (v : value) : bool :=
  match v with
  | VFloat S754_nan => true
  | _ => false
  end.

Definition holding_units (fund : dict) : value := default (VInt 0) (dict_get "units" fund).
Definition holding_value (fund : dict) : value := default (VInt 0) (dict_get "value" fund).

Section Vocabulary.
Context `{PyBuiltins}.

(** [closest] is the latest valuation of [seen] not after [dt], if any *)
Definition latest_not_after (seen : dict) (dt : ymd) (closest : option (ymd * value))
    : Prop :=
  match closest with
  | Some (d, price) =>
      ymd_leb d dt = true
      /\ (exists k, In (k, price) seen /\ strptime_ymd k = Some d)
      /\ (forall k' p' d', In (k', p') seen -> strptime_ymd k' = Some d' ->
            ymd_leb d' dt = true -> ymd_leb d' d = true)
  | None =>
      forall k p d, In (k, p) seen -> strptime_ymd k = Some d -> ymd_leb d dt = false
  end.

(** what both normalizers store for a fee or a quantity: [abs(float(v))] *)
Definition abs_float (v : value) : result float :=
  rbind (py_float v) (fun f => Ok (SFabs f)).

(** the candidate is classified as not present *)
Definition is_new (old_acts : list dict) (ids : gset string) (c : dict) : bool :=
  match run (is_act_present c old_acts ids) with
  | Ok false => true
  | _ => false
  end.

(** the legacy comparison of one existing activity with a candidate *)
Definition same_event (e c : dict) : bool :=
  match run (format_existing_act e "symbol"), run (format_new_act c "symbol") with
  | Ok t, Ok t' => transaction_eq t t'
  | _, _ => false
  end.

Definition normalizes_existing (e : dict) : bool :=
  match run (format_existing_act e "symbol") with
  | Ok _ => true
  | Raise _ => false
  end.

Definition normalizes_new (c : dict) : bool :=
  match run (format_new_act c "symbol") with
  | Ok _ => true
  | Raise _ => false
  end.

Definition mapped_symbol (self : SyncKoura) (fund : dict) : value :=
  default VNone (fund_mapping self !! fund_code_of fund).

(** the holding passes both guards of the loop and reaches the emission *)
Definition holding_kept (self : SyncKoura) (fund : dict) : bool :=
  match holding_skipped (holding_value fund) (holding_units fund) with
  | Ok false => py_truthy (mapped_symbol self fund)
  | _ => false
  end.

(** the turn of the loop for this holding does not raise *)
Definition holding_renders (self : SyncKoura) (fund : dict) : bool :=
  match holding_skipped (holding_value fund) (holding_units fund) with
  | Ok true => true
  | Ok false =>
      negb (py_truthy (mapped_symbol self fund))
      || match holding_comment (holding_units fund) (holding_value fund) with
         | Ok _ => true
         | Raise _ => false
         end
  | Raise _ => false
  end.

(** what the claim says of an emitted activity *)
Definition snapshot_of (self : SyncKoura) (fund activity : dict) : Prop :=
  dict_get "type" activity = Some (VStr "BUY")
  /\ dict_get "unitPrice" activity = Some (VFloat float_one)
  /\ dict_get "fee" activity = Some (VInt 0)
  /\ (exists quantity, py_round2 (holding_value fund) = Ok quantity
        /\ dict_get "quantity" activity = Some quantity)
  /\ dict_get "symbol" activity = Some (mapped_symbol self fund).

End Vocabulary.

(** ** A runtime to evaluate examples with

    Stand-ins for the builtins, enough for the inputs of the examples: plain
    decimal literals, amounts already at two decimals, zero-padded dates. *)
Module Sample.

Definition digit_of (c : ascii) : option Z :=
  let n := Z.of_nat (nat_of_ascii c) - 48 in
  if (0 <=? n) && (n <=? 9) then Some n else None.

(** digits with at most one point: the digits as an integer and the
    number of them after the point *)
Fixpoint read_decimal (s : string) (seen_dot : bool) (m k : Z) (n : nat)
    : option (Z * Z) :=
  match s with
  | EmptyString => if (0 <? n)%nat then Some (m, k) else None
  | String c s' =>
      if Ascii.eqb c "."%char then
        if seen_dot then None else read_decimal s' true m k n
      else
        match digit_of c with
        | Some d => read_decimal s' seen_dot (10 * m + d) (if seen_dot then k + 1 else k) (S n)
        | None => None
        end
  end.

Definition read_float (s : string) : option float :=
  let '(neg, body) :=
    match s with
    | String "-"%char s' => (true, s')
    | String "+"%char s' => (false, s')
    | _ => (false, s)
    end in
  match read_decimal body false 0 0 0 with
  | Some (m, k) =>
      Some (if m =? 0 then S754_zero neg
            else SFdiv prec emax
                   (binary_normalize prec emax (if neg then - m else m) 0 false)
                   (binary_normalize prec emax (10 ^ k) 0 false))
  | None => None
  end.

Definition two_digits (a b : ascii) : option Z :=
  match digit_of a, digit_of b with
  | Some x, Some y => Some (10 * x + y)
  | _, _ => None
  end.

Definition read_ymd (s : string) : option ymd :=
  match s with
  | String y1 (String y2 (String y3 (String y4 (String "-"
      (String m1 (String m2 (String "-" (String d1 (String d2 EmptyString))))))))) =>
      match two_digits y1 y2, two_digits y3 y4, two_digits m1 m2, two_digits d1 d2 with
      | Some a, Some b, Some m, Some d =>
          if (1 <=? m) && (m <=? 12) && (1 <=? d) && (d <=? 31) && (1 <=? 100 * a + b)
          then Some {| year := 100 * a + b; month := m; day := d |}
          else None
      | _, _, _, _ => None
      end
  | _ => None
  end.

#[export] Instance builtins : PyBuiltins := {|
  float_of_str := read_float;
  float_round2 := fun f => f;
  float_format_4f := fun f => match f with S754_nan => "nan" | _ => "#.####" end;
  py_repr := fun _ => "<repr>";
  strptime_ymd := read_ymd;
|}.

(** the existing activity and the candidate of the legacy-equality example *)
Definition ledger_act : dict :=
  [ ("id", VStr "a1"); ("accountId", VStr "1");
    ("date", VStr "2024-01-01T00:00:00Z");
    ("fee", VStr "0"); ("quantity", VStr "-5.0");
    ("SymbolProfile", VDict [("symbol", VStr "GF_KOURABTC")]);
    ("type", VStr "BUY"); ("unitPrice", VInt 10) ].

Definition candidate : dict :=
  [ ("accountId", VStr "1");
    ("date", VStr "2024-01-01T00:00:00Z");
    ("fee", VInt 0); ("quantity", VFloat (S754_finite false 5629499534213120 (-50)));
    ("symbol", VStr "GF_KOURABTC");
    ("type", VStr "BUY"); ("unitPrice", VInt 10) ].

(** an existing activity tagged with an identifier, and one whose comment
    holds two markers *)
Definition tagged_act : dict :=
  ("comment", VStr "note|transactionId=ABC123|more") :: ledger_act.

Definition two_marker_act : dict :=
  ("comment", VStr "transactionId=OLD|transactionId=ABC123") :: ledger_act.

(** a candidate carrying the identifier, with a fee of its own *)
Definition tagged_candidate : dict :=
  ("comment", VStr "transactionId=ABC123") :: ("fee", VInt 7) :: candidate.

(** an activity whose nested and flat symbols differ *)
Definition split_symbol_act : dict :=
  [ ("id", VStr "a3"); ("accountId", VStr "1");
    ("date", VStr "2024-01-01T00:00:00Z");
    ("fee", VInt 0); ("quantity", VInt 5);
    ("SymbolProfile", VDict [("symbol", VStr "AAA")]);
    ("symbol", VStr "BBB");
    ("type", VStr "BUY"); ("unitPrice", VInt 10) ].

(** the synchronizer with the seeded mapping, and with the cash fund's
    symbol blanked by a custom mapping file *)
Definition koura : SyncKoura :=
  {| fund_mapping := default_fund_mapping; ghost_currency := VStr "NZD" |}.

Definition koura_cash_blanked : SyncKoura :=
  {| fund_mapping := <["810001" := VStr ""]> default_fund_mapping;
     ghost_currency := VStr "NZD" |}.

Definition float_150 : float := S754_finite false 5277655813324800 (-45).

Definition cash_holding : dict :=
  [ ("fundId", VInt 810001); ("name", VStr "Cash Fund");
    ("units", VInt 100); ("value", VFloat float_150) ].

Definition empty_holding : dict :=
  [ ("fundId", VInt 810002); ("name", VStr "Fixed Interest Fund");
    ("units", VInt 0); ("value", VInt 0) ].

Definition unmapped_holding : dict :=
  [ ("code", VStr "999999"); ("name", VStr "Other");
    ("units", VInt 1); ("value", VInt 1) ].

Definition nan_units_holding : dict :=
  [ ("fundId", VInt 810007); ("name", VStr "Bitcoin Fund");
    ("units", VFloat S754_nan); ("value", VInt 1) ].

Definition priced_fund : dict :=
  [ ("fundId", VInt 810001);
    ("valuation", VDict [ ("2024-01-01", VInt 10);
                          ("2024-02-01", VInt 12);
                          ("2024-01-10", VInt 11) ]) ].

End Sample.



(** * The remaining functions of [SyncKoura.py] *)

(** ** Chunking *)

(** [range(0, stop, step)] as the list of its values; a zero step is a
    [ValueError]. *)
Definition py_range0 (stop step : Z) : result (list Z) :=
  if step =? 0 then Raise ValueError
  else
    let count :=
      if 0 <? step then (if 0 <? stop then 1 + (stop - 1) / step else 0)
      else (if stop <? 0 then 1 + (- stop - 1) / (- step) else 0) in
    Ok (List.map (fun k => Z.of_nat k * step) (seq 0 (Z.to_nat count))).

(** a slice bound brought into [0, len] as slicing does *)
Definition slice_bound (len i : Z) : Z :=
  if i <? 0 then Z.max 0 (i + len) else Z.min i len.

(** [l[i:j]] *)
Definition py_slice {A} (l : list A) (i j : Z) : list A :=
  let len := Z.of_nat (List.length l) in
  let lo := slice_bound len i in
  let hi := slice_bound len j in
  take (Z.to_nat (hi - lo)) (drop (Z.to_nat lo) l).

(** The generator [generate_chunks], as the list of what it yields. The
    [range] is built when the first chunk is asked for, so that is when a
    zero [n] is reported. *)
Definition generate_chunks {A} (lst : list A) (n : Z) : result (list (list A)) :=
  rbind (py_range0 (Z.of_nat (List.length lst)) n) (fun indices =>
  Ok (List.map (fun i => py_slice lst i (i + n)) indices)).

(** ** Dict assignment and the snapshots handed to the diff *)

(** [d[k] = v]: the value is replaced where the key is, a new key goes last. *)
Fixpoint dict_set (k : string) (v : value) (d : dict) : dict :=
  match d with
  | [] => [(k, v)]
  | (k', v') :: d' =>
      if String.eqb k k' then (k', v) :: d' else (k', v') :: dict_set k v d'
  end.

(** the loop of [sync_koura] that fills in the account:
    [for activity in activities: activity["accountId"] = account_id] *)
Definition set_account_ids (account_id : value) (activities : list dict) : list dict :=
  List.map (dict_set "accountId" account_id) activities.

(** the character occurs in the string *)
Fixpoint has_char (c : ascii) (s : string) : bool :=
  match s with
  | EmptyString => false
  | String a s' => Ascii.eqb a c || has_char c s'
  end.

(** ** Talking to the two services

    What [requests.request] gives back: it raises, or returns a response with
    its [status_code], its body as [response.json()] decodes it ([None] when
    that call raises) and its [text]. The services themselves are oracles
    over a state of their own. *)
Inductive http_result : Type :=
  | HttpException (message : string)
  | HttpResponse (status_code : Z) (json : option value) (text : string).

Inductive log_level : Type := LevelInfo | LevelWarning | LevelError.

Record log_entry : Type := {
  entry_level : log_level;
  entry_fmt : string;
  entry_args : list value;
}.

Definition newline : string := String (ascii_of_nat 10) EmptyString.

(** *** [import_act] *)

Section Ledger.
Variable ledger : Type.
(** [POST {ghost_host}/api/v1/import] with the activities of one chunk *)
Variable post_import : list dict -> ledger -> http_result * ledger.
(** [sorted(bulk, key=lambda x: x["date"])] *)
Variable sorted_by_date : list dict -> result (list dict).
(** [json.dumps(v, indent=4)] *)
Variable json_dumps : value -> string.

(** the ledger, the POSTs made so far with what came back, and the log *)
Record import_state : Type := {
  imp_ledger : ledger;
  imp_calls : list (list dict * http_result);
  imp_log : list log_entry;
}.

Definition imp_say (fmt : string) (args : list value) (st : import_state) : import_state :=
  {| imp_ledger := imp_ledger st;
     imp_calls := imp_calls st;
     imp_log := imp_log st ++ [{| entry_level := LevelInfo; entry_fmt := fmt;
                                  entry_args := args |}] |}.

Definition imp_post (acts : list dict) (st : import_state) : http_result * import_state :=
  let '(response, l) := post_import acts (imp_ledger st) in
  (response,
   {| imp_ledger := l;
      imp_calls := imp_calls st ++ [(acts, response)];
      imp_log := imp_log st |}).

(** the loop over the chunks *)
Fixpoint import_chunks (chunks : list (list dict)) (st : import_state)
    : result bool * import_state :=
  match chunks with
  | [] => (Ok true, st)
  | acts :: rest =>
      let st := imp_say ("Adding activities:" +:+ newline +:+ "%s")
                  [VStr (json_dumps (VList (List.map VDict acts)))] st in
      let '(response, st) := imp_post acts st in
      match response with
      | HttpException message => (Ok false, imp_say message [] st)
      | HttpResponse status_code json text =>
          if status_code =? 201 then
            match json with
            | Some body =>
                import_chunks rest
                  (imp_say ("Added activities. Response:" +:+ newline +:+ "%s")
                     [VStr (json_dumps body)] st)
            | None => (Raise ValueError, st)
            end
          else (Ok false, imp_say ("Failed to create: " +:+ text) [] st)
      end
  end.

Definition import_act (bulk : list dict) (l : ledger) : result bool * import_state :=
  let st := {| imp_ledger := l; imp_calls := []; imp_log := [] |} in
  match rbind (sorted_by_date bulk) (fun sorted => generate_chunks sorted 10) with
  | Ok chunks => import_chunks chunks st
  | Raise e => (Raise e, st)
  end.

(** the chunk was taken by the ledger: status 201 *)
Definition accepted (response : http_result) : bool :=
  match response with
  | HttpResponse status_code _ _ => status_code =? 201
  | HttpException _ => false
  end.

End Ledger.

Arguments imp_ledger {ledger} _.
Arguments imp_calls {ledger} _.
Arguments imp_log {ledger} _.

(** *** The portal: sign-in and the pages of transactions *)

(** what [get_koura_transactions] returns when the request fails *)
Definition default_page : value :=
  VDict [("transactions", VList []); ("totalCount", VInt 0)].

(** [v.get(k, dflt)] *)
Definition py_get_default (v : value) (k : string) (dflt : value) : result value :=
  match v with
  | VDict d => Ok (default dflt (dict_get k d))
  | _ => Raise AttributeError
  end.

(** [v[k]] for a string [k] *)
Definition py_subscript (v : value) (k : string) : result value :=
  match v with
  | VDict d => py_getitem d k
  | _ => Raise TypeError
  end.

(** the items [list.extend(v)] appends: the elements of a list, the
    characters of a string, the keys of a dict *)
Definition py_iter (v : value) : result (list value) :=
  match v with
  | VList l => Ok l
  | VStr s => Ok (List.map (fun c => VStr (String c EmptyString)) (list_ascii_of_string s))
  | VDict d => Ok (List.map (fun kv => VStr (fst kv)) d)
  | _ => Raise TypeError
  end.

(** [n >= f] for an integer and a float, on the exact values *)
Definition int_ge_float (n : Z) (f : float) : bool :=
  match f with
  | S754_zero _ => 0 <=? n
  | S754_infinity s => s
  | S754_nan => false
  | S754_finite s m e =>
      let x := if s then Z.neg m else Z.pos m in
      if 0 <=? e then x * 2 ^ e <=? n else x <=? n * 2 ^ (- e)
  end.

(** [n >= v] for an integer [n] *)
Definition py_int_ge (n : Z) (v : value) : result bool :=
  match v with
  | VInt z => Ok (z <=? n)
  | VBool b => Ok (Z_of_bool b <=? n)
  | VFloat f => Ok (int_ge_float n f)
  | _ => Raise TypeError
  end.

(** an exception handed to the logger is recorded by the name of its class *)
Definition exn_label (e : exn) : value :=
  VStr match e with
       | KeyError _ => "KeyError"
       | TypeError => "TypeError"
       | ValueError => "ValueError"
       | AttributeError => "AttributeError"
       | OverflowError => "OverflowError"
       | ZeroDivisionError => "ZeroDivisionError"
       end.

(** the page a response stands for: its JSON body on status 200, the
    default page on anything else *)
Definition answer_page (response : http_result) : value :=
  match response with
  | HttpResponse status_code (Some body) _ =>
      if status_code =? 200 then body else default_page
  | _ => default_page
  end.

(** the request went wrong: it raised, the status was not 200, or the body
    was not JSON *)
Definition page_failed (response : http_result) : bool :=
  match response with
  | HttpResponse status_code (Some _) _ => negb (status_code =? 200)
  | _ => true
  end.

(** the transactions a page contributes:
    [all_transactions.extend(result.get("transactions", []))] *)
Definition page_transactions (page : value) : result (list value) :=
  rbind (py_get_default page "transactions" (VList [])) py_iter.

Section Portal.
Variable portal : Type.
(** [POST .../api/clients/auth/signin] with the configured credentials *)
Variable portal_signin : portal -> http_result * portal.
(** [GET .../api/clients/account/{account_id}/transactions] with the bearer
    token, the page and the page size *)
Variable portal_transactions : value -> Z -> Z -> Z -> portal -> http_result * portal.

(** [self.koura_token], the portal, the page requests made so far with what
    came back, and the log *)
Record session : Type := {
  koura_token : value;
  koura_portal : portal;
  koura_pages : list (Z * http_result);
  koura_log : list log_entry;
}.

Definition ses_say (level : log_level) (fmt : string) (args : list value) (s : session)
    : session :=
  {| koura_token := koura_token s;
     koura_portal := koura_portal s;
     koura_pages := koura_pages s;
     koura_log := koura_log s ++ [{| entry_level := level; entry_fmt := fmt;
                                     entry_args := args |}] |}.

Definition ses_failed (fmt : string) (arg : value) (s : session) : bool * session :=
  (false, ses_say LevelError fmt [arg] s).

Definition authenticate_koura (s : session) : bool * session :=
  let s := ses_say LevelInfo "Authenticating with Koura Wealth" [] s in
  let '(response, p) := portal_signin (koura_portal s) in
  let s := {| koura_token := koura_token s; koura_portal := p;
              koura_pages := koura_pages s; koura_log := koura_log s |} in
  match response with
  | HttpException message =>
      ses_failed "Error authenticating with Koura: %s" (VStr message) s
  | HttpResponse status_code json text =>
      if status_code =? 200 then
        match json with
        | None => ses_failed "Error authenticating with Koura: %s" (exn_label ValueError) s
        | Some data =>
            match py_subscript data "token" with
            | Raise e => ses_failed "Error authenticating with Koura: %s" (exn_label e) s
            | Ok token =>
                (true,
                 ses_say LevelInfo "Successfully authenticated with Koura Wealth" []
                   {| koura_token := token; koura_portal := koura_portal s;
                      koura_pages := koura_pages s; koura_log := koura_log s |})
            end
        end
      else ses_failed "Failed to authenticate with Koura: %s" (VStr text) s
  end.

Definition get_koura_transactions (account_id page page_size : Z) (s : session)
    : value * session :=
  let s := if py_truthy (koura_token s) then s else snd (authenticate_koura s) in
  let '(response, p) :=
    portal_transactions (koura_token s) account_id page page_size (koura_portal s) in
  let s := {| koura_token := koura_token s; koura_portal := p;
              koura_pages := koura_pages s ++ [(page, response)];
              koura_log := koura_log s |} in
  match response with
  | HttpException message =>
      (default_page, ses_say LevelError "Error getting transactions: %s" [VStr message] s)
  | HttpResponse status_code json text =>
      if status_code =? 200 then
        match json with
        | Some body => (body, s)
        | None =>
            (default_page,
             ses_say LevelError "Error getting transactions: %s" [exn_label ValueError] s)
        end
      else
        (default_page, ses_say LevelError "Failed to get transactions: %s" [VStr text] s)
  end.

(** The [while True] loop of [get_all_koura_transactions], run for at most
    [fuel] turns: [None] when that many turns do not reach the [break]. *)
Fixpoint transactions_loop (fuel : nat) (account_id page : Z)
    (all_transactions : list value) (s : session)
    : option (result (list value) * session) :=
  match fuel with
  | O => None
  | S fuel' =>
      let '(result, s) := get_koura_transactions account_id page 100 s in
      match page_transactions result with
      | Raise e => Some (Raise e, s)
      | Ok transactions =>
          let all_transactions := all_transactions ++ transactions in
          match rbind (py_get_default result "totalCount" (VInt 0))
                  (py_int_ge (Z.of_nat (List.length all_transactions))) with
          | Raise e => Some (Raise e, s)
          | Ok true => Some (Ok all_transactions, s)
          | Ok false => transactions_loop fuel' account_id (page + 1) all_transactions s
          end
      end
  end.

Definition get_all_koura_transactions (fuel : nat) (account_id : Z) (s : session)
    : option (result (list value) * session) :=
  transactions_loop fuel account_id 1 [] s.

End Portal.

Arguments koura_token {portal} _.
Arguments koura_portal {portal} _.
Arguments koura_pages {portal} _.
Arguments koura_log {portal} _.

(** ** Stand-ins for the two services, to evaluate examples with *)
Module SampleServices.

(** a ledger that counts the requests it has seen and accepts the first
    [quota] of them *)
Definition post_import (quota : nat) (acts : list dict) (seen : nat) : http_result * nat :=
  (if (seen <? quota)%nat then HttpResponse 201 (Some (VDict [])) "Created"
   else HttpResponse 500 None "Internal Server Error",
   S seen).

(** the activities are taken to be in date order already *)
Definition sorted_by_date (bulk : list dict) : result (list dict) := Ok bulk.

Definition json_dumps (v : value) : string := "<json>".

Definition activity_numbered (n : nat) : dict :=
  [ ("accountId", VStr "1"); ("date", VStr "2024-01-01T00:00:00Z");
    ("fee", VInt 0); ("quantity", VInt (Z.of_nat n)); ("symbol", VStr "GF_KOURABTC");
    ("type", VStr "BUY"); ("unitPrice", VInt 1) ].

Definition twelve_activities : list dict := List.map activity_numbered (seq 0 12).

(** a portal with the given number of pages, one transaction to a page, that
    signs in with a token and counts nothing *)
Definition portal_signin (p : unit) : http_result * unit :=
  (HttpResponse 200 (Some (VDict [("token", VStr "jwt")])) "", p).

Definition portal_pages (pages : Z) (token : value) (account_id page page_size : Z)
    (p : unit) : http_result * unit :=
  (if page <=? pages then
     HttpResponse 200
       (Some (VDict [("transactions", VList [VInt page]); ("totalCount", VInt pages)])) ""
   else HttpException "Connection reset",
   p).

(** a portal that breaks down after its first page of three *)
Definition portal_breaking (token : value) (account_id page page_size : Z)
    (p : unit) : http_result * unit :=
  (if page <=? 1 then
     HttpResponse 200
       (Some (VDict [("transactions", VList [VInt page]); ("totalCount", VInt 3)])) ""
   else HttpException "Connection reset",
   p).

(** a portal that promises one transaction and never delivers it *)
Definition portal_empty (token : value) (account_id page page_size : Z)
    (p : unit) : http_result * unit :=
  (HttpResponse 200
     (Some (VDict [("transactions", VList []); ("totalCount", VInt 1)])) "",
   p).

Definition fresh_session : session unit :=
  {| koura_token := VNone; koura_portal := tt; koura_pages := []; koura_log := [] |}.

(** an existing activity that matches the snapshot of the cash holding taken
    at 09:30:00 *)
Definition stored_snapshot : dict :=
  [ ("id", VStr "a9"); ("accountId", VStr "acc");
    ("date", VStr "2024-03-01T09:30:05.123Z");
    ("fee", VInt 0); ("quantity", VInt 150);
    ("SymbolProfile", VDict [("symbol", VStr "GF_KOURACASH")]);
    ("type", VStr "BUY"); ("unitPrice", VInt 1) ].

Definition dated_fund : dict :=
  [ ("valuation", VDict [("2024-01-01", VInt 10); ("soon", VInt 12)]) ].

End SampleServices.
(** * Theorems *)

(** ** The monad *)

Lemma run_bind {A B} (m : M A) (k : A -> M B) :
  run (bind m k) = rbind (run m) (fun a => run (k a)).
Proof.
  destruct m as [l [a|e]]; simpl; [|reflexivity].
  unfold run. destruct (k a); reflexivity.
Qed.

Lemma run_lift {A} (r : result A) : run (lift r) = r.
Proof. reflexivity. Qed.

Lemma run_ret {A} (a : A) : run (ret a) = Ok a.
Proof. reflexivity. Qed.

Lemma bind_ret_l {A B} (a : A) (k : A -> M B) : bind (ret a) k = k a.
Proof. unfold bind, ret. destruct (k a); reflexivity. Qed.

Lemma rbind_ok {A B} (r : result A) (k : A -> result B) (b : B) :
  rbind r k = Ok b -> exists a, r = Ok a /\ k a = Ok b.
Proof. destruct r; simpl; [eauto | discriminate]. Qed.

(** ** Strings and the identity extractor *)

#[local] Arguments String.append : simpl nomatch.

Lemma strip_prefix_app (p s rest : string) :
  strip_prefix p s = Some rest <-> s = p +:+ rest.
Proof.
  revert s. induction p as [|a p IH]; intros s; simpl.
  - split; congruence.
  - destruct s as [|b s].
    + split; discriminate.
    + destruct (Ascii.eqb_spec a b) as [->|Hne].
      * rewrite IH. split; [intros ->; reflexivity | intros [= ->]; reflexivity].
      * split; [discriminate | intros [= E _]; congruence].
Qed.

Lemma pipe_free_run_idem (s : string) :
  pipe_free_run (pipe_free_run s) = pipe_free_run s.
Proof.
  induction s as [|c s IH]; simpl; [reflexivity|].
  destruct (is_pipe c) eqn:E; simpl; [reflexivity|].
  rewrite E, IH. reflexivity.
Qed.

Lemma pipe_free_run_to_pipe (rest : string) : run_to_pipe rest (pipe_free_run rest).
Proof.
  unfold run_to_pipe. induction rest as [|c rest (post & E & _ & Hpost)]; simpl.
  - exists EmptyString. auto.
  - destruct (is_pipe c) eqn:Hc.
    + exists (String c rest). simpl. split; [reflexivity|]. split; [reflexivity|].
      right. exists rest. unfold is_pipe in Hc. apply Ascii.eqb_eq in Hc. congruence.
    + exists post. simpl. rewrite Hc, pipe_free_run_idem. split; [congruence|]. auto.
Qed.

Lemma match_here_some (s id : string) :
  match_here s = Some id ->
  id <> EmptyString /\ exists rest, s = marker +:+ rest /\ id = pipe_free_run rest.
Proof.
  unfold match_here. destruct (strip_prefix marker s) as [rest|] eqn:E; [|discriminate].
  apply strip_prefix_app in E.
  destruct (pipe_free_run rest) eqn:R; [discriminate|]. intros [= <-].
  split; [discriminate|]. exists rest. rewrite R. auto.
Qed.

Lemma match_here_none (s rest : string) :
  match_here s = None -> s = marker +:+ rest -> pipe_free_run rest = EmptyString.
Proof.
  unfold match_here. intros Hm E. apply strip_prefix_app in E. rewrite E in Hm.
  destruct (pipe_free_run rest); [reflexivity | discriminate].
Qed.

Lemma search_transaction_id_eq (s : string) :
  search_transaction_id s =
  match match_here s with
  | Some id => Some id
  | None =>
      match s with
      | EmptyString => None
      | String _ s' => search_transaction_id s'
      end
  end.
Proof. destruct s; reflexivity. Qed.

(** What the search finds: the first occurrence of the marker that is
    followed by a character other than the pipe. *)
Lemma search_transaction_id_spec (s : string) :
  match search_transaction_id s with
  | Some id =>
      id <> EmptyString /\
      exists pre rest, s = pre +:+ marker +:+ rest /\ run_to_pipe rest id /\
        forall pre' rest', s = pre' +:+ marker +:+ rest' ->
          (String.length pre' < String.length pre)%nat ->
          pipe_free_run rest' = EmptyString
  | None =>
      forall pre rest, s = pre +:+ marker +:+ rest -> pipe_free_run rest = EmptyString
  end.
Proof.
  induction s as [|c s IH]; rewrite search_transaction_id_eq.
  - simpl. intros [|a pre] rest E; discriminate.
  - destruct (match_here (String c s)) as [id|] eqn:Hm.
    + apply match_here_some in Hm as (Hne & rest & E & ->).
      split; [assumption|]. exists EmptyString, rest. split; [exact E|].
      split; [apply pipe_free_run_to_pipe|]. simpl. intros; lia.
    + destruct (search_transaction_id s) as [id|].
      * destruct IH as (Hne & pre & rest & E & Hrun & Hmin).
        split; [assumption|]. exists (String c pre), rest.
        split; [cbn [append]; congruence|]. split; [assumption|].
        intros [|a pre'] rest' E' Hlen.
        -- eapply match_here_none; eauto.
        -- cbn [append String.length] in E', Hlen. injection E' as _ E'.
           apply (Hmin pre' rest' E'). lia.
      * intros [|a pre] rest E.
        -- eapply match_here_none; eauto.
        -- cbn [append] in E. injection E as _ E. eauto.
Qed.

Lemma collect_ids_spec (old_acts : list dict) (acc ids : gset string) :
  collect_ids old_acts acc = Ok ids ->
  forall x, x ∈ ids <->
    x ∈ acc \/ exists e, In e old_acts /\ act_transaction_id e = Ok (Some x).
Proof.
  revert acc. induction old_acts as [|e old IH]; intros acc; simpl.
  - intros [= <-] x. split; [auto | intros [?|(e & [] & _)]; assumption].
  - destruct (act_transaction_id e) as [tid|] eqn:He; simpl; [|discriminate].
    intros Hc x. rewrite (IH _ Hc x). destruct tid as [y|].
    + rewrite elem_of_union, elem_of_singleton. split.
      * intros [[->|Hx]|(e' & Hin & He')]; eauto 6.
      * intros [Hx|(e' & [<-|Hin] & He')]; eauto 6.
        left. left. congruence.
    + split.
      * intros [Hx|(e' & Hin & He')]; eauto 6.
      * intros [Hx|(e' & [<-|Hin] & He')]; eauto 6. congruence.
Qed.

Lemma collect_ids_total (old_acts : list dict) (acc : gset string) :
  Forall (fun e => exists r, act_transaction_id e = Ok r) old_acts ->
  exists ids, collect_ids old_acts acc = Ok ids.
Proof.
  intros Hall. revert acc. induction Hall as [|e old [r Hr] _ IH]; intros acc; simpl.
  - eauto.
  - rewrite Hr. simpl. apply IH.
Qed.

(** ** The diff engine *)

Section DiffEngine.
Context `{PyBuiltins}.

Lemma bind_ext {A B} (m : M A) (k1 k2 : A -> M B) :
  (forall a, k1 a = k2 a) -> bind m k1 = bind m k2.
Proof. intros E. destruct m as [l [a|e]]; simpl; [rewrite E|]; reflexivity. Qed.

Lemma is_act_present_run (c : dict) (old_acts : list dict) (ids : gset string) :
  run (is_act_present c old_acts ids) =
  rbind (act_transaction_id c) (fun tid =>
    if id_synced tid ids then Ok true else run (legacy_present c old_acts)).
Proof.
  unfold is_act_present. rewrite run_bind, run_lift.
  destruct (act_transaction_id c) as [tid|e]; simpl; [|reflexivity].
  destruct (id_synced tid ids); reflexivity.
Qed.

Lemma legacy_present_cons (c e : dict) (rest : list dict) :
  run (legacy_present c (e :: rest)) =
  rbind (run (format_existing_act e "symbol")) (fun t =>
  rbind (run (format_new_act c "symbol")) (fun t' =>
  if transaction_eq t t' then Ok true else run (legacy_present c rest))).
Proof.
  cbn [legacy_present]. rewrite run_bind.
  destruct (run (format_existing_act e "symbol")); cbn [rbind]; [|reflexivity].
  rewrite run_bind. destruct (run (format_new_act c "symbol")); cbn [rbind]; [|reflexivity].
  destruct (transaction_eq _ _); reflexivity.
Qed.

Lemma legacy_present_ok (c : dict) (old_acts : list dict) (b : bool) :
  run (legacy_present c old_acts) = Ok b ->
  (b = true <-> exists e, In e old_acts /\ same_event e c = true).
Proof.
  revert b. induction old_acts as [|e rest IH]; intros b.
  - simpl. intros [= <-]. split; [discriminate | intros (e & [] & _)].
  - rewrite legacy_present_cons.
    destruct (run (format_existing_act e "symbol")) as [t|] eqn:Ht; cbn [rbind]; [|discriminate].
    destruct (run (format_new_act c "symbol")) as [t'|] eqn:Ht'; cbn [rbind]; [|discriminate].
    destruct (transaction_eq t t') eqn:Heq.
    + intros [= <-]. split; [|reflexivity]. intros _. exists e. split; [left; reflexivity|].
      unfold same_event. rewrite Ht, Ht'. exact Heq.
    + intros Hrun. rewrite (IH b Hrun). split.
      * intros (e' & Hin & He'). exists e'. split; [right|]; assumption.
      * intros (e' & [<-|Hin] & He').
        -- unfold same_event in He'. rewrite Ht, Ht', Heq in He'. discriminate.
        -- exists e'. split; assumption.
Qed.

Lemma legacy_present_total (c : dict) (old_acts : list dict) :
  Forall (fun e => normalizes_existing e = true) old_acts ->
  normalizes_new c = true ->
  exists b, run (legacy_present c old_acts) = Ok b.
Proof.
  intros Hall Hc. induction Hall as [|e rest He _ IH].
  - simpl. eauto.
  - rewrite legacy_present_cons. unfold normalizes_existing in He. unfold normalizes_new in Hc.
    destruct (run (format_existing_act e "symbol")); [|discriminate].
    destruct (run (format_new_act c "symbol")); [|discriminate]. cbn [rbind].
    destruct (transaction_eq _ _); eauto.
Qed.

Lemma legacy_present_app (c : dict) (l1 l2 : list dict) :
  run (legacy_present c (l1 ++ l2)) =
  rbind (run (legacy_present c l1)) (fun b =>
    if (b : bool) then Ok true else run (legacy_present c l2)).
Proof.
  induction l1 as [|e l1 IH].
  - reflexivity.
  - change ((e :: l1) ++ l2) with (e :: (l1 ++ l2)). rewrite !legacy_present_cons.
    destruct (run (format_existing_act e "symbol")); cbn [rbind]; [|reflexivity].
    destruct (run (format_new_act c "symbol")); cbn [rbind]; [|reflexivity].
    destruct (transaction_eq _ _); [reflexivity | exact IH].
Qed.

Lemma is_new_true (old_acts : list dict) (ids : gset string) (c : dict) :
  is_new old_acts ids c = true <-> run (is_act_present c old_acts ids) = Ok false.
Proof.
  unfold is_new. destruct (run (is_act_present c old_acts ids)) as [[|]|];
    split; congruence.
Qed.

Lemma diff_loop_cons (c : dict) (rest old_acts : list dict) (ids : gset string)
    (acc : list dict) :
  run (diff_loop (c :: rest) old_acts ids acc) =
  rbind (run (is_act_present c old_acts ids)) (fun present =>
    run (diff_loop rest old_acts ids (if (present : bool) then acc else acc ++ [c]))).
Proof. cbn [diff_loop]. apply run_bind. Qed.

Lemma diff_loop_ok (new_acts old_acts : list dict) (ids : gset string)
    (acc d : list dict) :
  run (diff_loop new_acts old_acts ids acc) = Ok d ->
  d = acc ++ List.filter (is_new old_acts ids) new_acts
  /\ Forall (fun c => exists b, run (is_act_present c old_acts ids) = Ok b) new_acts.
Proof.
  revert acc. induction new_acts as [|c rest IH]; intros acc.
  - simpl. intros [= <-]. rewrite app_nil_r. auto.
  - rewrite diff_loop_cons. cbn [List.filter]. unfold is_new at 1.
    destruct (run (is_act_present c old_acts ids)) as [b|] eqn:Hc; cbn [rbind]; [|discriminate].
    intros Hrun. apply IH in Hrun as [-> Hall]. split; [|constructor; eauto].
    destruct b; [reflexivity|]. rewrite <- app_assoc. reflexivity.
Qed.

Lemma diff_loop_total (new_acts old_acts : list dict) (ids : gset string)
    (acc : list dict) :
  Forall (fun c => exists b, run (is_act_present c old_acts ids) = Ok b) new_acts ->
  run (diff_loop new_acts old_acts ids acc)
  = Ok (acc ++ List.filter (is_new old_acts ids) new_acts).
Proof.
  intros Hall. revert acc. induction Hall as [|c rest [b Hb] _ IH]; intros acc.
  - simpl. rewrite app_nil_r. reflexivity.
  - rewrite diff_loop_cons, Hb. cbn [rbind List.filter]. unfold is_new at 1. rewrite Hb, IH.
    destruct b; [reflexivity|]. rewrite <- app_assoc. reflexivity.
Qed.

Lemma get_diff_run (old_acts new_acts : list dict) :
  run (get_diff old_acts new_acts) =
  rbind (collect_ids old_acts ∅) (fun ids => run (diff_loop new_acts old_acts ids [])).
Proof. unfold get_diff. rewrite run_bind, run_lift. reflexivity. Qed.

Lemma filter_sublist_of {A} (f : A -> bool) (l : list A) :
  sublist (List.filter f l) l.
Proof.
  induction l as [|x l IH]; simpl; [constructor|].
  destruct (f x); [apply sublist_skip | apply sublist_cons]; exact IH.
Qed.

End DiffEngine.

Lemma transaction_eq_fields (a b : transaction) :
  transaction_eq a b = true <-> seven_fields_equal a b.
Proof.
  unfold transaction_eq, seven_fields_equal.
  rewrite !andb_true_iff. tauto.
Qed.

Lemma binary_round_sign (m : positive) (e : Z) :
  binary_round prec emax true m e = SFopp (binary_round prec emax false m e).
Proof.
  unfold binary_round. destruct (shl_align _ _ _) as [mz ez].
  unfold binary_round_aux.
  destruct (shr_fexp _ _ _ _ _) as [mrs' e'].
  destruct (shr_fexp _ _ _ _ _) as [mrs'' e''].
  destruct (shr_m mrs''); try reflexivity.
  destruct (_ <=? _); reflexivity.
Qed.

Lemma SFabs_SFopp (f : float) : SFabs (SFopp f) = SFabs f.
Proof. destruct f; reflexivity. Qed.

Lemma float_of_int_opp (z : Z) :
  rbind (float_of_int (- z)) (fun f => Ok (SFabs f))
  = rbind (float_of_int z) (fun f => Ok (SFabs f)).
Proof.
  unfold float_of_int, binary_normalize. destruct z as [|p|p]; [reflexivity| |].
  - change (- Z.pos p) with (Z.neg p). cbv iota. rewrite binary_round_sign.
    destruct (binary_round prec emax false p 0); reflexivity.
  - change (- Z.neg p) with (Z.pos p). cbv iota. rewrite binary_round_sign.
    destruct (binary_round prec emax false p 0); reflexivity.
Qed.

Section DiffTheorems.
Context `{PyBuiltins}.

(** The sign of a fee or a quantity does not reach the transaction. *)
Lemma abs_float_neg (v v' : value) : py_neg v = Some v' -> abs_float v' = abs_float v.
Proof.
  destruct v; cbn [py_neg]; try discriminate; intros [= <-]; unfold abs_float;
    cbn [py_float rbind].
  - apply float_of_int_opp.
  - rewrite SFabs_SFopp. reflexivity.
Qed.

(** Neither does its being written as a string. *)
Lemma abs_float_str (s : string) (f : float) :
  float_of_str s = Some f -> abs_float (VStr s) = abs_float (VFloat f).
Proof. intros E. unfold abs_float. cbn [py_float]. rewrite E. reflexivity. Qed.

Lemma same_event_fields (e c : dict) :
  same_event e c = true <->
  exists t t', run (format_existing_act e "symbol") = Ok t
    /\ run (format_new_act c "symbol") = Ok t' /\ seven_fields_equal t t'.
Proof.
  unfold same_event.
  destruct (run (format_existing_act e "symbol")) as [t|];
    destruct (run (format_new_act c "symbol")) as [t'|];
    try (split; [discriminate | intros (? & ? & ? & ? & _); discriminate]).
  rewrite transaction_eq_fields. split.
  - eauto.
  - intros (? & ? & [= <-] & [= <-] & ?). assumption.
Qed.

Lemma get_diff_ok (old_acts new_acts d : list dict) :
  run (get_diff old_acts new_acts) = Ok d ->
  exists ids, collect_ids old_acts ∅ = Ok ids
    /\ d = List.filter (is_new old_acts ids) new_acts
    /\ (forall c, In c d <->
          In c new_acts /\ run (is_act_present c old_acts ids) = Ok false).
Proof.
  intros Hrun. rewrite get_diff_run in Hrun.
  apply rbind_ok in Hrun as (ids & Hids & Hloop).
  apply diff_loop_ok in Hloop as [-> _]. cbn [app].
  exists ids. split; [assumption|]. split; [reflexivity|].
  intros c. rewrite List.filter_In, is_new_true. reflexivity.
Qed.

(** C7. The list [get_diff] returns is the candidate list, in its order,
    with the candidates classified as present removed: a subsequence of the
    candidates holding exactly those for which [is_act_present] answered
    [False]. [get_diff] returns it whenever every classification returns. *)
Theorem get_diff_is_filter (old_acts new_acts : list dict) :
  (forall d, run (get_diff old_acts new_acts) = Ok d ->
     exists ids, collect_ids old_acts ∅ = Ok ids
       /\ d = List.filter (is_new old_acts ids) new_acts
       /\ sublist d new_acts
       /\ (forall c, In c d <->
             In c new_acts /\ run (is_act_present c old_acts ids) = Ok false))
  /\ (forall ids, collect_ids old_acts ∅ = Ok ids ->
        Forall (fun c => exists b, run (is_act_present c old_acts ids) = Ok b) new_acts ->
        run (get_diff old_acts new_acts) = Ok (List.filter (is_new old_acts ids) new_acts)).
Proof.
  split.
  - intros d Hrun. destruct (get_diff_ok _ _ _ Hrun) as (ids & Hids & -> & Hmem).
    exists ids. split; [assumption|]. split; [reflexivity|].
    split; [apply filter_sublist_of | exact Hmem].
  - intros ids Hids Hall. rewrite get_diff_run, Hids. cbn [rbind].
    rewrite (diff_loop_total _ _ _ _ Hall). reflexivity.
Qed.

(** The legacy comparison, whenever it returns. A candidate the identifier
    fast path does not accept is then present exactly when some existing
    activity and the candidate normalize (nested-symbol path for the former,
    flat-symbol path for the latter) to transactions equal in all seven
    fields, and the comparison does return when the activities involved
    normalize. The fee and the quantity enter it as [abs(float(v))], which
    is the same for [v] and [-v] and for a string and the number it
    denotes. *)
Lemma legacy_comparison_when_returned (c : dict) (old_acts : list dict)
    (ids : gset string) (tid : option string) :
  act_transaction_id c = Ok tid ->
  id_synced tid ids = false ->
  (forall b, run (is_act_present c old_acts ids) = Ok b ->
     (b = true <->
      exists e t t', In e old_acts
        /\ run (format_existing_act e "symbol") = Ok t
        /\ run (format_new_act c "symbol") = Ok t'
        /\ seven_fields_equal t t'))
  /\ (Forall (fun e => normalizes_existing e = true) old_acts ->
      normalizes_new c = true ->
      exists b, run (is_act_present c old_acts ids) = Ok b)
  /\ (forall (act : dict) (symbol : value) (t : transaction),
        build_transaction act symbol = Ok t ->
        rbind (py_getitem act "fee") abs_float = Ok (tx_fee t)
        /\ rbind (py_getitem act "quantity") abs_float = Ok (tx_quantity t))
  /\ (forall v v', py_neg v = Some v' -> abs_float v' = abs_float v)
  /\ (forall s f, float_of_str s = Some f -> abs_float (VStr s) = abs_float (VFloat f)).
Proof.
  intros Htid Hfast. rewrite is_act_present_run, Htid. cbn [rbind]. rewrite Hfast.
  split; [|split; [|split; [|split]]].
  - intros b Hb. rewrite (legacy_present_ok _ _ _ Hb). split.
    + intros (e & Hin & He). apply same_event_fields in He as (t & t' & ?).
      exists e, t, t'. tauto.
    + intros (e & t & t' & Hin & He). exists e. split; [assumption|].
      apply same_event_fields. eauto.
  - apply legacy_present_total.
  - intros act symbol t. unfold build_transaction, abs_float.
    destruct (py_getitem act "accountId"); cbn [rbind]; [|discriminate].
    destruct (py_getitem act "date") as [d|]; cbn [rbind]; [|discriminate].
    destruct (py_slice18 d); cbn [rbind]; [|discriminate].
    destruct (py_getitem act "fee") as [vf|]; cbn [rbind]; [|discriminate].
    destruct (py_float vf); cbn [rbind]; [|discriminate].
    destruct (py_getitem act "quantity") as [vq|]; cbn [rbind]; [|discriminate].
    destruct (py_float vq); cbn [rbind]; [|discriminate].
    destruct (py_getitem act "type"); cbn [rbind]; [|discriminate].
    destruct (py_getitem act "unitPrice"); cbn [rbind]; [|discriminate].
    intros [= <-]. split; reflexivity.
  - exact abs_float_neg.
  - exact abs_float_str.
Qed.

Lemma is_act_present_fast (c : dict) (old_acts : list dict) (ids : gset string)
    (x : string) :
  act_transaction_id c = Ok (Some x) -> x ∈ ids ->
  is_act_present c old_acts ids = ret true.
Proof.
  intros Hc Hx. unfold is_act_present. rewrite Hc.
  change (lift (Ok (Some x))) with (ret (Some x)). rewrite bind_ret_l.
  cbn [id_synced]. rewrite bool_decide_eq_true_2 by assumption. reflexivity.
Qed.

Lemma diff_loop_skip (c : dict) (new1 new2 old_acts : list dict) (ids : gset string)
    (acc : list dict) :
  is_act_present c old_acts ids = ret true ->
  diff_loop (new1 ++ c :: new2) old_acts ids acc
  = diff_loop (new1 ++ new2) old_acts ids acc.
Proof.
  intros Hc. revert acc. induction new1 as [|c' new1 IH]; intros acc.
  - cbn [app diff_loop]. rewrite Hc, bind_ret_l. reflexivity.
  - cbn [app diff_loop]. apply bind_ext. intros present. apply IH.
Qed.

(** C2. When the identifier extracted from an existing activity's comment
    is also the one extracted from the candidate's comment, the candidate is
    a duplicate whatever its other fields are: [is_act_present] answers
    [True] at once, without normalizing or logging anything, and [get_diff]
    leaves the candidate out. *)
Theorem fast_path_duplicate (old_acts : list dict) (e c : dict) (x : string)
    (ids : gset string) :
  In e old_acts ->
  act_transaction_id e = Ok (Some x) ->
  act_transaction_id c = Ok (Some x) ->
  collect_ids old_acts ∅ = Ok ids ->
  is_act_present c old_acts ids = ret true
  /\ (forall new1 new2,
        get_diff old_acts (new1 ++ c :: new2) = get_diff old_acts (new1 ++ new2))
  /\ (forall new_acts d, run (get_diff old_acts new_acts) = Ok d -> ~ In c d).
Proof.
  intros Hin He Hc Hids.
  assert (Hx : x ∈ ids).
  { apply (collect_ids_spec _ _ _ Hids). right. eauto. }
  assert (Hfast := is_act_present_fast c old_acts ids x Hc Hx).
  split; [exact Hfast|]. split.
  - intros new1 new2. unfold get_diff. rewrite Hids.
    change (lift (Ok ids)) with (ret ids). rewrite !bind_ret_l.
    apply diff_loop_skip. exact Hfast.
  - intros new_acts d Hrun Hd.
    destruct (get_diff_ok _ _ _ Hrun) as (ids' & Hids' & _ & Hmem).
    assert (ids' = ids) as -> by congruence.
    apply Hmem in Hd as [_ Hd]. rewrite Hfast in Hd. discriminate.
Qed.

End DiffTheorems.



(** C8, as the code has it. The identifier read from a comment is the run of
    characters, up to the next pipe or the end of the string, that follows
    the first occurrence of [transactionId=] which a character other than the
    pipe follows; occurrences followed by a pipe or by the end are passed
    over, and when there is no occurrence of the former kind the search finds
    nothing. An absent or [None] comment gives no identifier and no error,
    and the synced set holds exactly the identifiers so read from the
    existing activities. *)
Theorem identifier_extraction :
  (forall s,
     match search_transaction_id s with
     | Some id =>
         id <> EmptyString /\
         exists pre rest, s = pre +:+ marker +:+ rest /\ run_to_pipe rest id /\
           forall pre' rest', s = pre' +:+ marker +:+ rest' ->
             (String.length pre' < String.length pre)%nat ->
             pipe_free_run rest' = EmptyString
     | None =>
         forall pre rest, s = pre +:+ marker +:+ rest -> pipe_free_run rest = EmptyString
     end)
  /\ (forall act, dict_get "comment" act = None \/ dict_get "comment" act = Some VNone ->
        act_transaction_id act = Ok None)
  /\ (forall act s, dict_get "comment" act = Some (VStr s) ->
        act_transaction_id act = Ok (search_transaction_id s))
  /\ (forall old_acts ids, collect_ids old_acts ∅ = Ok ids ->
        forall x, x ∈ ids <->
          exists e, In e old_acts /\ act_transaction_id e = Ok (Some x))
  /\ (forall old_acts,
        Forall (fun e => exists r, act_transaction_id e = Ok r) old_acts ->
        exists ids, collect_ids old_acts ∅ = Ok ids).
Proof.
  split; [exact search_transaction_id_spec|].
  split; [intros act [E|E]; unfold act_transaction_id; rewrite E; reflexivity|].
  split; [intros act s E; unfold act_transaction_id; rewrite E; reflexivity|].
  split.
  - intros old_acts ids Hids x. rewrite (collect_ids_spec _ _ _ Hids x).
    split; [intros [Hx|Hx]; [|exact Hx] | auto].
    exfalso. exact (not_elem_of_empty (C := gset string) x Hx).
  - intros old_acts. apply collect_ids_total.
Qed.

(** ** The normalizers *)

Lemma substring_first_chars (n : nat) (s : string) :
  is_first_chars n s (substring 0 n s).
Proof.
  unfold is_first_chars. revert s. induction n as [|n IH]; intros s.
  - destruct s; (split; [eexists; reflexivity | reflexivity]).
  - destruct s as [|c s]; cbn [substring].
    + split; [exists EmptyString; reflexivity | reflexivity].
    + destruct (IH s) as [[rest E] L]. split.
      * exists rest. cbn [append]. congruence.
      * cbn [String.length Nat.min]. congruence.
Qed.

Section NormalizerTheorems.
Context `{PyBuiltins}.

Lemma build_transaction_fields (act : dict) (symbol accountId type unitPrice vfee vqty : value)
    (date : string) (fee qty : float) :
  dict_get "accountId" act = Some accountId ->
  dict_get "date" act = Some (VStr date) ->
  dict_get "fee" act = Some vfee -> py_float vfee = Ok fee ->
  dict_get "quantity" act = Some vqty -> py_float vqty = Ok qty ->
  dict_get "type" act = Some type ->
  dict_get "unitPrice" act = Some unitPrice ->
  build_transaction act symbol =
  Ok {| tx_accountId := accountId;
        tx_date := VStr (substring 0 18 date);
        tx_fee := SFabs fee;
        tx_quantity := SFabs qty;
        tx_symbol := symbol;
        tx_type := type;
        tx_unitPrice := unitPrice |}.
Proof.
  intros Ha Hd Hf Hf' Hq Hq' Ht Hu. unfold build_transaction, py_getitem.
  rewrite Ha, Hd, Hf. cbn [rbind py_slice18]. rewrite Hf', Hq. cbn [rbind].
  rewrite Hq', Ht, Hu. reflexivity.
Qed.

(** C4. With the required fields present (and the fee and the quantity
    convertible by [float]), either normalizer returns a transaction whose
    fee and quantity are the absolute values of the converted inputs, whose
    date is the first 18 characters of the input date string and whose
    unitPrice is the input's; the ledger-path normalizer does so whenever
    its symbol resolution returns. *)
Theorem normalizers_fields (act : dict) (symbol_type : string)
    (accountId type unitPrice vfee vqty : value) (date : string) (fee qty : float) :
  dict_get "accountId" act = Some accountId ->
  dict_get "date" act = Some (VStr date) ->
  dict_get "fee" act = Some vfee -> py_float vfee = Ok fee ->
  dict_get "quantity" act = Some vqty -> py_float vqty = Ok qty ->
  dict_get "type" act = Some type ->
  dict_get "unitPrice" act = Some unitPrice ->
  (exists t date18, run (format_new_act act symbol_type) = Ok t
     /\ tx_fee t = SFabs fee /\ tx_quantity t = SFabs qty
     /\ tx_date t = VStr date18 /\ is_first_chars 18 date date18
     /\ tx_unitPrice t = unitPrice)
  /\ (forall symbol, run (existing_symbol act symbol_type) = Ok symbol ->
      exists t date18, run (format_existing_act act symbol_type) = Ok t
        /\ tx_fee t = SFabs fee /\ tx_quantity t = SFabs qty
        /\ tx_date t = VStr date18 /\ is_first_chars 18 date date18
        /\ tx_unitPrice t = unitPrice).
Proof.
  intros Ha Hd Hf Hf' Hq Hq' Ht Hu.
  pose proof (fun symbol => build_transaction_fields act symbol _ _ _ _ _ _ _ _
                              Ha Hd Hf Hf' Hq Hq' Ht Hu) as Hb.
  split.
  - unfold format_new_act. rewrite run_lift, Hb.
    eexists _, _. split; [reflexivity|]. cbn.
    repeat split; try reflexivity; apply substring_first_chars.
  - intros symbol Hs. unfold format_existing_act. rewrite run_bind, Hs. cbn [rbind].
    rewrite run_lift, Hb.
    eexists _, _. split; [reflexivity|]. cbn.
    repeat split; try reflexivity; apply substring_first_chars.
Qed.

(** The nested symbol is preferred when it is a non-empty string. *)
Lemma existing_symbol_nested (act profile : dict) (symbol_type : string) (a : ascii)
    (s : string) :
  dict_get "SymbolProfile" act = Some (VDict profile) ->
  dict_get symbol_type profile = Some (VStr (String a s)) ->
  existing_symbol act symbol_type = ret (VStr (String a s)).
Proof.
  intros Hp Hs. unfold existing_symbol. rewrite Hp. cbn [default from_option id py_get].
  rewrite Hs. reflexivity.
Qed.

(** Without a profile the fall-back to the flat symbol is logged, and the
    record of it needs the activity's id. *)
Lemma existing_symbol_fallback (act : dict) (symbol_type : string) (aid : value) :
  dict_get "SymbolProfile" act = None ->
  dict_get "id" act = Some aid ->
  existing_symbol act symbol_type =
  ([LogWarning "Could not find nested symbol type %s for activity %s: %s"
      [VStr symbol_type; aid; VNone]],
   Ok (default (VStr "") (dict_get "symbol" act))).
Proof.
  intros Hp Hid. unfold existing_symbol, py_getitem. rewrite Hp, Hid.
  cbn [default from_option id py_get dict_get]. rewrite String.eqb_refl. reflexivity.
Qed.

Lemma format_existing_act_needs_id (act : dict) (symbol_type : string) :
  dict_get "SymbolProfile" act = None ->
  dict_get "id" act = None ->
  format_existing_act act symbol_type = ([], Raise (KeyError "id")).
Proof.
  intros Hp Hid. unfold format_existing_act, existing_symbol, py_getitem.
  rewrite Hp, Hid. cbn [default from_option id py_get dict_get]. rewrite String.eqb_refl. reflexivity.
Qed.

End NormalizerTheorems.

(** ** An existing activity without [id] and [SymbolProfile] in the diff *)

Section Rerun.
Context `{PyBuiltins}.

(** C3, where the code departs from it. The existing activities are
    normalized one after the other, as the comparison reaches them. On one
    that has no [id] and no [SymbolProfile] the ledger-path normalizer
    raises while it builds its warning, and [is_act_present] with it when
    no activity before that one matched: the answer is then not [True],
    whatever activities follow -- also when one of them normalizes to the
    very transaction of the candidate. *)
Theorem is_act_present_raises_before_match (c e : dict) (before rest : list dict)
    (ids : gset string) (tid : option string) :
  act_transaction_id c = Ok tid ->
  id_synced tid ids = false ->
  run (legacy_present c before) = Ok false ->
  dict_get "SymbolProfile" e = None ->
  dict_get "id" e = None ->
  run (is_act_present c (before ++ e :: rest) ids) = Raise (KeyError "id").
Proof.
  intros Htid Hfast Hbefore Hprofile Hid.
  rewrite is_act_present_run, Htid. cbn [rbind]. rewrite Hfast.
  rewrite legacy_present_app, Hbefore. cbn [rbind].
  rewrite legacy_present_cons, (format_existing_act_needs_id e "symbol" Hprofile Hid).
  reflexivity.
Qed.

Lemma collect_ids_app (l1 l2 : list dict) (acc : gset string) :
  collect_ids (l1 ++ l2) acc = rbind (collect_ids l1 acc) (collect_ids l2).
Proof.
  revert acc. induction l1 as [|e l1 IH]; intros acc; cbn [app collect_ids rbind].
  - reflexivity.
  - destruct (act_transaction_id e); cbn [rbind]; [apply IH | reflexivity].
Qed.

(** The second run, up to the first candidate the first run returned: the
    candidates before it are present again (by their identifier, or by the
    existing activity that matched them before), and the candidate itself,
    carrying no identifier, is compared with the existing activities in
    their order until it reaches the copy of itself. *)
Lemma diff_loop_rerun_raises (new_acts old_acts : list dict) (ids ids' : gset string)
    (d0 : dict) (d stored : list dict) (acc : list dict) :
  (forall x, x ∈ ids -> x ∈ ids') ->
  Forall (fun c => exists b, run (is_act_present c old_acts ids) = Ok b) new_acts ->
  List.filter (is_new old_acts ids) new_acts = d0 :: d ->
  act_transaction_id d0 = Ok None ->
  dict_get "SymbolProfile" d0 = None ->
  dict_get "id" d0 = None ->
  run (diff_loop new_acts (old_acts ++ d0 :: stored) ids' acc) = Raise (KeyError "id").
Proof.
  intros Hsub Hall Hd Htid0 Hprofile Hid. revert acc.
  induction Hall as [|c rest [b Hb] _ IH]; intros acc; [discriminate|].
  rewrite diff_loop_cons. cbn [List.filter] in Hd. unfold is_new at 1 in Hd.
  rewrite Hb in Hd. rewrite is_act_present_run in Hb |- *.
  destruct (act_transaction_id c) as [tid|] eqn:Htid; [|discriminate].
  cbn [rbind] in Hb |- *. destruct b.
  - assert (Hpresent : (if id_synced tid ids' then Ok true
                        else run (legacy_present c (old_acts ++ d0 :: stored)))
                       = Ok true).
    { destruct (id_synced tid ids') eqn:Hs'; [reflexivity|].
      assert (Hs : id_synced tid ids = false).
      { destruct tid as [x|]; [|reflexivity]. cbn [id_synced] in Hs' |- *.
        apply bool_decide_eq_false in Hs'. apply bool_decide_eq_false. auto. }
      rewrite Hs in Hb. rewrite legacy_present_app, Hb. reflexivity. }
    rewrite Hpresent. cbn [rbind]. apply IH. exact Hd.
  - injection Hd as -> _. rewrite Htid0 in Htid. injection Htid as <-.
    cbn [id_synced] in Hb |- *. rewrite legacy_present_app, Hb. cbn [rbind].
    rewrite legacy_present_cons, (format_existing_act_needs_id d0 "symbol" Hprofile Hid).
    reflexivity.
Qed.

(** C1, where the code departs from it. What [get_diff] returns are
    candidates as they were given. When the first of them has no identifier
    in its comment, no [id] and no [SymbolProfile] (the shape of a candidate
    in the specification, and of every snapshot the reconstructor emits),
    the second run, with the returned list appended to the existing
    activities, does not return the empty list: the legacy comparison takes
    that candidate to the copy of itself, on which the ledger-path
    normalizer raises while it builds its warning, and [get_diff] raises
    [KeyError('id')]. *)
Theorem get_diff_rerun_raises (old_acts new_acts : list dict) (d0 : dict)
    (d : list dict) :
  run (get_diff old_acts new_acts) = Ok (d0 :: d) ->
  act_transaction_id d0 = Ok None ->
  dict_get "SymbolProfile" d0 = None ->
  dict_get "id" d0 = None ->
  run (get_diff (old_acts ++ d0 :: d) new_acts) = Raise (KeyError "id").
Proof.
  intros Hrun Htid0 Hprofile Hid. rewrite get_diff_run in Hrun.
  apply rbind_ok in Hrun as (ids & Hids & Hloop).
  apply diff_loop_ok in Hloop as [Hd Hall]. cbn [app] in Hd.
  assert (Hd_ids : Forall (fun c => exists r, act_transaction_id c = Ok r) (d0 :: d)).
  { apply List.Forall_forall. intros c Hin. rewrite Hd in Hin.
    apply List.filter_In in Hin as [Hin _]. rewrite List.Forall_forall in Hall.
    destruct (Hall c Hin) as [b Hb]. rewrite is_act_present_run in Hb.
    destruct (act_transaction_id c); [eauto | discriminate]. }
  destruct (collect_ids_total (d0 :: d) ids Hd_ids) as [ids' Hids'].
  rewrite get_diff_run, collect_ids_app, Hids. cbn [rbind]. rewrite Hids'. cbn [rbind].
  apply (diff_loop_rerun_raises new_acts old_acts ids ids' d0 d d []); auto.
  intros x Hx. apply (collect_ids_spec _ _ _ Hids'). left. exact Hx.
Qed.

End Rerun.

(** ** The valuation lookup *)

Lemma ymd_leb_refl (a : ymd) : ymd_leb a a = true.
Proof.
  unfold ymd_leb. rewrite !Z.eqb_refl, Z.leb_refl, !orb_true_r. reflexivity.
Qed.

Lemma ymd_leb_spec (a b : ymd) :
  ymd_leb a b = true <->
  year a < year b \/ (year a = year b /\ (month a < month b \/ (month a = month b /\ day a <= day b))).
Proof.
  unfold ymd_leb.
  rewrite !orb_true_iff, !andb_true_iff, !orb_true_iff, !andb_true_iff.
  rewrite !Z.ltb_lt, !Z.eqb_eq, Z.leb_le. reflexivity.
Qed.

Lemma ymd_leb_trans (a b c : ymd) :
  ymd_leb a b = true -> ymd_leb b c = true -> ymd_leb a c = true.
Proof. rewrite !ymd_leb_spec. lia. Qed.

Lemma ymd_leb_total (a b : ymd) : ymd_leb a b = true \/ ymd_leb b a = true.
Proof. rewrite !ymd_leb_spec. lia. Qed.

Lemma ymd_ltb_false (a b : ymd) : ymd_ltb a b = false -> ymd_leb b a = true.
Proof.
  unfold ymd_ltb. destruct (ymd_leb_total a b) as [E|E]; rewrite E; [|reflexivity].
  destruct (ymd_leb b a); [reflexivity | discriminate].
Qed.

Lemma ymd_ltb_true (a b : ymd) : ymd_ltb a b = true -> ymd_leb a b = true.
Proof. unfold ymd_ltb. destruct (ymd_leb a b); [reflexivity | discriminate]. Qed.

Section ValuationTheorems.
Context `{PyBuiltins}.

Lemma closest_previous_invariant (items seen : dict) (dt : ymd)
    (closest r : option (ymd * value)) :
  closest_previous items dt closest = Ok r ->
  latest_not_after seen dt closest ->
  latest_not_after (seen ++ items) dt r.
Proof.
  revert seen closest. induction items as [|[k p] rest IH]; intros seen closest.
  - cbn [closest_previous]. intros [= <-]. rewrite app_nil_r. trivial.
  - cbn [closest_previous]. unfold strptime.
    destruct (strptime_ymd k) as [d0|] eqn:Hk; cbn [rbind]; [|discriminate].
    intros Hrun Hinv.
    replace (seen ++ (k, p) :: rest) with ((seen ++ [(k, p)]) ++ rest)
      by (rewrite <- app_assoc; reflexivity).
    apply (IH _ _ Hrun). clear IH Hrun.
    destruct (ymd_leb d0 dt) eqn:Hle.
    + destruct closest as [[d q]|].
      * destruct Hinv as (Hd & (kq & Hkq & Hq) & Hmax).
        destruct (ymd_ltb d d0) eqn:Hlt.
        -- split; [exact Hle|]. split.
           ++ exists k. split; [apply in_or_app; right; left; reflexivity | exact Hk].
           ++ intros k' p' d' Hin Hk' Hle'. apply in_app_or in Hin as [Hin|[[= <- <-]|[]]].
              ** apply ymd_leb_trans with d; [eauto | apply ymd_ltb_true; exact Hlt].
              ** assert (d' = d0) as -> by congruence. apply ymd_leb_refl.
        -- split; [exact Hd|]. split.
           ++ exists kq. split; [apply in_or_app; left; exact Hkq | exact Hq].
           ++ intros k' p' d' Hin Hk' Hle'. apply in_app_or in Hin as [Hin|[[= <- <-]|[]]].
              ** eauto.
              ** assert (d' = d0) as -> by congruence. apply ymd_ltb_false. exact Hlt.
      * split; [exact Hle|]. split.
        -- exists k. split; [apply in_or_app; right; left; reflexivity | exact Hk].
        -- intros k' p' d' Hin Hk' Hle'. apply in_app_or in Hin as [Hin|[[= <- <-]|[]]].
           ++ cbn [latest_not_after] in Hinv. rewrite (Hinv _ _ _ Hin Hk') in Hle'. discriminate.
           ++ assert (d' = d0) as -> by congruence. apply ymd_leb_refl.
    + destruct closest as [[d q]|].
      * destruct Hinv as (Hd & (kq & Hkq & Hq) & Hmax).
        split; [exact Hd|]. split.
        -- exists kq. split; [apply in_or_app; left; exact Hkq | exact Hq].
        -- intros k' p' d' Hin Hk' Hle'. apply in_app_or in Hin as [Hin|[[= <- <-]|[]]].
           ++ eauto.
           ++ assert (d' = d0) as -> by congruence. congruence.
      * cbn [latest_not_after] in Hinv |- *.
        intros k' p' d' Hin Hk'. apply in_app_or in Hin as [Hin|[[= <- <-]|[]]].
        -- eauto.
        -- assert (d' = d0) as -> by congruence. exact Hle.
Qed.

Lemma closest_previous_total (items : dict) (dt : ymd) (closest : option (ymd * value)) :
  Forall (fun kv => exists d, strptime_ymd (fst kv) = Some d) items ->
  exists r, closest_previous items dt closest = Ok r.
Proof.
  intros Hall. revert closest. induction Hall as [|[k p] rest [d Hd] _ IH]; intros closest.
  - cbn. eauto.
  - cbn [closest_previous]. unfold strptime. cbn [fst] in Hd. rewrite Hd. cbn [rbind].
    apply IH.
Qed.

(** C10. On a valuation history keyed by date strings the lookup returns
    the price under the requested date when that key is present; otherwise,
    the requested date and the keys being dates, the price at the greatest
    valuation date not after the requested one; and [None], without
    raising, when every valuation date is after it. *)
Theorem get_unit_price_for_date_spec (fund_data valuation : dict)
    (transaction_date : string) :
  default (VDict []) (dict_get "valuation" fund_data) = VDict valuation ->
  (forall price, dict_get transaction_date valuation = Some price ->
     get_unit_price_for_date fund_data transaction_date = Ok price)
  /\ (dict_get transaction_date valuation = None ->
      forall dt, strptime_ymd transaction_date = Some dt ->
      Forall (fun kv => exists d, strptime_ymd (fst kv) = Some d) valuation ->
      exists r, get_unit_price_for_date fund_data transaction_date = Ok r /\
        ((exists k d, In (k, r) valuation /\ strptime_ymd k = Some d
            /\ ymd_leb d dt = true
            /\ forall k' p' d', In (k', p') valuation -> strptime_ymd k' = Some d' ->
                 ymd_leb d' dt = true -> ymd_leb d' d = true)
         \/ (r = VNone
             /\ forall k p d, In (k, p) valuation -> strptime_ymd k = Some d ->
                  ymd_leb d dt = false))).
Proof.
  intros Hval. unfold get_unit_price_for_date. rewrite Hval. split.
  - intros price Hp. rewrite Hp. reflexivity.
  - intros Hnone dt Hdt Hkeys. rewrite Hnone. unfold strptime at 1. rewrite Hdt.
    cbn [rbind].
    destruct (closest_previous_total valuation dt None Hkeys) as [r Hr].
    rewrite Hr. cbn [rbind]. eexists. split; [reflexivity|].
    assert (Hinv := closest_previous_invariant valuation [] dt None r Hr).
    cbn [app] in Hinv.
    assert (Hnil : latest_not_after [] dt None) by (intros k p d []).
    specialize (Hinv Hnil). destruct r as [[d price]|]; cbn [closest_price].
    + left. destruct Hinv as (Hd & (k & Hk & Hkd) & Hmax). exists k, d. auto.
    + right. split; [reflexivity | exact Hinv].
Qed.

End ValuationTheorems.

(** ** The fund snapshot reconstructor *)

Lemma float_of_int_cases (z : Z) :
  (exists f, float_of_int z = Ok f) \/ float_of_int z = Raise OverflowError.
Proof.
  unfold float_of_int. destruct (binary_normalize prec emax z 0 false); eauto.
Qed.

Lemma int_truediv_no_zero_division (x y : Z) :
  y <> 0 -> int_truediv x y <> Raise ZeroDivisionError.
Proof.
  intros Hy. unfold int_truediv. destruct x; [discriminate| |];
    (destruct y; [congruence| |]);
    match goal with |- context [SFdiv ?p ?e ?a ?b] => destruct (SFdiv p e a b) end;
    discriminate.
Qed.

(** A number for which [<= 0] is false is strictly positive or NaN, and in
    either case is not zero. *)
Lemma not_le0_nonzero (u : value) :
  py_le0 u = Ok false ->
  (strictly_positive u = true \/ is_nan u = true)
  /\ exists n, as_number u = Some n /\ number_is_zero n = false.
Proof.
  destruct u as [|b|z|f|s|l|d]; cbn [py_le0]; try discriminate; intros [= Hle].
  - destruct b; [|discriminate]. split; [left; reflexivity|]. eexists; split; reflexivity.
  - apply Z.leb_gt in Hle. split.
    + left. cbn. apply Z.ltb_lt. exact Hle.
    + eexists. split; [reflexivity|]. cbn. apply Z.eqb_neq. lia.
  - destruct f as [s|s| |s m e]; cbn in Hle; try discriminate.
    + destruct s; [discriminate|]. split; [left; reflexivity|].
      eexists; split; reflexivity.
    + split; [right; reflexivity|]. eexists; split; reflexivity.
    + destruct s; [discriminate|]. split; [left; reflexivity|].
      eexists; split; reflexivity.
Qed.

Lemma py_truediv_no_zero_division (v u : value) (n : number) :
  as_number u = Some n -> number_is_zero n = false ->
  py_truediv v u <> Raise ZeroDivisionError.
Proof.
  intros Hu Hn. unfold py_truediv. rewrite Hu.
  destruct (as_number v) as [[x|x]|]; [| |discriminate]; destruct n as [y|y].
  - rewrite Hn. apply int_truediv_no_zero_division. cbn in Hn. apply Z.eqb_neq. exact Hn.
  - destruct (float_of_int_cases x) as [[f ->]| ->]; cbn [rbind]; [|discriminate].
    rewrite Hn. discriminate.
  - destruct (float_of_int_cases y) as [[f ->]| ->]; cbn [rbind]; [|discriminate].
    rewrite Hn. discriminate.
  - rewrite Hn. discriminate.
Qed.

Lemma py_le0_raises (v : value) (e : exn) : py_le0 v = Raise e -> e = TypeError.
Proof. destruct v; cbn; congruence. Qed.

Section ReconstructorTheorems.
Context `{PyBuiltins}.

Lemma py_le0_numeric (v : value) (b : bool) :
  py_le0 v = Ok b -> exists q, py_round2 v = Ok q.
Proof.
  destruct v; cbn; try discriminate; intros _; eexists; reflexivity.
Qed.

Lemma holding_skipped_false (value units : value) :
  holding_skipped value units = Ok false <->
  py_le0 value = Ok false /\ py_le0 units = Ok false.
Proof.
  unfold holding_skipped. destruct (py_le0 value) as [[|]|]; cbn [rbind];
    split; try discriminate; try tauto; intros [? ?]; discriminate.
Qed.

Lemma py_format_4f_no_zero_division (v : value) :
  py_format_4f v <> Raise ZeroDivisionError.
Proof.
  destruct v as [|b|z|f|s|l|d]; cbn [py_format_4f]; try discriminate.
  - destruct (float_of_int_cases (Z_of_bool b)) as [[f ->]| ->]; discriminate.
  - destruct (float_of_int_cases z) as [[f ->]| ->]; discriminate.
Qed.

Lemma holding_comment_no_zero_division (units value : value) (n : number) :
  as_number units = Some n -> number_is_zero n = false ->
  holding_comment units value <> Raise ZeroDivisionError.
Proof.
  intros Hu Hn. unfold holding_comment.
  pose proof (py_format_4f_no_zero_division units) as Hf.
  destruct (py_format_4f units); cbn [rbind]; [|congruence].
  pose proof (py_truediv_no_zero_division value units n Hu Hn) as Hd.
  destruct (py_truediv value units); cbn [rbind]; [discriminate | congruence].
Qed.

(** the result of one turn of the loop, the log left aside *)
Lemma reconstruct_fund_run (self : SyncKoura) (today : string) (fund : dict) :
  run (reconstruct_fund self today fund) =
  rbind (holding_skipped (holding_value fund) (holding_units fund)) (fun skipped =>
    if (skipped : bool) then Ok None
    else if negb (py_truthy (mapped_symbol self fund)) then Ok None
    else
      rbind (holding_comment (holding_units fund) (holding_value fund)) (fun comment =>
      rbind (py_round2 (holding_value fund)) (fun quantity =>
      Ok (Some [ ("accountId", VNone);
                 ("comment", VStr comment);
                 ("currency", ghost_currency self);
                 ("dataSource", VStr "MANUAL");
                 ("date", VStr today);
                 ("fee", VInt 0);
                 ("quantity", quantity);
                 ("symbol", mapped_symbol self fund);
                 ("type", VStr "BUY");
                 ("unitPrice", VFloat float_one) ])))).
Proof.
  unfold reconstruct_fund. fold (holding_value fund) (holding_units fund)
    (mapped_symbol self fund).
  rewrite run_bind, run_lift.
  destruct (holding_skipped (holding_value fund) (holding_units fund)) as [[|]|];
    cbn [rbind]; try reflexivity.
  destruct (negb (py_truthy (mapped_symbol self fund))); [reflexivity|].
  rewrite run_bind, run_lift.
  destruct (holding_comment (holding_units fund) (holding_value fund));
    cbn [rbind]; [|reflexivity].
  rewrite run_bind, run_lift.
  destruct (py_round2 (holding_value fund)); reflexivity.
Qed.

Lemma reconstruct_fund_ok (self : SyncKoura) (today : string) (fund : dict)
    (emitted : option dict) :
  run (reconstruct_fund self today fund) = Ok emitted ->
  match emitted with
  | Some activity => holding_kept self fund = true /\ snapshot_of self fund activity
  | None => holding_kept self fund = false
  end.
Proof.
  rewrite reconstruct_fund_run. unfold holding_kept.
  destruct (holding_skipped (holding_value fund) (holding_units fund)) as [[|]|];
    cbn [rbind]; [intros [= <-]; reflexivity | | discriminate].
  destruct (py_truthy (mapped_symbol self fund)); cbn [negb];
    [|intros [= <-]; reflexivity].
  destruct (holding_comment (holding_units fund) (holding_value fund));
    cbn [rbind]; [|discriminate].
  destruct (py_round2 (holding_value fund)) as [q|] eqn:Hq; cbn [rbind]; [|discriminate].
  intros [= <-]. split; [reflexivity|]. unfold snapshot_of.
  repeat split; try reflexivity. exists q. split; [exact Hq | reflexivity].
Qed.

Lemma reconstruct_fund_total (self : SyncKoura) (today : string) (fund : dict) :
  holding_renders self fund = true ->
  exists emitted, run (reconstruct_fund self today fund) = Ok emitted.
Proof.
  rewrite reconstruct_fund_run. unfold holding_renders.
  destruct (holding_skipped (holding_value fund) (holding_units fund)) as [[|]|] eqn:Hs;
    cbn [rbind]; [eauto | | discriminate].
  destruct (py_truthy (mapped_symbol self fund)); cbn [negb orb]; [|eauto].
  destruct (holding_comment (holding_units fund) (holding_value fund));
    cbn [rbind]; [|discriminate].
  apply holding_skipped_false in Hs as [Hv _].
  destruct (py_le0_numeric _ _ Hv) as [q Hq]. rewrite Hq. cbn [rbind]. eauto.
Qed.

Lemma reconstruct_loop_cons (self : SyncKoura) (today : string) (fund : dict)
    (rest activities : list dict) :
  run (reconstruct_loop self today (fund :: rest) activities) =
  rbind (run (reconstruct_fund self today fund)) (fun emitted =>
    run (reconstruct_loop self today rest
           match emitted with
           | Some activity => activities ++ [activity]
           | None => activities
           end)).
Proof. cbn [reconstruct_loop]. apply run_bind. Qed.

Lemma reconstruct_loop_ok (self : SyncKoura) (today : string)
    (funds activities result : list dict) :
  run (reconstruct_loop self today funds activities) = Ok result ->
  exists emitted, result = activities ++ emitted
    /\ Forall2 (snapshot_of self) (List.filter (holding_kept self) funds) emitted.
Proof.
  revert activities. induction funds as [|fund rest IH]; intros activities.
  - cbn. intros [= <-]. exists []. rewrite app_nil_r. split; [reflexivity | constructor].
  - rewrite reconstruct_loop_cons.
    destruct (run (reconstruct_fund self today fund)) as [emitted|] eqn:Hf;
      cbn [rbind]; [|discriminate].
    apply reconstruct_fund_ok in Hf. intros Hrun.
    apply IH in Hrun as (more & -> & Hall). cbn [List.filter].
    destruct emitted as [activity|].
    + destruct Hf as [-> Hsnap]. exists (activity :: more).
      rewrite <- app_assoc. split; [reflexivity | constructor; assumption].
    + rewrite Hf. exists more. split; [reflexivity | assumption].
Qed.

Lemma reconstruct_loop_total (self : SyncKoura) (today : string)
    (funds activities : list dict) :
  Forall (fun fund => holding_renders self fund = true) funds ->
  exists result, run (reconstruct_loop self today funds activities) = Ok result.
Proof.
  intros Hall. revert activities. induction Hall as [|fund rest Hf _ IH]; intros activities.
  - cbn. eauto.
  - rewrite reconstruct_loop_cons.
    destruct (reconstruct_fund_total self today fund Hf) as [emitted ->]. cbn [rbind].
    apply IH.
Qed.

Lemma holding_skipped_raises (value units : value) (e : exn) :
  holding_skipped value units = Raise e -> e = TypeError.
Proof.
  unfold holding_skipped. destruct (py_le0 value) as [[|]|] eqn:Hv; cbn [rbind].
  - discriminate.
  - apply py_le0_raises.
  - intros [= <-]. eapply py_le0_raises. exact Hv.
Qed.

Lemma reconstruct_fund_no_zero_division (self : SyncKoura) (today : string) (fund : dict) :
  run (reconstruct_fund self today fund) <> Raise ZeroDivisionError.
Proof.
  rewrite reconstruct_fund_run.
  destruct (holding_skipped (holding_value fund) (holding_units fund)) as [[|]|e] eqn:Hs;
    cbn [rbind]; [discriminate | |].
  - destruct (negb (py_truthy (mapped_symbol self fund))); [discriminate|].
    apply holding_skipped_false in Hs as [Hv Hu].
    destruct (not_le0_nonzero _ Hu) as [_ (n & Hn & Hz)].
    pose proof (holding_comment_no_zero_division _ (holding_value fund) n Hn Hz) as Hc.
    destruct (holding_comment (holding_units fund) (holding_value fund));
      cbn [rbind]; [|congruence].
    destruct (py_le0_numeric _ _ Hv) as [q ->]. discriminate.
  - apply holding_skipped_raises in Hs. congruence.
Qed.

Lemma reconstruct_loop_no_zero_division (self : SyncKoura) (today : string)
    (funds activities : list dict) :
  run (reconstruct_loop self today funds activities) <> Raise ZeroDivisionError.
Proof.
  revert activities. induction funds as [|fund rest IH]; intros activities.
  - discriminate.
  - rewrite reconstruct_loop_cons.
    pose proof (reconstruct_fund_no_zero_division self today fund) as Hf.
    destruct (run (reconstruct_fund self today fund)); cbn [rbind]; [apply IH | congruence].
Qed.

(** C6, as the code has it. A holding is kept when neither its value nor
    its units are [<= 0] and the fund mapping gives its code a non-empty
    symbol; a code absent from the mapping is not kept, and neither is one
    mapped to an empty symbol. A holding that is not kept, its value and
    units being numbers, emits nothing and raises nothing. When the method
    returns, it has emitted one activity per kept holding, in order, with
    type "BUY", unitPrice 1.0, fee 0, the value rounded to two decimals as
    quantity and the mapped symbol; and it returns whenever every turn of
    the loop renders. *)
Theorem reconstruct_fund_purchases_spec (self : SyncKoura) (today : string)
    (transactions : list dict) (account_details : dict) (portfolio_funds : list dict) :
  (forall fund, holding_kept self fund = true <->
     py_le0 (holding_value fund) = Ok false
     /\ py_le0 (holding_units fund) = Ok false
     /\ py_truthy (mapped_symbol self fund) = true)
  /\ (forall fund, fund_mapping self !! fund_code_of fund = None ->
        holding_kept self fund = false)
  /\ (forall fund,
        py_le0 (holding_value fund) = Ok true
        \/ (py_le0 (holding_value fund) = Ok false /\ py_le0 (holding_units fund) = Ok true)
        \/ (py_le0 (holding_value fund) = Ok false /\ py_le0 (holding_units fund) = Ok false
            /\ py_truthy (mapped_symbol self fund) = false) ->
        run (reconstruct_fund self today fund) = Ok None)
  /\ (forall activities,
        run (reconstruct_fund_purchases self today transactions account_details
               portfolio_funds) = Ok activities ->
        Forall2 (snapshot_of self) (List.filter (holding_kept self) portfolio_funds)
          activities)
  /\ (Forall (fun fund => holding_renders self fund = true) portfolio_funds ->
      exists activities,
        run (reconstruct_fund_purchases self today transactions account_details
               portfolio_funds) = Ok activities).
Proof.
  split; [|split; [|split; [|split]]].
  - intros fund. unfold holding_kept.
    destruct (holding_skipped (holding_value fund) (holding_units fund)) as [[|]|] eqn:Hs.
    + split; [discriminate|]. intros (Hv & Hu & _).
      assert (Hf : holding_skipped (holding_value fund) (holding_units fund) = Ok false)
        by (apply holding_skipped_false; auto).
      congruence.
    + apply holding_skipped_false in Hs. tauto.
    + split; [discriminate|]. intros (Hv & Hu & _).
      assert (Hf : holding_skipped (holding_value fund) (holding_units fund) = Ok false)
        by (apply holding_skipped_false; auto).
      congruence.
  - intros fund Hnone. unfold holding_kept, mapped_symbol. rewrite Hnone.
    destruct (holding_skipped _ _) as [[|]|]; reflexivity.
  - intros fund Hcase. rewrite reconstruct_fund_run. unfold holding_skipped.
    destruct Hcase as [Hv|[[Hv Hu]|(Hv & Hu & Hsym)]]; rewrite Hv; cbn [rbind];
      [reflexivity | rewrite Hu; reflexivity | rewrite Hu, Hsym; reflexivity].
  - intros activities Hrun. unfold reconstruct_fund_purchases in Hrun.
    apply reconstruct_loop_ok in Hrun as (emitted & -> & Hall). exact Hall.
  - intros Hall. apply reconstruct_loop_total. exact Hall.
Qed.

(** C9, as the code has it. Computing the per-unit price never raises
    [ZeroDivisionError]: a holding that reaches the emission has units for
    which [units <= 0] is false, so they are strictly positive or NaN, and
    in both cases not zero. *)
Theorem per_unit_price_never_divides_by_zero (self : SyncKoura) (today : string)
    (fund : dict) :
  run (reconstruct_fund self today fund) <> Raise ZeroDivisionError
  /\ (forall transactions account_details portfolio_funds,
        run (reconstruct_fund_purchases self today transactions account_details
               portfolio_funds) <> Raise ZeroDivisionError)
  /\ (holding_kept self fund = true ->
      (strictly_positive (holding_units fund) = true \/ is_nan (holding_units fund) = true)
      /\ py_truediv (holding_value fund) (holding_units fund) <> Raise ZeroDivisionError).
Proof.
  split; [apply reconstruct_fund_no_zero_division|].
  split; [intros; apply reconstruct_loop_no_zero_division|].
  unfold holding_kept.
  destruct (holding_skipped (holding_value fund) (holding_units fund)) as [[|]|] eqn:Hs;
    try discriminate.
  intros _. apply holding_skipped_false in Hs as [_ Hu].
  destruct (not_le0_nonzero _ Hu) as [Hpos (n & Hn & Hz)].
  split; [exact Hpos|]. eapply py_truediv_no_zero_division; eassumption.
Qed.

End ReconstructorTheorems.


(** * The remaining functions: theorems *)

(** ** Chunking *)

Lemma concat_take_drop {A} (n : nat) (l : list A) (c : nat) :
  concat (List.map (fun k => take n (drop (k * n) l)) (seq 0 c)) = take (c * n) l.
Proof.
  induction c as [|c IH].
  - reflexivity.
  - rewrite seq_S, List.map_app, concat_app, IH. cbn [List.map concat plus].
    rewrite app_nil_r, take_take_drop. f_equal. lia.
Qed.

Lemma py_slice_chunk {A} (l : list A) (n : Z) (k : nat) :
  0 < n -> (k * Z.to_nat n < List.length l)%nat ->
  py_slice l (Z.of_nat k * n) (Z.of_nat k * n + n)
  = take (Z.to_nat n) (drop (k * Z.to_nat n) l).
Proof.
  intros Hn Hk. unfold py_slice, slice_bound.
  set (len := List.length l) in *.
  assert (Hkn : Z.of_nat k * n = Z.of_nat (k * Z.to_nat n)) by lia.
  rewrite Hkn.
  destruct (Z.ltb_spec (Z.of_nat (k * Z.to_nat n)) 0) as [?|_]; [lia|].
  destruct (Z.ltb_spec (Z.of_nat (k * Z.to_nat n) + n) 0) as [?|_]; [lia|].
  rewrite (Z.min_l (Z.of_nat (k * Z.to_nat n))) by lia.
  rewrite Nat2Z.id.
  destruct (Z.le_gt_cases (Z.of_nat (k * Z.to_nat n) + n) (Z.of_nat len)) as [Hle|Hgt].
  - rewrite Z.min_l by lia. f_equal. lia.
  - rewrite Z.min_r by lia.
    rewrite !take_ge; [reflexivity| |]; rewrite length_drop; fold len; lia.
Qed.

Lemma chunk_count (len n : Z) :
  0 < n -> 0 <= len ->
  let count := if 0 <? len then 1 + (len - 1) / n else 0 in
  0 <= count /\ (count - 1) * n < len \/ len = 0 /\ count = 0.
Proof.
  intros Hn Hlen. cbv zeta. destruct (Z.ltb_spec 0 len) as [Hpos|?]; [left | right; lia].
  pose proof (Z.div_pos (len - 1) n ltac:(lia) Hn).
  pose proof (Z.mul_div_le (len - 1) n Hn). split; nia.
Qed.

Lemma chunk_count_covers (len n : Z) :
  0 < n -> 0 <= len ->
  len <= (if 0 <? len then 1 + (len - 1) / n else 0) * n.
Proof.
  intros Hn Hlen. destruct (Z.ltb_spec 0 len) as [Hpos|?]; [|lia].
  pose proof (Z.mod_pos_bound (len - 1) n Hn).
  pose proof (Z.div_mod (len - 1) n ltac:(lia)). nia.
Qed.

(** the chunks of [generate_chunks] for a positive size, in closed form *)
Lemma generate_chunks_pos {A} (lst : list A) (n : Z) :
  0 < n ->
  generate_chunks lst n =
  Ok (List.map (fun k => take (Z.to_nat n) (drop (k * Z.to_nat n) lst))
        (seq 0 (Z.to_nat (if 0 <? Z.of_nat (List.length lst)
                          then 1 + (Z.of_nat (List.length lst) - 1) / n else 0)))).
Proof.
  intros Hn. unfold generate_chunks, py_range0.
  destruct (Z.eqb_spec n 0) as [?|_]; [lia|].
  destruct (Z.ltb_spec 0 n) as [_|?]; [|lia]. cbn [rbind]. f_equal.
  rewrite List.map_map. apply List.map_ext_in. intros k Hk.
  apply List.in_seq in Hk. apply py_slice_chunk; [assumption|].
  set (len := Z.of_nat (List.length lst)) in *.
  destruct (chunk_count len n Hn ltac:(lia)) as [[H0 H1]|[H0 H1]].
  - cbv zeta in *. nia.
  - cbv zeta in *. rewrite H1 in Hk. cbn in Hk. lia.
Qed.

Lemma generate_chunks_concat_pos {A} (lst : list A) (n : Z) :
  0 < n ->
  exists chunks, generate_chunks lst n = Ok chunks /\ concat chunks = lst.
Proof.
  intros Hn. rewrite (generate_chunks_pos lst n Hn). eexists. split; [reflexivity|].
  rewrite concat_take_drop. apply take_ge.
  pose proof (chunk_count_covers (Z.of_nat (List.length lst)) n Hn ltac:(lia)).
  nia.
Qed.

Lemma generate_chunks_sizes_pos {A} (lst : list A) (n : Z) :
  0 < n ->
  exists chunks, generate_chunks lst n = Ok chunks
    /\ Z.of_nat (List.length chunks) = (Z.of_nat (List.length lst) + n - 1) / n
    /\ (forall i chunk, chunks !! i = Some chunk ->
          (0 < List.length chunk)%nat
          /\ Z.of_nat (List.length chunk) <= n
          /\ (S i < List.length chunks -> Z.of_nat (List.length chunk) = n)%nat).
Proof.
  intros Hn. rewrite (generate_chunks_pos lst n Hn). eexists. split; [reflexivity|].
  set (len := Z.of_nat (List.length lst)).
  set (count := if 0 <? len then 1 + (len - 1) / n else 0).
  assert (Hcount : count = (len + n - 1) / n).
  { subst count. destruct (Z.ltb_spec 0 len) as [Hpos|Hz].
    - replace (len + n - 1) with ((len - 1) + 1 * n) by lia.
      rewrite Z.div_add by lia. lia.
    - assert (len = 0) as -> by lia. rewrite Z.div_small; lia. }
  assert (Hc0 : 0 <= count).
  { rewrite Hcount. apply Z.div_pos; lia. }
  rewrite List.length_map, List.length_seq. split; [lia|].
  intros i chunk Hi.
  rewrite list_lookup_fmap in Hi.
  destruct (seq 0 (Z.to_nat count) !! i) as [k|] eqn:Hk; [|discriminate].
  apply lookup_seq in Hk as [-> Hlt]. cbn in Hi. injection Hi as <-.
  rewrite length_take, length_drop. fold len in Hcount.
  assert (Hbound : (Z.of_nat i) * n < len).
  { destruct (chunk_count len n Hn ltac:(lia)) as [[H0 H1]|[H0 H1]]; cbv zeta in *;
      fold count in H0, H1; nia. }
  assert (Hin : Z.of_nat (i * Z.to_nat n) = Z.of_nat i * n) by lia.
  split; [lia|]. split; [lia|].
  intros Hnext.
  assert (Hfull : (Z.of_nat i + 1) * n < len \/ (Z.of_nat i + 1) * n >= len) by lia.
  destruct (chunk_count len n Hn ltac:(lia)) as [[H0 H1]|[H0 H1]]; cbv zeta in *;
    fold count in H0, H1; [|lia].
  assert ((Z.of_nat i + 1) * n <= (count - 1) * n) by nia.
  lia.
Qed.

(** X1. Chunking loses and reorders nothing: for a positive chunk size the
    chunks of [generate_chunks], put end to end, are the list. *)
Theorem generate_chunks_concat {A} (lst : list A) (n : Z) :
  0 < n ->
  exists chunks, generate_chunks lst n = Ok chunks /\ concat chunks = lst.
Proof. apply generate_chunks_concat_pos. Qed.

(** X2. For a positive chunk size [n] there are ceil(len / n) chunks (none
    for the empty list); none is empty, every chunk but the last has exactly
    [n] elements and the last has at most [n]. *)
Theorem generate_chunks_sizes {A} (lst : list A) (n : Z) :
  0 < n ->
  exists chunks, generate_chunks lst n = Ok chunks
    /\ Z.of_nat (List.length chunks) = (Z.of_nat (List.length lst) + n - 1) / n
    /\ (forall i chunk, chunks !! i = Some chunk ->
          (0 < List.length chunk)%nat
          /\ Z.of_nat (List.length chunk) <= n
          /\ (S i < List.length chunks -> Z.of_nat (List.length chunk) = n)%nat).
Proof. apply generate_chunks_sizes_pos. Qed.

(** X3. The degenerate chunk sizes: a size of zero raises [ValueError], and a
    negative size yields no chunk at all, whatever the list holds. *)
Theorem generate_chunks_degenerate {A} (lst : list A) (n : Z) :
  (n = 0 -> generate_chunks lst n = Raise ValueError)
  /\ (n < 0 -> generate_chunks lst n = Ok []).
Proof.
  unfold generate_chunks, py_range0. split; intros Hn.
  - subst n. reflexivity.
  - destruct (Z.eqb_spec n 0) as [?|_]; [lia|].
    destruct (Z.ltb_spec 0 n) as [?|_]; [lia|].
    destruct (Z.ltb_spec (Z.of_nat (List.length lst)) 0) as [?|_]; [lia|]. reflexivity.
Qed.

(** ** More on the diff engine *)

Section DiffExtras.
Context `{PyBuiltins}.

Lemma diff_loop_no_existing (new_acts acc : list dict) :
  Forall (fun c => exists r, act_transaction_id c = Ok r) new_acts ->
  diff_loop new_acts [] ∅ acc = ret (acc ++ new_acts).
Proof.
  intros Hall. revert acc. induction Hall as [|c rest [tid Hc] _ IH]; intros acc.
  - cbn [diff_loop]. rewrite app_nil_r. reflexivity.
  - cbn [diff_loop]. unfold is_act_present. rewrite Hc.
    change (lift (Ok tid)) with (ret tid). rewrite bind_ret_l.
    assert (id_synced tid ∅ = false) as ->.
    { destruct tid as [x|]; [|reflexivity]. cbn [id_synced].
      apply bool_decide_eq_false. apply not_elem_of_empty. }
    cbn [legacy_present]. rewrite bind_ret_l, IH, <- app_assoc. reflexivity.
Qed.

(** X4. With no existing activity nothing is compared: [get_diff] returns
    the candidates as they are, all of them and in order (a candidate given
    twice is returned twice), without normalizing or logging anything --
    provided each candidate's comment is a string, [None] or absent; and
    whatever it returns on an empty ledger is the candidate list. *)
Theorem get_diff_no_existing (new_acts : list dict) :
  (Forall (fun c => exists r, act_transaction_id c = Ok r) new_acts ->
   get_diff [] new_acts = ret new_acts)
  /\ (forall d, run (get_diff [] new_acts) = Ok d -> d = new_acts).
Proof.
  split.
  - intros Hall. unfold get_diff. cbn [collect_ids].
    change (lift (Ok ∅)) with (ret (∅ : gset string)). rewrite bind_ret_l.
    apply (diff_loop_no_existing new_acts [] Hall).
  - intros d Hrun. rewrite get_diff_run in Hrun. cbn [collect_ids rbind] in Hrun.
    apply diff_loop_ok in Hrun as [-> Hall]. cbn [app].
    assert (Hall' : Forall (fun c => exists r, act_transaction_id c = Ok r) new_acts).
    { apply List.Forall_forall. intros c Hin. rewrite List.Forall_forall in Hall.
      destruct (Hall c Hin) as [b Hb]. rewrite is_act_present_run in Hb.
      destruct (act_transaction_id c); [eauto | discriminate]. }
    pose proof (diff_loop_no_existing new_acts [] Hall') as Hloop.
    apply (f_equal run) in Hloop.
    rewrite (diff_loop_total new_acts [] ∅ [] Hall) in Hloop.
    cbn [app] in Hloop. unfold ret, run in Hloop. cbn in Hloop. congruence.
Qed.

Lemma filter_sublist_impl {A} (f g : A -> bool) (l : list A) :
  (forall x, In x l -> f x = true -> g x = true) ->
  sublist (List.filter f l) (List.filter g l).
Proof.
  induction l as [|x l IH]; intros Himp; cbn [List.filter]; [constructor|].
  assert (IH' : sublist (List.filter f l) (List.filter g l)).
  { apply IH. intros y Hy. apply Himp. right. exact Hy. }
  destruct (f x) eqn:Hf.
  - rewrite (Himp x (or_introl eq_refl) Hf). apply sublist_skip. exact IH'.
  - destruct (g x); [apply sublist_cons|]; exact IH'.
Qed.

(** X5. Existing activities only ever remove candidates: when [get_diff]
    returns on a ledger and on that ledger with further activities appended,
    the second result is a subsequence of the first. *)
Theorem get_diff_antitone (old_acts extra new_acts d d' : list dict) :
  run (get_diff old_acts new_acts) = Ok d ->
  run (get_diff (old_acts ++ extra) new_acts) = Ok d' ->
  sublist d' d.
Proof.
  intros Hd Hd'.
  destruct (get_diff_ok _ _ _ Hd) as (ids & Hids & -> & _).
  destruct (get_diff_ok _ _ _ Hd') as (ids' & Hids' & -> & _).
  apply filter_sublist_impl. intros c _ Hnew.
  apply is_new_true in Hnew. apply is_new_true.
  rewrite is_act_present_run in Hnew |- *.
  destruct (act_transaction_id c) as [tid|]; [|discriminate]. cbn [rbind] in Hnew |- *.
  rewrite collect_ids_app, Hids in Hids'. cbn [rbind] in Hids'.
  destruct (id_synced tid ids') eqn:Hs'; [discriminate|].
  assert (id_synced tid ids = false) as ->.
  { destruct tid as [x|]; [|reflexivity]. cbn [id_synced] in Hs' |- *.
    apply bool_decide_eq_false in Hs'. apply bool_decide_eq_false. intros Hx.
    apply Hs'. apply (collect_ids_spec _ _ _ Hids'). left. exact Hx. }
  rewrite legacy_present_app in Hnew.
  destruct (run (legacy_present c old_acts)) as [[|]|]; cbn [rbind] in Hnew;
    [discriminate | reflexivity | discriminate].
Qed.

(** X19. The diff is stable: diffing the returned list against the same
    existing activities returns it unchanged. *)
Theorem get_diff_fixed_point (old_acts new_acts d : list dict) :
  run (get_diff old_acts new_acts) = Ok d ->
  run (get_diff old_acts d) = Ok d.
Proof.
  intros Hd. destruct (get_diff_ok _ _ _ Hd) as (ids & Hids & _ & Hmem).
  rewrite get_diff_run, Hids. cbn [rbind].
  assert (Hall : Forall (fun c => run (is_act_present c old_acts ids) = Ok false) d).
  { apply List.Forall_forall. intros c Hc. apply Hmem in Hc. tauto. }
  rewrite diff_loop_total.
  - cbn [app]. f_equal. clear Hd Hmem. induction Hall as [|c rest Hc _ IH]; [reflexivity|].
    cbn [List.filter]. unfold is_new at 1. rewrite Hc, IH. reflexivity.
  - eapply List.Forall_impl; [|exact Hall]. cbn. eauto.
Qed.

(** X20. Candidates are judged one by one: the diff of two candidate lists
    put end to end is the two diffs put end to end, so a candidate list may
    be diffed in pieces. *)
Theorem get_diff_app (old_acts new1 new2 d1 d2 : list dict) :
  run (get_diff old_acts new1) = Ok d1 ->
  run (get_diff old_acts new2) = Ok d2 ->
  run (get_diff old_acts (new1 ++ new2)) = Ok (d1 ++ d2).
Proof.
  intros H1 H2. rewrite get_diff_run in H1, H2 |- *.
  destruct (collect_ids old_acts ∅) as [ids|]; cbn [rbind] in *; [|discriminate].
  apply diff_loop_ok in H1 as [-> Hall1]. apply diff_loop_ok in H2 as [-> Hall2].
  rewrite diff_loop_total by (apply Forall_app; split; assumption).
  cbn [app]. rewrite List.filter_app. reflexivity.
Qed.

End DiffExtras.

(** ** More on the identity extractor *)

Lemma has_char_app (c : ascii) (s t : string) :
  has_char c (s +:+ t) = has_char c s || has_char c t.
Proof.
  induction s as [|a s IH]; cbn [append has_char]; [reflexivity|].
  rewrite IH, orb_assoc. reflexivity.
Qed.

Lemma search_without_equals (s : string) :
  has_char "="%char s = false -> search_transaction_id s = None.
Proof.
  induction s as [|a s IH]; intros Hs; rewrite search_transaction_id_eq.
  - reflexivity.
  - assert (Hm : match_here (String a s) = None).
    { unfold match_here. destruct (strip_prefix marker (String a s)) as [rest|] eqn:E;
        [|reflexivity].
      apply strip_prefix_app in E. rewrite E, has_char_app in Hs. discriminate. }
    rewrite Hm. apply IH. cbn [has_char] in Hs. apply orb_false_elim in Hs. tauto.
Qed.

Lemma pipe_free_run_app (id post : string) :
  pipe_free_run id = id ->
  post = EmptyString \/ (exists post', post = String "|" post') ->
  pipe_free_run (id +:+ post) = id.
Proof.
  intros Hid Hpost. induction id as [|c id IH]; cbn [append pipe_free_run] in *.
  - destruct Hpost as [->|[post' ->]]; reflexivity.
  - destruct (is_pipe c); [discriminate|]. injection Hid as Hid. rewrite (IH Hid). reflexivity.
Qed.

Lemma str_contains_eq (p s : string) :
  str_contains p s =
  match strip_prefix p s with
  | Some _ => true
  | None =>
      match s with
      | EmptyString => false
      | String _ s' => str_contains p s'
      end
  end.
Proof. destruct s; reflexivity. Qed.

(** An occurrence of the marker cannot begin in a text that does not hold
    the marker and end in a marker put after it: no proper end of the marker
    is a beginning of it. *)
Lemma no_straddling_marker (p tail : string) :
  p <> EmptyString ->
  strip_prefix marker p = None ->
  strip_prefix marker (p +:+ marker +:+ tail) = None.
Proof.
  intros Hp Hnone. unfold marker in *.
  repeat
    (destruct p as [|c p];
     [ try congruence; cbn; reflexivity
     | cbn [append strip_prefix] in Hnone |- *;
       match goal with
       | |- context [Ascii.eqb ?a c] =>
           destruct (Ascii.eqb_spec a c) as [<-|_]; [|reflexivity]
       end ]);
    try discriminate.
Qed.

(** X6. Writing and reading back: a comment made of a text that does not
    hold the marker, then [transactionId=], a non-empty identifier without a
    pipe, and then nothing or a pipe and anything, yields that identifier. *)
Theorem search_transaction_id_roundtrip (pre id post : string) :
  str_contains marker pre = false ->
  id <> EmptyString ->
  pipe_free_run id = id ->
  post = EmptyString \/ (exists post', post = String "|" post') ->
  search_transaction_id (pre +:+ marker +:+ id +:+ post) = Some id.
Proof.
  intros Hpre Hne Hid Hpost. induction pre as [|c pre IH].
  - cbn [append]. rewrite search_transaction_id_eq. unfold match_here.
    assert (strip_prefix marker (marker +:+ id +:+ post) = Some (id +:+ post)) as ->
      by (apply strip_prefix_app; reflexivity).
    rewrite (pipe_free_run_app id post Hid Hpost).
    destruct id; [congruence | reflexivity].
  - rewrite str_contains_eq in Hpre.
    destruct (strip_prefix marker (String c pre)) eqn:Hc; [discriminate|].
    rewrite search_transaction_id_eq. unfold match_here.
    rewrite (no_straddling_marker (String c pre) (id +:+ post)) by (congruence || assumption).
    cbn [append]. apply IH. exact Hpre.
Qed.

(** ** The snapshots as candidates *)

Lemma logged_bind {A B} (m : M A) (k : A -> M B) :
  logged (bind m k) =
  logged m ++ match run m with
              | Ok a => logged (k a)
              | Raise _ => []
              end.
Proof.
  destruct m as [l [a|e]]; cbn [bind logged run fst snd].
  - destruct (k a); reflexivity.
  - rewrite app_nil_r. reflexivity.
Qed.

Section SnapshotExtras.
Context `{PyBuiltins}.

Lemma py_format_4f_is_format (v : value) (u : string) :
  py_format_4f v = Ok u -> exists f, u = float_format_4f f.
Proof.
  destruct v as [|b|z|f|s|l|d]; cbn [py_format_4f]; try discriminate.
  - destruct (float_of_int (Z_of_bool b)); cbn [rbind]; [|discriminate].
    intros [= <-]. eauto.
  - destruct (float_of_int z); cbn [rbind]; [|discriminate]. intros [= <-]. eauto.
  - intros [= <-]. eauto.
Qed.

Lemma holding_comment_without_equals (units value : value) (comment : string) :
  (forall f, has_char "="%char (float_format_4f f) = false) ->
  holding_comment units value = Ok comment ->
  has_char "="%char comment = false.
Proof.
  intros Hfmt. unfold holding_comment.
  destruct (py_format_4f units) as [u|] eqn:Hu; cbn [rbind]; [|discriminate].
  destruct (py_truediv value units) as [price|]; cbn [rbind]; [|discriminate].
  intros [= <-]. apply py_format_4f_is_format in Hu as [f ->].
  cbn. rewrite has_char_app, Hfmt. cbn. rewrite has_char_app, Hfmt. reflexivity.
Qed.

(** what one turn of the loop emits, spelled out *)
Lemma reconstruct_fund_emitted (self : SyncKoura) (today : string) (fund activity : dict) :
  run (reconstruct_fund self today fund) = Ok (Some activity) ->
  exists comment quantity,
    holding_comment (holding_units fund) (holding_value fund) = Ok comment
    /\ py_round2 (holding_value fund) = Ok quantity
    /\ activity =
       [ ("accountId", VNone);
         ("comment", VStr comment);
         ("currency", ghost_currency self);
         ("dataSource", VStr "MANUAL");
         ("date", VStr today);
         ("fee", VInt 0);
         ("quantity", quantity);
         ("symbol", mapped_symbol self fund);
         ("type", VStr "BUY");
         ("unitPrice", VFloat float_one) ].
Proof.
  rewrite reconstruct_fund_run.
  destruct (holding_skipped (holding_value fund) (holding_units fund)) as [[|]|];
    cbn [rbind]; try discriminate.
  destruct (negb (py_truthy (mapped_symbol self fund))); [discriminate|].
  destruct (holding_comment (holding_units fund) (holding_value fund)) as [comment|];
    cbn [rbind]; [|discriminate].
  destruct (py_round2 (holding_value fund)) as [quantity|]; cbn [rbind]; [|discriminate].
  intros [= <-]. eauto.
Qed.

(** X7. A reconstructed snapshot never carries a transaction identifier
    (number formatting producing no [=]), so for the candidates of
    [sync_koura] the identifier fast path never applies: [is_act_present] is
    the legacy comparison alone, whatever the synced identifiers are. *)
Theorem snapshot_has_no_identifier (self : SyncKoura) (today : string)
    (fund activity : dict) :
  (forall f, has_char "="%char (float_format_4f f) = false) ->
  run (reconstruct_fund self today fund) = Ok (Some activity) ->
  forall (account_id : value) (old_acts : list dict) (ids : gset string),
    act_transaction_id (dict_set "accountId" account_id activity) = Ok None
    /\ is_act_present (dict_set "accountId" account_id activity) old_acts ids
       = legacy_present (dict_set "accountId" account_id activity) old_acts.
Proof.
  intros Hfmt Hrun account_id old_acts ids.
  apply reconstruct_fund_emitted in Hrun as (comment & quantity & Hc & _ & ->).
  assert (Hid : act_transaction_id
                  (dict_set "accountId" account_id
                     [ ("accountId", VNone); ("comment", VStr comment);
                       ("currency", ghost_currency self); ("dataSource", VStr "MANUAL");
                       ("date", VStr today); ("fee", VInt 0); ("quantity", quantity);
                       ("symbol", mapped_symbol self fund); ("type", VStr "BUY");
                       ("unitPrice", VFloat float_one) ]) = Ok None).
  { cbn. f_equal. apply search_without_equals.
    apply (holding_comment_without_equals _ _ _ Hfmt Hc). }
  split; [exact Hid|]. unfold is_act_present. rewrite Hid.
  change (lift (Ok None)) with (ret (@None string)). rewrite bind_ret_l. reflexivity.
Qed.

(** X8. The canonical transaction of a snapshot: once the account is filled
    in, the flat-path normalizer maps an emitted activity to the account, the
    first 18 characters of the run's timestamp, fee 0.0, the absolute value
    of the rounded holding value as quantity, the mapped symbol, "BUY" and
    unit price 1.0 -- raising only if the rounded value is an integer beyond
    the doubles. *)
Theorem snapshot_normal_form (self : SyncKoura) (today : string) (fund activity : dict)
    (account_id : value) :
  run (reconstruct_fund self today fund) = Ok (Some activity) ->
  exists quantity, py_round2 (holding_value fund) = Ok quantity /\
    run (format_new_act (dict_set "accountId" account_id activity) "symbol") =
    rbind (py_float quantity) (fun q =>
      Ok {| tx_accountId := account_id;
            tx_date := VStr (substring 0 18 today);
            tx_fee := S754_zero false;
            tx_quantity := SFabs q;
            tx_symbol := mapped_symbol self fund;
            tx_type := VStr "BUY";
            tx_unitPrice := VFloat float_one |}).
Proof.
  intros Hrun. apply reconstruct_fund_emitted in Hrun as (comment & quantity & _ & Hq & ->).
  exists quantity. split; [exact Hq|].
  unfold format_new_act. rewrite run_lift. cbn.
  destruct (py_float quantity); reflexivity.
Qed.

(** X9. A snapshot cannot stand among the existing activities: it has
    neither [id] nor [SymbolProfile], so the ledger-path normalizer raises
    [KeyError] on it, and so does a legacy comparison that reaches it. *)
Theorem snapshot_not_an_existing_activity (self : SyncKoura) (today : string)
    (fund activity : dict) (account_id : value) :
  run (reconstruct_fund self today fund) = Ok (Some activity) ->
  format_existing_act (dict_set "accountId" account_id activity) "symbol"
    = ([], Raise (KeyError "id"))
  /\ (forall c rest,
        run (legacy_present c (dict_set "accountId" account_id activity :: rest))
        = Raise (KeyError "id")).
Proof.
  intros Hrun. apply reconstruct_fund_emitted in Hrun as (comment & quantity & _ & _ & ->).
  assert (Hraise : format_existing_act
                     (dict_set "accountId" account_id
                        [ ("accountId", VNone); ("comment", VStr comment);
                          ("currency", ghost_currency self); ("dataSource", VStr "MANUAL");
                          ("date", VStr today); ("fee", VInt 0); ("quantity", quantity);
                          ("symbol", mapped_symbol self fund); ("type", VStr "BUY");
                          ("unitPrice", VFloat float_one) ]) "symbol"
                   = ([], Raise (KeyError "id")))
    by (apply format_existing_act_needs_id; reflexivity).
  split; [exact Hraise|].
  intros c rest. rewrite legacy_present_cons, Hraise. reflexivity.
Qed.

Lemma reconstruct_fund_logged (self : SyncKoura) (today : string) (fund : dict)
    (emitted : option dict) :
  run (reconstruct_fund self today fund) = Ok emitted ->
  exists record, logged (reconstruct_fund self today fund) = [record]
    /\ match emitted with
       | Some _ =>
           record = LogInfo "Created holding for %s: $%.2f NZD"
                      [default (VStr "Unknown") (dict_get "name" fund); holding_value fund]
       | None =>
           record = LogInfo "Skipping fund %s with zero value/units"
                      [default (VStr "Unknown") (dict_get "name" fund)]
           \/ record = LogWarning "No symbol mapping for fund code %s"
                         [VStr (fund_code_of fund)]
       end.
Proof.
  unfold reconstruct_fund. fold (holding_value fund) (holding_units fund)
    (mapped_symbol self fund).
  destruct (holding_skipped (holding_value fund) (holding_units fund)) as [[|]|];
    [| |discriminate].
  - cbn. intros [= <-]. eexists. split; [reflexivity|]. left. reflexivity.
  - change (lift (Ok false)) with (ret false). rewrite bind_ret_l.
    destruct (negb (py_truthy (mapped_symbol self fund))).
    + cbn. intros [= <-]. eexists. split; [reflexivity|]. right. reflexivity.
    + destruct (holding_comment (holding_units fund) (holding_value fund)) as [comment|];
        [|discriminate].
      change (lift (Ok comment)) with (ret comment). rewrite bind_ret_l.
      destruct (py_round2 (holding_value fund)) as [quantity|]; [|discriminate].
      cbn. intros [= <-]. eexists. split; reflexivity.
Qed.

Lemma reconstruct_loop_logged (self : SyncKoura) (today : string)
    (funds activities result : list dict) :
  run (reconstruct_loop self today funds activities) = Ok result ->
  List.length (logged (reconstruct_loop self today funds activities)) = List.length funds.
Proof.
  revert activities. induction funds as [|fund rest IH]; intros activities.
  - reflexivity.
  - rewrite reconstruct_loop_cons. cbn [reconstruct_loop]. rewrite logged_bind.
    destruct (run (reconstruct_fund self today fund)) as [emitted|] eqn:Hf;
      cbn [rbind]; [|discriminate].
    intros Hrun. destruct (reconstruct_fund_logged _ _ _ _ Hf) as (record & -> & _).
    cbn [app List.length]. f_equal. apply (IH _ Hrun).
Qed.

(** X10. Every holding leaves exactly one log record: a run of
    [reconstruct_fund_purchases] that returns has logged as many records as
    there are holdings -- "Created holding" for an emitted one, and
    "Skipping fund" or the "No symbol mapping" warning for one left out. *)
Theorem reconstruct_logs_each_holding (self : SyncKoura) (today : string)
    (transactions : list dict) (account_details : dict) (portfolio_funds : list dict) :
  (forall activities,
     run (reconstruct_fund_purchases self today transactions account_details
            portfolio_funds) = Ok activities ->
     List.length (logged (reconstruct_fund_purchases self today transactions
                            account_details portfolio_funds))
     = List.length portfolio_funds)
  /\ (forall fund emitted,
        run (reconstruct_fund self today fund) = Ok emitted ->
        exists record, logged (reconstruct_fund self today fund) = [record]
          /\ match emitted with
             | Some _ =>
                 record = LogInfo "Created holding for %s: $%.2f NZD"
                            [default (VStr "Unknown") (dict_get "name" fund);
                             holding_value fund]
             | None =>
                 record = LogInfo "Skipping fund %s with zero value/units"
                            [default (VStr "Unknown") (dict_get "name" fund)]
                 \/ record = LogWarning "No symbol mapping for fund code %s"
                               [VStr (fund_code_of fund)]
             end).
Proof.
  split.
  - intros activities Hrun. unfold reconstruct_fund_purchases in *.
    eapply reconstruct_loop_logged. exact Hrun.
  - apply reconstruct_fund_logged.
Qed.

End SnapshotExtras.

(** ** More on the valuation lookup *)

Section ValuationExtras.
Context `{PyBuiltins}.

Lemma closest_previous_bad_key (items : dict) (dt : ymd) (closest : option (ymd * value)) :
  Exists (fun kv => strptime_ymd (fst kv) = None) items ->
  closest_previous items dt closest = Raise ValueError.
Proof.
  intros Hex. revert closest. induction Hex as [[k p] rest Hk|[k p] rest _ IH]; intros closest;
    cbn [closest_previous]; unfold strptime.
  - cbn [fst] in Hk. rewrite Hk. reflexivity.
  - destruct (strptime_ymd k); cbn [rbind]; [apply IH | reflexivity].
Qed.

(** X11. When the requested date is not itself a key of the valuation
    history, a requested date that does not parse raises [ValueError], and
    so does any key of the history that does not parse, even if other keys
    would answer the request; and a fund without valuation history gives
    [None] for every date that parses. *)
Theorem get_unit_price_for_date_errors (fund_data valuation : dict)
    (transaction_date : string) :
  default (VDict []) (dict_get "valuation" fund_data) = VDict valuation ->
  dict_get transaction_date valuation = None ->
  (strptime_ymd transaction_date = None ->
   get_unit_price_for_date fund_data transaction_date = Raise ValueError)
  /\ (Exists (fun kv => strptime_ymd (fst kv) = None) valuation ->
      get_unit_price_for_date fund_data transaction_date = Raise ValueError)
  /\ (valuation = [] -> strptime_ymd transaction_date <> None ->
      get_unit_price_for_date fund_data transaction_date = Ok VNone).
Proof.
  intros Hval Hkey. unfold get_unit_price_for_date. rewrite Hval, Hkey. unfold strptime.
  split; [|split].
  - intros ->. reflexivity.
  - intros Hex. destruct (strptime_ymd transaction_date); cbn [rbind]; [|reflexivity].
    rewrite (closest_previous_bad_key _ _ _ Hex). reflexivity.
  - intros -> Hdt. destruct (strptime_ymd transaction_date); [reflexivity | congruence].
Qed.

End ValuationExtras.

(** ** [import_act] *)

Section LedgerTheorems.
Variable ledger : Type.
Variable post_import : list dict -> ledger -> http_result * ledger.
Variable sorted_by_date : list dict -> result (list dict).
Variable json_dumps : value -> string.

Local Abbreviation import_chunks := (import_chunks ledger post_import json_dumps).
Local Abbreviation import_act := (import_act ledger post_import sorted_by_date json_dumps).

(** What the loop has done when it stops: the chunks it has posted are the
    first ones, in order; all were accepted but possibly the last; and the
    answer tells whether it went through them all. *)
Lemma import_chunks_spec (chunks : list (list dict)) (st : import_state ledger) :
  exists calls,
    imp_calls (snd (import_chunks chunks st)) = imp_calls st ++ calls
    /\ prefix (List.map fst calls) chunks
    /\ match fst (import_chunks chunks st) with
       | Ok true =>
           List.map fst calls = chunks
           /\ Forall (fun call => accepted (snd call) = true) calls
       | Ok false =>
           exists done acts response,
             calls = done ++ [(acts, response)]
             /\ Forall (fun call => accepted (snd call) = true) done
             /\ accepted response = false
       | Raise e =>
           e = ValueError
           /\ exists done acts status_code text,
                calls = done ++ [(acts, HttpResponse status_code None text)]
                /\ Forall (fun call => accepted (snd call) = true) done
       end.
Proof.
  revert st. induction chunks as [|acts rest IH]; intros st.
  - exists []. cbn. rewrite app_nil_r. split; [reflexivity|].
    split; [apply prefix_nil|]. split; [reflexivity | constructor].
  - cbn [import_chunks]. unfold imp_post. cbn [imp_say imp_ledger imp_calls imp_log].
    destruct (post_import acts (imp_ledger st)) as [response l] eqn:Hpost.
    destruct response as [message|status_code json text].
    + exists [(acts, HttpException message)]. cbn. split; [reflexivity|].
      split; [exists rest; reflexivity|].
      exists [], acts, (HttpException message). cbn. auto.
    + destruct (status_code =? 201) eqn:Hs.
      * destruct json as [body|].
        -- match goal with |- context [import_chunks rest ?st'] =>
             destruct (IH st') as (calls & Hcalls & Hpre & Hres) end.
           cbn [imp_calls imp_say] in Hcalls.
           exists ((acts, HttpResponse status_code (Some body) text) :: calls).
           split; [rewrite Hcalls, <- app_assoc; reflexivity|].
           split; [cbn [List.map fst]; apply prefix_cons; exact Hpre|].
           match goal with |- context [fst (import_chunks rest ?st')] =>
             destruct (fst (import_chunks rest st')) as [[|]|e] end.
           ++ destruct Hres as [Hmap Hall]. split; [cbn [List.map fst]; congruence|].
              constructor; [exact Hs | exact Hall].
           ++ destruct Hres as (done & a & r & -> & Hdone & Hr).
              exists ((acts, HttpResponse status_code (Some body) text) :: done), a, r.
              split; [reflexivity|]. split; [constructor; [exact Hs | exact Hdone]|exact Hr].
           ++ destruct Hres as (-> & done & a & sc & tx & -> & Hdone).
              split; [reflexivity|].
              exists ((acts, HttpResponse status_code (Some body) text) :: done), a, sc, tx.
              split; [reflexivity|]. constructor; [exact Hs | exact Hdone].
        -- exists [(acts, HttpResponse status_code None text)]. cbn.
           split; [reflexivity|]. split; [exists rest; reflexivity|].
           split; [reflexivity|]. exists [], acts, status_code, text. cbn. auto.
      * exists [(acts, HttpResponse status_code json text)]. cbn.
        split; [reflexivity|]. split; [exists rest; reflexivity|].
        exists [], acts, (HttpResponse status_code json text). cbn. auto.
Qed.

(** X12. When [import_act] answers [True], the POSTs it made carry the
    sorted activities, all of them and in order, ten to a request but for a
    shorter last one, and every request was answered 201. *)
Theorem import_act_true (bulk sorted : list dict) (l : ledger) :
  sorted_by_date bulk = Ok sorted ->
  fst (import_act bulk l) = Ok true ->
  let calls := imp_calls (snd (import_act bulk l)) in
  concat (List.map fst calls) = sorted
  /\ Forall (fun call => (0 < List.length (fst call) <= 10)%nat
                         /\ accepted (snd call) = true) calls
  /\ Z.of_nat (List.length calls) = (Z.of_nat (List.length sorted) + 9) / 10.
Proof.
  intros Hsorted. unfold import_act. rewrite Hsorted. cbn [rbind].
  destruct (generate_chunks_concat_pos sorted 10 ltac:(lia)) as (chunks & Hchunks & Hconcat).
  destruct (generate_chunks_sizes_pos sorted 10 ltac:(lia)) as (chunks' & Hchunks' & Hlen & Hsize).
  assert (chunks' = chunks) as -> by congruence.
  rewrite Hchunks.
  match goal with |- context [import_chunks chunks ?st] =>
    destruct (import_chunks_spec chunks st) as (calls & Hcalls & _ & Hres) end.
  cbn [imp_calls app] in Hcalls.
  intros Htrue. rewrite Htrue in Hres. destruct Hres as [Hmap Hall].
  cbv zeta. rewrite Hcalls. split; [rewrite Hmap; exact Hconcat|].
  split.
  - apply List.Forall_forall. intros call Hin.
    rewrite List.Forall_forall in Hall. split; [|apply Hall; exact Hin].
    apply (List.in_map fst) in Hin. rewrite Hmap in Hin.
    apply list_elem_of_In, list_elem_of_lookup in Hin as [i Hi].
    destruct (Hsize i (fst call) Hi) as (? & ? & _). lia.
  - rewrite <- (List.length_map fst calls), Hmap, Hlen. f_equal. lia.
Qed.

(** X13. When [import_act] answers [False], it has stopped at the first
    request that failed (the request raised, or the status was not 201):
    the chunks before it were posted and accepted, that chunk was posted, and
    no later chunk was sent -- what was accepted stays imported. *)
Theorem import_act_false (bulk sorted : list dict) (l : ledger) :
  sorted_by_date bulk = Ok sorted ->
  fst (import_act bulk l) = Ok false ->
  exists done acts response later,
    imp_calls (snd (import_act bulk l)) = done ++ [(acts, response)]
    /\ Forall (fun call => accepted (snd call) = true) done
    /\ accepted response = false
    /\ generate_chunks sorted 10 = Ok (List.map fst done ++ acts :: later).
Proof.
  intros Hsorted. unfold import_act. rewrite Hsorted. cbn [rbind].
  destruct (generate_chunks_concat_pos sorted 10 ltac:(lia)) as (chunks & Hchunks & _).
  rewrite Hchunks.
  match goal with |- context [import_chunks chunks ?st] =>
    destruct (import_chunks_spec chunks st) as (calls & Hcalls & Hpre & Hres) end.
  cbn [imp_calls app] in Hcalls.
  intros Hfalse. rewrite Hfalse in Hres.
  destruct Hres as (done & acts & response & -> & Hdone & Hresp).
  destruct Hpre as [later Hlater].
  exists done, acts, response, later. split; [exact Hcalls|].
  split; [exact Hdone|]. split; [exact Hresp|].
  rewrite Hlater, List.map_app, <- app_assoc. reflexivity.
Qed.

End LedgerTheorems.

(** ** The pages of transactions *)

Section PortalTheorems.
Variable portal : Type.
Variable portal_signin : portal -> http_result * portal.
Variable portal_transactions : value -> Z -> Z -> Z -> portal -> http_result * portal.

Local Abbreviation sign_in := (authenticate_koura portal portal_signin).
Local Abbreviation get_page :=
  (get_koura_transactions portal portal_signin portal_transactions).
Local Abbreviation pages_loop :=
  (transactions_loop portal portal_signin portal_transactions).
Local Abbreviation get_all :=
  (get_all_koura_transactions portal portal_signin portal_transactions).

Lemma authenticate_koura_pages (s : session portal) :
  koura_pages (snd (sign_in s)) = koura_pages s.
Proof.
  unfold authenticate_koura, ses_failed. cbn [ses_say koura_portal koura_pages].
  destruct (portal_signin (koura_portal s)) as [[message|status_code json text] p];
    [reflexivity|].
  destruct (status_code =? 200); [|reflexivity].
  destruct json as [data|]; [|reflexivity].
  destruct (py_subscript data "token"); reflexivity.
Qed.

(** one page request: exactly one exchange is added, and the page returned
    is the one the response stands for *)
Lemma get_koura_transactions_spec (account_id page page_size : Z) (s : session portal) :
  exists response,
    koura_pages (snd (get_page account_id page page_size s))
    = koura_pages s ++ [(page, response)]
    /\ fst (get_page account_id page page_size s) = answer_page response.
Proof.
  unfold get_koura_transactions.
  set (s1 := if py_truthy (koura_token s) then s else snd (sign_in s)).
  assert (Hpages : koura_pages s1 = koura_pages s).
  { subst s1. destruct (py_truthy (koura_token s)); [reflexivity|].
    apply authenticate_koura_pages. }
  destruct (portal_transactions (koura_token s1) account_id page page_size (koura_portal s1))
    as [response p].
  exists response. rewrite <- Hpages.
  destruct response as [message|status_code json text]; cbn; [auto|].
  destruct (status_code =? 200); destruct json; cbn; auto.
Qed.

Lemma page_failed_default (response : http_result) :
  page_failed response = true -> answer_page response = default_page.
Proof.
  destruct response as [message|status_code [body|] text]; cbn; try reflexivity.
  destruct (status_code =? 200); [discriminate | reflexivity].
Qed.

Lemma pages_from_cons (page : Z) (n : nat) :
  List.map (fun i => page + Z.of_nat i) (seq 0 (S n))
  = page :: List.map (fun i => page + 1 + Z.of_nat i) (seq 0 n).
Proof.
  cbn [seq List.map]. f_equal; [lia|].
  rewrite <- seq_shift, List.map_map. apply List.map_ext. intros i. lia.
Qed.

(** What the loop has done when it stops. *)
Lemma transactions_loop_spec (fuel : nat) (account_id page : Z) (all : list value)
    (s s' : session portal) (r : result (list value)) :
  pages_loop fuel account_id page all s = Some (r, s') ->
  exists asked,
    koura_pages s' = koura_pages s ++ asked
    /\ asked <> []
    /\ List.map fst asked
       = List.map (fun i => page + Z.of_nat i) (seq 0 (List.length asked))
    /\ (forall i a, asked !! i = Some a -> page_failed (snd a) = true ->
          S i = List.length asked /\ exists result, r = Ok result)
    /\ (forall result, r = Ok result ->
          exists chunks,
            Forall2 (fun a txs => page_transactions (answer_page (snd a)) = Ok txs)
              asked chunks
            /\ result = all ++ concat chunks).
Proof.
  revert page all s. induction fuel as [|fuel IH]; intros page all s; [discriminate|].
  cbn [transactions_loop].
  destruct (get_koura_transactions_spec account_id page 100 s) as (response & Hpages & Hpage).
  destruct (get_page account_id page 100 s) as [result s1].
  cbn [fst snd] in Hpages, Hpage. subst result.
  destruct (page_transactions (answer_page response)) as [transactions|e] eqn:Htx.
  - destruct (rbind (py_get_default (answer_page response) "totalCount" (VInt 0))
                (py_int_ge (Z.of_nat (List.length (all ++ transactions)))))
      as [[|]|e] eqn:Hcount.
    + intros [= <- <-]. exists [(page, response)].
      split; [exact Hpages|]. split; [discriminate|].
      split; [cbn; f_equal; lia|]. split.
      * intros [|i] a Ha Hfail; [|discriminate]. split; [reflexivity | eauto].
      * intros result [= <-]. exists [transactions].
        split; [constructor; [exact Htx | constructor]|].
        cbn. rewrite app_nil_r. reflexivity.
    + intros Hloop. apply IH in Hloop as (asked & Hp & _ & Hseq & Hfail & Hres).
      exists ((page, response) :: asked).
      split; [rewrite Hp, Hpages, <- app_assoc; reflexivity|].
      split; [discriminate|].
      split; [cbn [List.length]; rewrite pages_from_cons; cbn [List.map fst];
              f_equal; exact Hseq|].
      split.
      * intros [|i] a Ha Hbad.
        -- injection Ha as <-. cbn [snd] in Hbad.
           rewrite (page_failed_default _ Hbad) in Htx, Hcount.
           cbn in Htx. injection Htx as <-. cbn in Hcount.
           injection Hcount as Hcount. apply Z.leb_gt in Hcount. lia.
        -- cbn in Ha. destruct (Hfail i a Ha Hbad) as [Hlast Hok].
           split; [cbn [List.length]; lia | exact Hok].
      * intros result Hr. destruct (Hres result Hr) as (chunks & Hall & ->).
        exists (transactions :: chunks). split; [constructor; assumption|].
        cbn [concat]. rewrite app_assoc. reflexivity.
    + intros [= <- <-]. exists [(page, response)].
      split; [exact Hpages|]. split; [discriminate|].
      split; [cbn; f_equal; lia|]. split.
      * intros [|i] a Ha Hbad; [|discriminate]. injection Ha as <-. cbn [snd] in Hbad.
        rewrite (page_failed_default _ Hbad) in Hcount. cbn in Hcount. discriminate.
      * discriminate.
  - intros [= <- <-]. exists [(page, response)].
    split; [exact Hpages|]. split; [discriminate|].
    split; [cbn; f_equal; lia|]. split.
    + intros [|i] a Ha Hbad; [|discriminate]. injection Ha as <-. cbn [snd] in Hbad.
      rewrite (page_failed_default _ Hbad) in Htx. cbn in Htx. discriminate.
    + discriminate.
Qed.

(** X14. The pages are asked for one after the other from 1, a hundred
    transactions to a page, and what [get_all_koura_transactions] returns is
    the transactions of the pages it received, joined in that order. *)
Theorem get_all_koura_transactions_pages (fuel : nat) (account_id : Z)
    (s s' : session portal) (all_transactions : list value) :
  get_all_koura_transactions portal portal_signin portal_transactions fuel account_id s = Some (Ok all_transactions, s') ->
  exists asked chunks,
    koura_pages s' = koura_pages s ++ asked
    /\ List.map fst asked = List.map (fun i => Z.of_nat (S i)) (seq 0 (List.length asked))
    /\ Forall2 (fun a txs => page_transactions (answer_page (snd a)) = Ok txs) asked chunks
    /\ all_transactions = concat chunks.
Proof.
  unfold get_all_koura_transactions. intros Hrun.
  apply transactions_loop_spec in Hrun as (asked & Hp & _ & Hseq & _ & Hres).
  destruct (Hres all_transactions eq_refl) as (chunks & Hall & ->).
  exists asked, chunks. split; [exact Hp|]. split; [|split; [exact Hall | reflexivity]].
  rewrite Hseq. apply List.map_ext. intros i. lia.
Qed.

(** one page request, with the response as the portal gave it *)
Lemma get_koura_transactions_response (account_id page page_size : Z) (s : session portal) :
  exists token p,
    koura_pages (snd (get_page account_id page page_size s))
    = koura_pages s ++ [(page, fst (portal_transactions token account_id page page_size p))]
    /\ fst (get_page account_id page page_size s)
       = answer_page (fst (portal_transactions token account_id page page_size p)).
Proof.
  unfold get_koura_transactions.
  set (s1 := if py_truthy (koura_token s) then s else snd (sign_in s)).
  assert (Hpages : koura_pages s1 = koura_pages s).
  { subst s1. destruct (py_truthy (koura_token s)); [reflexivity|].
    apply authenticate_koura_pages. }
  exists (koura_token s1), (koura_portal s1).
  destruct (portal_transactions (koura_token s1) account_id page page_size (koura_portal s1))
    as [response p].
  cbn [fst]. rewrite <- Hpages.
  destruct response as [message|status_code json text]; cbn; [auto|].
  destruct (status_code =? 200); destruct json; cbn; auto.
Qed.

(** The turn that asks for a page the portal fails is the last one: the
    loop, started at any page up to that one, stops within the turns it takes
    to get there. *)
Lemma transactions_loop_stops (account_id last : Z) :
  (forall token page_size p,
     page_failed (fst (portal_transactions token account_id last page_size p)) = true) ->
  forall (fuel : nat) (page : Z) (all : list value) (s : session portal),
    page <= last -> last - page < Z.of_nat fuel ->
    exists r s',
      pages_loop fuel account_id page all s = Some (r, s')
      /\ Z.of_nat (List.length (koura_pages s'))
         <= Z.of_nat (List.length (koura_pages s)) + (last - page + 1).
Proof.
  intros Hbad. induction fuel as [|fuel IH]; intros page all s Hle Hfuel; [lia|].
  cbn [transactions_loop].
  destruct (get_koura_transactions_response account_id page 100 s)
    as (token & p & Hpages & Hpage).
  destruct (get_page account_id page 100 s) as [result s1].
  cbn [fst snd] in Hpages, Hpage. subst result.
  assert (Hone : Z.of_nat (List.length (koura_pages s1))
                 = Z.of_nat (List.length (koura_pages s)) + 1).
  { rewrite Hpages, List.length_app. cbn [List.length]. lia. }
  destruct (page_transactions
              (answer_page (fst (portal_transactions token account_id page 100 p))))
    as [transactions|e] eqn:Htx.
  - destruct (rbind (py_get_default
                       (answer_page (fst (portal_transactions token account_id page 100 p)))
                       "totalCount" (VInt 0))
                (py_int_ge (Z.of_nat (List.length (all ++ transactions)))))
      as [[|]|e] eqn:Hcount.
    + eexists _, _. split; [reflexivity | lia].
    + destruct (Z.eq_dec page last) as [->|Hne].
      * rewrite (page_failed_default _ (Hbad token 100 p)) in Hcount.
        cbn in Hcount. injection Hcount as Hcount. apply Z.leb_gt in Hcount. lia.
      * destruct (IH (page + 1) (all ++ transactions) s1) as (r & s' & Hrun & Hlen);
          [lia | lia |].
        exists r, s'. split; [exact Hrun | lia].
    + eexists _, _. split; [reflexivity | lia].
  - eexists _, _. split; [reflexivity | lia].
Qed.

(** X15. A page request that goes wrong (it raises, the status is not 200,
    or the body is not JSON) ends the loop and does not surface. Against a
    portal that fails the requests for page [last], whatever its state,
    [get_all_koura_transactions] returns, after [last] requests at most; and
    in any run that returns, a request that went wrong is the last one made
    and the result is the transactions of the pages before it. *)
Theorem get_all_koura_transactions_truncates (account_id last : Z) :
  1 <= last ->
  (forall token page_size p,
     page_failed (fst (portal_transactions token account_id last page_size p)) = true) ->
  forall (fuel : nat) (s : session portal),
    last <= Z.of_nat fuel ->
    exists r s' asked,
      get_all_koura_transactions portal portal_signin portal_transactions fuel account_id s
      = Some (r, s')
      /\ koura_pages s' = koura_pages s ++ asked
      /\ Z.of_nat (List.length asked) <= last
      /\ (forall before page response later,
            asked = before ++ (page, response) :: later ->
            page_failed response = true ->
            later = []
            /\ exists chunks,
                 Forall2 (fun a txs => page_transactions (answer_page (snd a)) = Ok txs)
                   before chunks
                 /\ r = Ok (concat chunks)).
Proof.
  intros Hlast Hbad fuel s Hfuel. unfold get_all_koura_transactions.
  destruct (transactions_loop_stops account_id last Hbad fuel 1 [] s)
    as (r & s' & Hrun & Hlen); [lia | lia |].
  destruct (transactions_loop_spec _ _ _ _ _ _ _ Hrun)
    as (asked & Hp & _ & _ & Hfail & Hres).
  exists r, s', asked. split; [exact Hrun|]. split; [exact Hp|]. split.
  { rewrite Hp, List.length_app in Hlen. lia. }
  intros before page response later -> Hwrong.
  assert (Hat : (before ++ (page, response) :: later) !! List.length before
                = Some (page, response)).
  { rewrite lookup_app_r by lia. rewrite Nat.sub_diag. reflexivity. }
  destruct (Hfail _ _ Hat Hwrong) as [Hend [result ->]].
  rewrite List.length_app in Hend. cbn [List.length] in Hend.
  assert (later = []) as -> by (destruct later; [reflexivity | cbn in Hend; lia]).
  split; [reflexivity|].
  destruct (Hres result eq_refl) as (chunks & Hall & ->).
  apply Forall2_app_inv_l in Hall as (chunks1 & chunks2 & Hall1 & Hall2 & ->).
  exists chunks1. split; [exact Hall1|].
  apply Forall2_cons_inv_l in Hall2 as (txs & rest & Htx & Hrest & ->).
  apply Forall2_nil_inv_l in Hrest as ->.
  cbn [snd] in Htx. rewrite (page_failed_default _ Hwrong) in Htx. cbn in Htx.
  injection Htx as <-. cbn [app]. rewrite concat_app. cbn. rewrite !app_nil_r. reflexivity.
Qed.

(** X16. The loop has no bound of its own: against a portal that answers
    every request with an empty page and a positive total, no number of turns
    reaches the [break]. *)
Theorem get_all_koura_transactions_endless (account_id : Z) (total : Z) :
  0 < total ->
  (forall token page page_size p, exists text p',
     portal_transactions token account_id page page_size p
     = (HttpResponse 200
          (Some (VDict [("transactions", VList []); ("totalCount", VInt total)])) text,
        p')) ->
  forall fuel s, get_all_koura_transactions portal portal_signin portal_transactions fuel account_id s = None.
Proof.
  intros Htotal Hportal fuel s. unfold get_all_koura_transactions. generalize 1 as page.
  revert s. induction fuel as [|fuel IH]; intros s page; [reflexivity|].
  cbn [transactions_loop]. unfold get_koura_transactions.
  set (s1 := if py_truthy (koura_token s) then s else snd (sign_in s)).
  destruct (Hportal (koura_token s1) page 100 (koura_portal s1)) as (text & p' & ->).
  cbn. destruct (total <=? Z.of_nat 0) eqn:Hle; [apply Z.leb_le in Hle; cbn in Hle; lia|].
  apply IH.
Qed.

End PortalTheorems.

(** ** Snapshots against the ledger *)

Lemma py_eq_str (v : value) (s : string) : py_eq v (VStr s) = true -> v = VStr s.
Proof.
  destruct v; cbn; try discriminate. intros E. apply String.eqb_eq in E. congruence.
Qed.

Lemma dict_get_set (k k' : string) (v : value) (d : dict) :
  dict_get k' (dict_set k v d) = if String.eqb k' k then Some v else dict_get k' d.
Proof.
  induction d as [|[k0 v0] d IH]; cbn [dict_set dict_get].
  - destruct (String.eqb_spec k' k); reflexivity.
  - destruct (String.eqb_spec k k0) as [->|Hne]; cbn [dict_get].
    + destruct (String.eqb_spec k' k0); reflexivity.
    + rewrite IH. destruct (String.eqb_spec k' k0) as [->|]; [|reflexivity].
      destruct (String.eqb_spec k0 k); [congruence | reflexivity].
Qed.

Lemma dict_set_keys (k : string) (v : value) (d : dict) :
  dict_get k d <> None -> List.map fst (dict_set k v d) = List.map fst d.
Proof.
  induction d as [|[k0 v0] d IH]; cbn [dict_set dict_get List.map fst]; [congruence|].
  destruct (String.eqb_spec k k0) as [->|Hne]; [reflexivity|].
  intros Hd. cbn [List.map fst]. f_equal. exact (IH Hd).
Qed.

(** X17. Filling in the account touches nothing else: after the loop of
    [sync_koura] there are as many activities, in the same order, each reads
    [account_id] under "accountId" and what it read before under every other
    key, and an activity that already had the key keeps its keys in place. *)
Theorem set_account_ids_spec (account_id : value) (activities : list dict) :
  List.length (set_account_ids account_id activities) = List.length activities
  /\ (forall i activity, activities !! i = Some activity ->
        exists activity', set_account_ids account_id activities !! i = Some activity'
          /\ dict_get "accountId" activity' = Some account_id
          /\ (forall k, k <> "accountId" -> dict_get k activity' = dict_get k activity)
          /\ (dict_get "accountId" activity <> None ->
              List.map fst activity' = List.map fst activity)).
Proof.
  unfold set_account_ids. split; [apply List.length_map|].
  intros i activity Hi. exists (dict_set "accountId" account_id activity).
  split; [rewrite list_lookup_fmap, Hi; reflexivity|].
  split; [rewrite dict_get_set, String.eqb_refl; reflexivity|].
  split; [|apply dict_set_keys].
  intros k Hk. rewrite dict_get_set.
  destruct (String.eqb_spec k "accountId"); [congruence | reflexivity].
Qed.

Section SnapshotLedger.
Context `{PyBuiltins}.

Lemma format_existing_act_date (e : dict) (symbol_type : string) (t : transaction) :
  run (format_existing_act e symbol_type) = Ok t ->
  exists v, dict_get "date" e = Some v /\ py_slice18 v = Ok (tx_date t).
Proof.
  unfold format_existing_act. rewrite run_bind.
  destruct (run (existing_symbol e symbol_type)) as [symbol|]; cbn [rbind]; [|discriminate].
  rewrite run_lift. unfold build_transaction, py_getitem.
  destruct (dict_get "accountId" e) as [va|]; cbn [rbind]; [|discriminate].
  destruct (dict_get "date" e) as [vd|]; cbn [rbind]; [|discriminate].
  destruct (py_slice18 vd) as [d18|] eqn:Hslice; cbn [rbind]; [|discriminate].
  destruct (dict_get "fee" e) as [vf|]; cbn [rbind]; [|discriminate].
  destruct (py_float vf); cbn [rbind]; [|discriminate].
  destruct (dict_get "quantity" e) as [vq|]; cbn [rbind]; [|discriminate].
  destruct (py_float vq); cbn [rbind]; [|discriminate].
  destruct (dict_get "type" e) as [vt|]; cbn [rbind]; [|discriminate].
  destruct (dict_get "unitPrice" e) as [vu|]; cbn [rbind]; [|discriminate].
  intros [= <-]. exists vd. split; [reflexivity | exact Hslice].
Qed.

(** the canonical transaction of an emitted activity with its account *)
Lemma emitted_normal_form (self : SyncKoura) (today comment : string) (fund : dict)
    (quantity account_id : value) :
  run (format_new_act
         (dict_set "accountId" account_id
            [ ("accountId", VNone); ("comment", VStr comment);
              ("currency", ghost_currency self); ("dataSource", VStr "MANUAL");
              ("date", VStr today); ("fee", VInt 0); ("quantity", quantity);
              ("symbol", mapped_symbol self fund); ("type", VStr "BUY");
              ("unitPrice", VFloat float_one) ]) "symbol") =
  rbind (py_float quantity) (fun q =>
    Ok {| tx_accountId := account_id;
          tx_date := VStr (substring 0 18 today);
          tx_fee := S754_zero false;
          tx_quantity := SFabs q;
          tx_symbol := mapped_symbol self fund;
          tx_type := VStr "BUY";
          tx_unitPrice := VFloat float_one |}).
Proof.
  unfold format_new_act. rewrite run_lift. cbn.
  destruct (py_float quantity); reflexivity.
Qed.

(** X18. What it takes to suppress a snapshot, exactly. An existing activity
    is the legacy duplicate of a snapshot (its account filled in) if and only
    if the ledger-path normalizer accepts it, its date is a string that
    agrees with the run's timestamp on the first 18 characters, its account
    and its symbol equal the snapshot's, its type is "BUY", its fee is zero,
    its quantity is the absolute value of the rounded holding value and its
    unit price equals 1.0. So an existing activity whose date differs from
    the timestamp within the first 18 characters never suppresses the
    snapshot; one that agrees on them does, the other fields being equal,
    whatever the two dates hold from the 19th character on. *)
Theorem snapshot_duplicate_shape (self : SyncKoura) (today : string)
    (fund activity e : dict) (account_id : value) :
  run (reconstruct_fund self today fund) = Ok (Some activity) ->
  (same_event e (dict_set "accountId" account_id activity) = true <->
   exists t date quantity q,
     run (format_existing_act e "symbol") = Ok t
     /\ dict_get "date" e = Some (VStr date)
     /\ substring 0 18 date = substring 0 18 today
     /\ py_round2 (holding_value fund) = Ok quantity
     /\ py_float quantity = Ok q
     /\ py_eq (tx_accountId t) account_id = true
     /\ SFeqb (tx_fee t) (S754_zero false) = true
     /\ SFeqb (tx_quantity t) (SFabs q) = true
     /\ py_eq (tx_symbol t) (mapped_symbol self fund) = true
     /\ tx_type t = VStr "BUY"
     /\ py_eq (tx_unitPrice t) (VFloat float_one) = true)
  /\ (forall date, dict_get "date" e = Some (VStr date) ->
        substring 0 18 date <> substring 0 18 today ->
        same_event e (dict_set "accountId" account_id activity) = false).
Proof.
  intros Hrun.
  apply reconstruct_fund_emitted in Hrun as (comment & quantity & _ & Hq & ->).
  assert (Hiff :
    same_event e
      (dict_set "accountId" account_id
         [ ("accountId", VNone); ("comment", VStr comment);
           ("currency", ghost_currency self); ("dataSource", VStr "MANUAL");
           ("date", VStr today); ("fee", VInt 0); ("quantity", quantity);
           ("symbol", mapped_symbol self fund); ("type", VStr "BUY");
           ("unitPrice", VFloat float_one) ]) = true <->
    exists t date quantity' q,
      run (format_existing_act e "symbol") = Ok t
      /\ dict_get "date" e = Some (VStr date)
      /\ substring 0 18 date = substring 0 18 today
      /\ py_round2 (holding_value fund) = Ok quantity'
      /\ py_float quantity' = Ok q
      /\ py_eq (tx_accountId t) account_id = true
      /\ SFeqb (tx_fee t) (S754_zero false) = true
      /\ SFeqb (tx_quantity t) (SFabs q) = true
      /\ py_eq (tx_symbol t) (mapped_symbol self fund) = true
      /\ tx_type t = VStr "BUY"
      /\ py_eq (tx_unitPrice t) (VFloat float_one) = true).
  { unfold same_event. rewrite emitted_normal_form.
    destruct (run (format_existing_act e "symbol")) as [t|] eqn:Ht.
    2:{ split; [discriminate|]. intros (t & ? & ? & ? & ? & _). discriminate. }
    destruct (format_existing_act_date _ _ _ Ht) as (v & Hv & Hslice).
    destruct (py_float quantity) as [q|] eqn:Hfloat; cbn [rbind].
    2:{ split; [discriminate|].
        intros (? & ? & quantity' & q & _ & _ & _ & Hq' & Hfloat' & _).
        rewrite Hq in Hq'. injection Hq' as <-. congruence. }
    rewrite transaction_eq_fields. unfold seven_fields_equal.
    cbn [tx_accountId tx_date tx_fee tx_quantity tx_symbol tx_type tx_unitPrice].
    split.
    - intros (Hacc & Hdate & Hfee & Hqty & Hsym & Htype & Hprice).
      apply py_eq_str in Hdate. apply py_eq_str in Htype.
      rewrite Hdate in Hslice.
      destruct v as [| | | |date| |]; cbn in Hslice; try discriminate.
      injection Hslice as Hslice.
      exists t, date, quantity, q. repeat split; assumption.
    - intros (t' & date & quantity' & q' & [= <-] & Hdate & Hprefix & Hq' & Hfloat'
              & Hacc & Hfee & Hqty & Hsym & Htype & Hprice).
      rewrite Hq in Hq'. injection Hq' as <-.
      rewrite Hfloat in Hfloat'. injection Hfloat' as <-.
      rewrite Hdate in Hv. injection Hv as <-. cbn in Hslice. injection Hslice as <-.
      rewrite Htype, Hprefix. cbn [py_eq]. rewrite !String.eqb_refl.
      repeat split; assumption. }
  split; [exact Hiff|].
  intros date Hdate Hdiffer.
  apply Bool.not_true_is_false. intros Hsame.
  apply Hiff in Hsame as (t & date' & _ & _ & _ & Hdate' & Hprefix & _).
  rewrite Hdate in Hdate'. injection Hdate' as <-. exact (Hdiffer Hprefix).
Qed.

End SnapshotLedger.
(** * Examples evaluated on the sample runtime *)

#[local] Existing Instance Sample.builtins.

(** C1 on the candidate of the specification's legacy-equality example and
    on the snapshot of the cash holding, each against an empty ledger: the
    first run returns the candidate, and the second run, with it appended to
    the existing activities, raises. *)
Lemma get_diff_rerun_raises_witness :
  (run (get_diff [] [Sample.candidate]) = Ok [Sample.candidate]
   /\ run (get_diff ([] ++ [Sample.candidate]) [Sample.candidate])
      = Raise (KeyError "id"))
  /\ exists snapshot,
       run (reconstruct_fund_purchases Sample.koura "2024-03-01T09:30:00" [] []
              [Sample.cash_holding]) = Ok [snapshot]
       /\ run (get_diff [] (set_account_ids (VStr "acc") [snapshot]))
          = Ok (set_account_ids (VStr "acc") [snapshot])
       /\ run (get_diff ([] ++ set_account_ids (VStr "acc") [snapshot])
                 (set_account_ids (VStr "acc") [snapshot]))
          = Raise (KeyError "id").
Proof.
  split.
  - assert (Hfirst : run (get_diff [] [Sample.candidate]) = Ok [Sample.candidate])
      by (vm_compute; reflexivity).
    split; [exact Hfirst|].
    exact (get_diff_rerun_raises (H := Sample.builtins) [] [Sample.candidate]
             Sample.candidate [] Hfirst eq_refl eq_refl eq_refl).
  - eexists. split; [vm_compute; reflexivity|].
    cbn [set_account_ids List.map].
    match goal with
    | |- run (get_diff [] [?c]) = _ /\ _ =>
        assert (Hfirst : run (get_diff [] [c]) = Ok [c]) by (vm_compute; reflexivity);
        split; [exact Hfirst|];
        exact (get_diff_rerun_raises (H := Sample.builtins) [] [c] c [] Hfirst
                 eq_refl eq_refl eq_refl)
    end.
Defined.

(** C2, as stated, fails: the existing comment contains the marker
    [transactionId=ABC123], and so does the candidate's, yet the identifier
    read from the existing comment is the earlier [OLD]; the candidate goes
    through the legacy comparison and is returned as new. *)
Lemma contained_marker_not_matched :
  contains_marker "transactionId=OLD|transactionId=ABC123" "ABC123"
  /\ contains_marker "transactionId=ABC123" "ABC123"
  /\ dict_get "comment" Sample.two_marker_act
     = Some (VStr "transactionId=OLD|transactionId=ABC123")
  /\ dict_get "comment" Sample.tagged_candidate = Some (VStr "transactionId=ABC123")
  /\ run (get_diff [Sample.two_marker_act] [Sample.tagged_candidate])
     = Ok [Sample.tagged_candidate].
Proof.
  split; [|split; [|split; [|split]]]; try (vm_compute; reflexivity).
  - exists "transactionId=OLD|", "ABC123". split; [reflexivity|].
    split; [|discriminate]. exists EmptyString. split; [reflexivity|]. split; [reflexivity|].
    left. reflexivity.
  - exists EmptyString, "ABC123". split; [reflexivity|].
    split; [|discriminate]. exists EmptyString. split; [reflexivity|]. split; [reflexivity|].
    left. reflexivity.
Qed.

Lemma fast_path_duplicate_witness :
  In Sample.tagged_act [Sample.tagged_act]
  /\ act_transaction_id Sample.tagged_act = Ok (Some "ABC123")
  /\ act_transaction_id Sample.tagged_candidate = Ok (Some "ABC123")
  /\ collect_ids [Sample.tagged_act] ∅ = Ok {["ABC123"]}
  /\ is_act_present Sample.tagged_candidate [Sample.tagged_act] {["ABC123"]} = ret true.
Proof.
  assert (Hin : In Sample.tagged_act [Sample.tagged_act]) by (left; reflexivity).
  assert (Hids : collect_ids [Sample.tagged_act] ∅ = Ok ({["ABC123"]} : gset string)).
  { reflexivity. }
  split; [assumption|]. split; [reflexivity|]. split; [reflexivity|]. split; [assumption|].
  apply (fast_path_duplicate (H := Sample.builtins) [Sample.tagged_act]
           Sample.tagged_act Sample.tagged_candidate "ABC123" {["ABC123"]}
           Hin eq_refl eq_refl Hids).
Defined.

(** The legacy-equality example: the stored fee ["0"] and quantity ["-5.0"]
    against the candidate's [0] and [5.0]. *)
Lemma legacy_comparison_example :
  act_transaction_id Sample.candidate = Ok None
  /\ id_synced None ∅ = false
  /\ run (is_act_present Sample.candidate [Sample.ledger_act] ∅) = Ok true
  /\ exists e t t', In e [Sample.ledger_act]
       /\ run (format_existing_act e "symbol") = Ok t
       /\ run (format_new_act Sample.candidate "symbol") = Ok t'
       /\ seven_fields_equal t t'.
Proof.
  split; [reflexivity|]. split; [reflexivity|].
  split; [vm_compute; reflexivity|].
  destruct (legacy_comparison_when_returned (H := Sample.builtins) Sample.candidate
              [Sample.ledger_act] ∅ None eq_refl eq_refl) as [Hiff _].
  apply (Hiff true); vm_compute; reflexivity.
Qed.

(** C3 on that example with one more existing activity in front, an activity
    without [id] and [SymbolProfile]: the match is still there, and the call
    raises before it gets to it. *)
Lemma is_act_present_raises_before_match_witness :
  same_event Sample.ledger_act Sample.candidate = true
  /\ run (is_act_present Sample.candidate
            ([] ++ Sample.candidate :: [Sample.ledger_act]) ∅)
     = Raise (KeyError "id").
Proof.
  split; [vm_compute; reflexivity|].
  exact (is_act_present_raises_before_match (H := Sample.builtins) Sample.candidate
           Sample.candidate [] [Sample.ledger_act] ∅ None
           eq_refl eq_refl eq_refl eq_refl eq_refl).
Defined.

(** C8, as stated, fails: the first occurrence of the marker is followed by a
    pipe, so the run after it is empty, and the search goes on to the second
    occurrence. *)
Lemma first_occurrence_passed_over :
  search_transaction_id "transactionId=|transactionId=abc" = Some "abc"
  /\ after_first_marker "transactionId=|transactionId=abc" = Some "|transactionId=abc"
  /\ pipe_free_run "|transactionId=abc" = EmptyString
  /\ first_occurrence_id "transactionId=|transactionId=abc" = None.
Proof. repeat split. Qed.

Lemma normalizers_fields_witness :
  exists t date18, run (format_existing_act Sample.ledger_act "symbol") = Ok t
    /\ tx_fee t = SFabs (S754_zero false)
    /\ tx_quantity t = SFabs (S754_finite true 5629499534213120 (-50))
    /\ tx_date t = VStr date18
    /\ is_first_chars 18 "2024-01-01T00:00:00Z" date18
    /\ tx_unitPrice t = VInt 10.
Proof.
  destruct (normalizers_fields (H := Sample.builtins) Sample.ledger_act "symbol"
              (VStr "1") (VStr "BUY") (VInt 10) (VStr "0") (VStr "-5.0")
              "2024-01-01T00:00:00Z" (S754_zero false)
              (S754_finite true 5629499534213120 (-50))
              eq_refl eq_refl eq_refl eq_refl eq_refl eq_refl eq_refl eq_refl)
    as [_ Hexisting].
  apply (Hexisting (VStr "GF_KOURABTC")). reflexivity.
Defined.

(** C5: a ledger-shaped activity with neither [id] nor [SymbolProfile]. The
    flat-path normalizer returns its transaction; the ledger-path normalizer
    raises [KeyError] while building the warning, before the fall-back to the
    flat symbol that the next line would make. *)
Lemma format_existing_act_missing_id_raises :
  dict_get "id" Sample.candidate = None
  /\ dict_get "SymbolProfile" Sample.candidate = None
  /\ dict_get "symbol" Sample.candidate = Some (VStr "GF_KOURABTC")
  /\ format_existing_act Sample.candidate "symbol" = ([], Raise (KeyError "id"))
  /\ normalizes_new Sample.candidate = true.
Proof. repeat split. Qed.

Lemma get_unit_price_for_date_spec_witness :
  default (VDict []) (dict_get "valuation" Sample.priced_fund)
    = VDict [("2024-01-01", VInt 10); ("2024-02-01", VInt 12); ("2024-01-10", VInt 11)]
  /\ get_unit_price_for_date Sample.priced_fund "2024-02-01" = Ok (VInt 12)
  /\ get_unit_price_for_date Sample.priced_fund "2024-01-15" = Ok (VInt 11)
  /\ get_unit_price_for_date Sample.priced_fund "2023-12-31" = Ok VNone.
Proof.
  split; [reflexivity|]. split; [|split; reflexivity].
  apply (get_unit_price_for_date_spec (H := Sample.builtins) Sample.priced_fund
           [("2024-01-01", VInt 10); ("2024-02-01", VInt 12); ("2024-01-10", VInt 11)]
           "2024-02-01" eq_refl).
  reflexivity.
Defined.

(** The skip rule and the emission on the reconstructor's examples. *)
Lemma reconstruct_fund_purchases_example :
  run (reconstruct_fund_purchases Sample.koura "2024-03-01T09:30:00" [] []
         [Sample.empty_holding; Sample.cash_holding; Sample.unmapped_holding])
  = Ok [ [ ("accountId", VNone);
           ("comment", VStr "Current holdings: #.#### units @ $#.#### per unit");
           ("currency", VStr "NZD");
           ("dataSource", VStr "MANUAL");
           ("date", VStr "2024-03-01T09:30:00");
           ("fee", VInt 0);
           ("quantity", VFloat Sample.float_150);
           ("symbol", VStr "GF_KOURACASH");
           ("type", VStr "BUY");
           ("unitPrice", VFloat float_one) ] ].
Proof. vm_compute. reflexivity. Qed.

(** C6, as stated, fails: the code of the holding is in the fund mapping and
    its value and units are positive, yet no activity is emitted, because the
    symbol it is mapped to is empty. *)
Lemma mapped_to_empty_symbol_skipped :
  fund_mapping Sample.koura_cash_blanked !! fund_code_of Sample.cash_holding
    = Some (VStr "")
  /\ py_le0 (holding_value Sample.cash_holding) = Ok false
  /\ py_le0 (holding_units Sample.cash_holding) = Ok false
  /\ run (reconstruct_fund_purchases Sample.koura_cash_blanked "2024-03-01T09:30:00" [] []
            [Sample.cash_holding]) = Ok [].
Proof. repeat split; vm_compute; reflexivity. Qed.

(** C9, as stated, fails: units that are NaN pass the guard ([nan <= 0] is
    false) and reach the emission without being strictly positive. *)
Lemma nan_units_reach_emission :
  holding_kept Sample.koura Sample.nan_units_holding = true
  /\ strictly_positive (holding_units Sample.nan_units_holding) = false
  /\ exists activity,
       run (reconstruct_fund Sample.koura "2024-03-01T09:30:00" Sample.nan_units_holding)
       = Ok (Some activity).
Proof.
  split; [vm_compute; reflexivity|]. split; [reflexivity|].
  eexists. vm_compute. reflexivity.
Qed.


(** * Examples for the remaining functions *)

Lemma generate_chunks_concat_witness :
  0 < 2
  /\ exists chunks, generate_chunks [1; 2; 3; 4; 5]%nat 2 = Ok chunks
       /\ concat chunks = [1; 2; 3; 4; 5]%nat.
Proof. split; [lia | apply generate_chunks_concat; lia]. Defined.

Lemma generate_chunks_sizes_witness :
  0 < 10
  /\ exists chunks, generate_chunks SampleServices.twelve_activities 10 = Ok chunks
       /\ Z.of_nat (List.length chunks)
          = (Z.of_nat (List.length SampleServices.twelve_activities) + 10 - 1) / 10
       /\ (forall i chunk, chunks !! i = Some chunk ->
             (0 < List.length chunk)%nat
             /\ Z.of_nat (List.length chunk) <= 10
             /\ ((S i < List.length chunks)%nat -> Z.of_nat (List.length chunk) = 10)).
Proof. split; [lia | apply generate_chunks_sizes; lia]. Defined.

Lemma get_diff_antitone_witness :
  run (get_diff [] [Sample.candidate; Sample.split_symbol_act])
    = Ok [Sample.candidate; Sample.split_symbol_act]
  /\ run (get_diff ([] ++ [Sample.ledger_act]) [Sample.candidate; Sample.split_symbol_act])
     = Ok [Sample.split_symbol_act]
  /\ sublist [Sample.split_symbol_act] [Sample.candidate; Sample.split_symbol_act].
Proof.
  assert (H1 : run (get_diff [] [Sample.candidate; Sample.split_symbol_act])
               = Ok [Sample.candidate; Sample.split_symbol_act])
    by (vm_compute; reflexivity).
  assert (H2 : run (get_diff ([] ++ [Sample.ledger_act])
                      [Sample.candidate; Sample.split_symbol_act])
               = Ok [Sample.split_symbol_act])
    by (vm_compute; reflexivity).
  split; [exact H1|]. split; [exact H2|].
  exact (get_diff_antitone (H := Sample.builtins) [] [Sample.ledger_act]
           [Sample.candidate; Sample.split_symbol_act] _ _ H1 H2).
Defined.

Lemma search_transaction_id_roundtrip_witness :
  str_contains marker "note|" = false
  /\ search_transaction_id ("note|" +:+ marker +:+ "ABC123" +:+ "|more") = Some "ABC123".
Proof.
  split; [reflexivity|].
  apply search_transaction_id_roundtrip;
    [reflexivity | discriminate | reflexivity | right; eexists; reflexivity].
Defined.

Lemma sample_format_without_equals (f : float) :
  has_char "="%char (float_format_4f f) = false.
Proof. destruct f; reflexivity. Qed.

Lemma sample_cash_snapshot :
  exists activity,
    run (reconstruct_fund Sample.koura "2024-03-01T09:30:00" Sample.cash_holding)
    = Ok (Some activity).
Proof. eexists. vm_compute. reflexivity. Qed.

Lemma snapshot_has_no_identifier_witness :
  exists activity,
    run (reconstruct_fund Sample.koura "2024-03-01T09:30:00" Sample.cash_holding)
      = Ok (Some activity)
    /\ act_transaction_id (dict_set "accountId" (VStr "acc") activity) = Ok None.
Proof.
  eexists. split; [vm_compute; reflexivity|].
  apply (snapshot_has_no_identifier (H := Sample.builtins) Sample.koura
           "2024-03-01T09:30:00" Sample.cash_holding _ sample_format_without_equals
           ltac:(vm_compute; reflexivity) (VStr "acc") [] ∅).
Defined.

Lemma snapshot_normal_form_witness :
  exists activity,
    run (reconstruct_fund Sample.koura "2024-03-01T09:30:00" Sample.cash_holding)
      = Ok (Some activity)
    /\ exists quantity, py_round2 (holding_value Sample.cash_holding) = Ok quantity /\
         run (format_new_act (dict_set "accountId" (VStr "acc") activity) "symbol") =
         rbind (py_float quantity) (fun q =>
           Ok {| tx_accountId := VStr "acc";
                 tx_date := VStr (substring 0 18 "2024-03-01T09:30:00");
                 tx_fee := S754_zero false;
                 tx_quantity := SFabs q;
                 tx_symbol := mapped_symbol Sample.koura Sample.cash_holding;
                 tx_type := VStr "BUY";
                 tx_unitPrice := VFloat float_one |}).
Proof.
  eexists. split; [vm_compute; reflexivity|].
  apply (snapshot_normal_form (H := Sample.builtins) Sample.koura
           "2024-03-01T09:30:00" Sample.cash_holding _ (VStr "acc")
           ltac:(vm_compute; reflexivity)).
Defined.

Lemma snapshot_not_an_existing_activity_witness :
  exists activity,
    run (reconstruct_fund Sample.koura "2024-03-01T09:30:00" Sample.cash_holding)
      = Ok (Some activity)
    /\ format_existing_act (dict_set "accountId" (VStr "acc") activity) "symbol"
       = ([], Raise (KeyError "id")).
Proof.
  eexists. split; [vm_compute; reflexivity|].
  apply (snapshot_not_an_existing_activity (H := Sample.builtins) Sample.koura
           "2024-03-01T09:30:00" Sample.cash_holding _ (VStr "acc")
           ltac:(vm_compute; reflexivity)).
Defined.

Lemma get_unit_price_for_date_errors_witness :
  default (VDict []) (dict_get "valuation" SampleServices.dated_fund)
    = VDict [("2024-01-01", VInt 10); ("soon", VInt 12)]
  /\ dict_get "2024-01-15" [("2024-01-01", VInt 10); ("soon", VInt 12)] = None
  /\ get_unit_price_for_date SampleServices.dated_fund "2024-01-15" = Raise ValueError.
Proof.
  split; [reflexivity|]. split; [reflexivity|].
  apply (get_unit_price_for_date_errors (H := Sample.builtins) SampleServices.dated_fund
           [("2024-01-01", VInt 10); ("soon", VInt 12)] "2024-01-15" eq_refl eq_refl).
  right. left. reflexivity.
Defined.

Lemma import_act_true_witness :
  SampleServices.sorted_by_date SampleServices.twelve_activities
    = Ok SampleServices.twelve_activities
  /\ fst (import_act nat (SampleServices.post_import 5) SampleServices.sorted_by_date
            SampleServices.json_dumps SampleServices.twelve_activities 0%nat) = Ok true
  /\ concat (List.map fst
       (imp_calls (snd (import_act nat (SampleServices.post_import 5)
                          SampleServices.sorted_by_date SampleServices.json_dumps
                          SampleServices.twelve_activities 0%nat))))
     = SampleServices.twelve_activities.
Proof.
  split; [reflexivity|]. split; [vm_compute; reflexivity|].
  apply (import_act_true nat (SampleServices.post_import 5) SampleServices.sorted_by_date
           SampleServices.json_dumps SampleServices.twelve_activities
           SampleServices.twelve_activities 0%nat eq_refl).
  vm_compute. reflexivity.
Defined.

Lemma import_act_false_witness :
  SampleServices.sorted_by_date SampleServices.twelve_activities
    = Ok SampleServices.twelve_activities
  /\ fst (import_act nat (SampleServices.post_import 1) SampleServices.sorted_by_date
            SampleServices.json_dumps SampleServices.twelve_activities 0%nat) = Ok false
  /\ exists done acts response later,
       imp_calls (snd (import_act nat (SampleServices.post_import 1)
                         SampleServices.sorted_by_date SampleServices.json_dumps
                         SampleServices.twelve_activities 0%nat))
       = done ++ [(acts, response)]
       /\ Forall (fun call => accepted (snd call) = true) done
       /\ accepted response = false
       /\ generate_chunks SampleServices.twelve_activities 10
          = Ok (List.map fst done ++ acts :: later).
Proof.
  split; [reflexivity|]. split; [vm_compute; reflexivity|].
  apply (import_act_false nat (SampleServices.post_import 1) SampleServices.sorted_by_date
           SampleServices.json_dumps SampleServices.twelve_activities
           SampleServices.twelve_activities 0%nat eq_refl).
  vm_compute. reflexivity.
Defined.

Lemma get_all_koura_transactions_pages_witness :
  exists s',
    get_all_koura_transactions unit SampleServices.portal_signin
      (SampleServices.portal_pages 3) 10 42 SampleServices.fresh_session
    = Some (Ok [VInt 1; VInt 2; VInt 3], s')
    /\ exists asked chunks,
         koura_pages s' = koura_pages SampleServices.fresh_session ++ asked
         /\ List.map fst asked
            = List.map (fun i => Z.of_nat (S i)) (seq 0 (List.length asked))
         /\ Forall2 (fun a txs => page_transactions (answer_page (snd a)) = Ok txs)
              asked chunks
         /\ [VInt 1; VInt 2; VInt 3] = concat chunks.
Proof.
  eexists. split; [vm_compute; reflexivity|].
  apply (get_all_koura_transactions_pages unit SampleServices.portal_signin
           (SampleServices.portal_pages 3) 10 42 SampleServices.fresh_session).
  vm_compute. reflexivity.
Defined.

(** the portal that breaks down at its second page: two requests, and the
    first page is what comes back *)
Lemma get_all_koura_transactions_truncates_witness :
  exists r s' asked,
    get_all_koura_transactions unit SampleServices.portal_signin
      SampleServices.portal_breaking 2 42 SampleServices.fresh_session
    = Some (r, s')
    /\ koura_pages s' = koura_pages SampleServices.fresh_session ++ asked
    /\ Z.of_nat (List.length asked) <= 2
    /\ r = Ok [VInt 1]
    /\ List.map fst asked = [1; 2].
Proof.
  destruct (get_all_koura_transactions_truncates unit SampleServices.portal_signin
              SampleServices.portal_breaking 42 2 ltac:(lia)
              (fun token page_size p => eq_refl) 2%nat SampleServices.fresh_session
              ltac:(lia))
    as (r & s' & asked & Hrun & Hpages & Hlen & _).
  exists r, s', asked. split; [exact Hrun|]. split; [exact Hpages|]. split; [exact Hlen|].
  vm_compute in Hrun. injection Hrun as <- <-.
  cbn [koura_pages SampleServices.fresh_session app] in Hpages. subst asked.
  split; reflexivity.
Defined.

Lemma get_all_koura_transactions_endless_witness :
  0 < 1
  /\ get_all_koura_transactions unit SampleServices.portal_signin
       SampleServices.portal_empty 1000 42 SampleServices.fresh_session = None.
Proof.
  split; [lia|].
  apply (get_all_koura_transactions_endless unit SampleServices.portal_signin
           SampleServices.portal_empty 42 1 ltac:(lia)).
  intros token page page_size p. exists "", p. reflexivity.
Defined.

(** the activity stored at 09:30:05 suppresses the snapshot of the run of
    09:30:00 and not that of the run of 09:30:10 *)
Lemma snapshot_duplicate_shape_witness :
  exists activity later,
    run (reconstruct_fund Sample.koura "2024-03-01T09:30:00" Sample.cash_holding)
      = Ok (Some activity)
    /\ run (reconstruct_fund Sample.koura "2024-03-01T09:30:10" Sample.cash_holding)
       = Ok (Some later)
    /\ same_event SampleServices.stored_snapshot
         (dict_set "accountId" (VStr "acc") activity) = true
    /\ same_event SampleServices.stored_snapshot
         (dict_set "accountId" (VStr "acc") later) = false.
Proof.
  eexists _, _. split; [vm_compute; reflexivity|]. split; [vm_compute; reflexivity|].
  split.
  - destruct (snapshot_duplicate_shape (H := Sample.builtins) Sample.koura
                "2024-03-01T09:30:00" Sample.cash_holding _ SampleServices.stored_snapshot
                (VStr "acc") ltac:(vm_compute; reflexivity)) as [Hiff _].
    apply Hiff.
    eexists _, "2024-03-01T09:30:05.123Z", (VFloat Sample.float_150), Sample.float_150.
    split; [vm_compute; reflexivity|]. repeat split.
  - destruct (snapshot_duplicate_shape (H := Sample.builtins) Sample.koura
                "2024-03-01T09:30:10" Sample.cash_holding _ SampleServices.stored_snapshot
                (VStr "acc") ltac:(vm_compute; reflexivity)) as [_ Hother].
    apply (Hother "2024-03-01T09:30:05.123Z" eq_refl). discriminate.
Defined.

Lemma get_diff_fixed_point_witness :
  run (get_diff [Sample.ledger_act] [Sample.candidate; Sample.split_symbol_act])
    = Ok [Sample.split_symbol_act]
  /\ run (get_diff [Sample.ledger_act] [Sample.split_symbol_act])
     = Ok [Sample.split_symbol_act].
Proof.
  assert (H1 : run (get_diff [Sample.ledger_act]
                      [Sample.candidate; Sample.split_symbol_act])
               = Ok [Sample.split_symbol_act])
    by (vm_compute; reflexivity).
  split; [exact H1|].
  exact (get_diff_fixed_point (H := Sample.builtins) _ _ _ H1).
Defined.

Lemma get_diff_app_witness :
  run (get_diff [Sample.ledger_act] [Sample.candidate]) = Ok []
  /\ run (get_diff [Sample.ledger_act] [Sample.split_symbol_act])
     = Ok [Sample.split_symbol_act]
  /\ run (get_diff [Sample.ledger_act] ([Sample.candidate] ++ [Sample.split_symbol_act]))
     = Ok ([] ++ [Sample.split_symbol_act]).
Proof.
  assert (H1 : run (get_diff [Sample.ledger_act] [Sample.candidate]) = Ok [])
    by (vm_compute; reflexivity).
  assert (H2 : run (get_diff [Sample.ledger_act] [Sample.split_symbol_act])
               = Ok [Sample.split_symbol_act])
    by (vm_compute; reflexivity).
  split; [exact H1|]. split; [exact H2|].
  exact (get_diff_app (H := Sample.builtins) _ _ _ _ _ H1 H2).
Defined.

Lemma generate_chunks_degenerate_witness :
  generate_chunks [1; 2; 3] 0 = Raise ValueError
  /\ generate_chunks [1; 2; 3] (-2) = Ok [].
Proof.
  destruct (generate_chunks_degenerate [1; 2; 3] 0) as [Hzero _].
  destruct (generate_chunks_degenerate [1; 2; 3] (-2)) as [_ Hneg].
  split; [apply Hzero; reflexivity | apply Hneg; lia].
Defined.

Lemma get_diff_no_existing_witness :
  get_diff [] [Sample.candidate; Sample.tagged_candidate; Sample.candidate]
  = ret [Sample.candidate; Sample.tagged_candidate; Sample.candidate].
Proof.
  apply (get_diff_no_existing (H := Sample.builtins)
           [Sample.candidate; Sample.tagged_candidate; Sample.candidate]).
  repeat constructor; eexists; vm_compute; reflexivity.
Defined.

Lemma reconstruct_logs_each_holding_witness :
  exists activities,
    run (reconstruct_fund_purchases Sample.koura "2024-03-01T09:30:00" [] []
           [Sample.cash_holding; Sample.empty_holding; Sample.unmapped_holding])
      = Ok activities
    /\ List.length activities = 1%nat
    /\ List.length
         (logged (reconstruct_fund_purchases Sample.koura "2024-03-01T09:30:00" [] []
                    [Sample.cash_holding; Sample.empty_holding; Sample.unmapped_holding]))
       = 3%nat.
Proof.
  eexists. split; [vm_compute; reflexivity|]. split; [reflexivity|].
  eapply (proj1 (reconstruct_logs_each_holding (H := Sample.builtins) Sample.koura
                   "2024-03-01T09:30:00" [] []
                   [Sample.cash_holding; Sample.empty_holding; Sample.unmapped_holding])).
  vm_compute; reflexivity.
Defined.

Lemma set_account_ids_spec_witness :
  exists activity',
    set_account_ids (VStr "acc") [Sample.candidate; [("symbol", VStr "GF_KOURACASH")]] !! 1%nat
      = Some activity'
    /\ dict_get "accountId" activity' = Some (VStr "acc")
    /\ dict_get "symbol" activity' = Some (VStr "GF_KOURACASH").
Proof.
  destruct (set_account_ids_spec (VStr "acc")
              [Sample.candidate; [("symbol", VStr "GF_KOURACASH")]]) as [_ Hall].
  destruct (Hall 1%nat [("symbol", VStr "GF_KOURACASH")] eq_refl)
    as (activity' & Hat & Hid & Hother & _).
  exists activity'. split; [exact Hat|]. split; [exact Hid|].
  rewrite (Hother "symbol"); [reflexivity | discriminate].
Defined.
